(** * Hermes rate-limit tester: a shallow embedding of [Hermes.py]

    The development follows the source file top to bottom:
    [LatencyStats], [RunSummary.to_dict], [RunConfig], [parse_header_lines],
    [fetch], [run_probe], [save_json]/[load_json], [collect_config] and
    [run_headless]; then the lines of the log and [_drain_queue], the figures
    of [show_summary], [apply_config], [save_preset] and [load_preset].
    Definitions come first, the theorems about them second.

    Conventions.
    - A Python [int] is a [Z]; a Python [float] is a binary64 [float]
      (the kernel's primitive floats, with Python's operators).
    - A Python [str] is a [string]; every character stands for the code
      point of the same number (U+0000 .. U+00FF).
    - A Python [dict] (and [Counter]) is an insertion-ordered association
      list with one entry per key, see [PyDict].
    - What [raise] produces is a value of [exn], carried by [result]. *)

From Stdlib Require Import ZArith Lia Floats Ascii String.
From stdpp Require Import base decidable option list strings pretty.

Local Open Scope string_scope.
Local Open Scope list_scope.
Local Open Scope Z_scope.

Set Warnings "-register-all,-inexact-float".

(** ** Exceptions and results *)

(** The text of a [ValueError].  The two header messages are f-strings built
    around [repr(line)]; they are kept as the line they quote. *)
Inductive message :=
  | MsgText (text : string)
  | MsgHeaderFormat (line : string)          (* "... {line!r} (Name: Value)" *)
  | MsgHeaderNameEmpty (line : string).      (* "... {line!r}" *)

Inductive exn :=
  | ValueError (msg : message)
  | UnpackError                              (* [name, value = ...] on a list that is not a pair *)
  | KeyError (key : string)
  | TypeError                                (* a JSON document that is not an object *)
  | OSError (path : string)
  | JSONDecodeError (path : string)
  | OverflowError.                           (* [float(n)] on an [int] too large for a float *)

Inductive result (A : Type) :=
  | Ok (a : A)
  | Raise (e : exn).
Arguments Ok {A} a.
Arguments Raise {A} e.

Definition rbind {A B} (r : result A) (k : A -> result B) : result B :=
  match r with
  | Ok a => k a
  | Raise e => Raise e
  end.

Notation "x <-! r ;; k" := (rbind r (fun x => k))
  (at level 100, r at next level, right associativity).

(** ** Python floats *)

Module PyFloat.

(** [a < b], [a > b] and [a <= b] on floats. *)
Definition lt (a b : float) : bool := PrimFloat.ltb a b.
Definition gt (a b : float) : bool := lt b a.
Definition le (a b : float) : bool := PrimFloat.leb a b.

(** [float(n)] for an [int]: the nearest binary64 number, ties to even.
    Where that rounding leaves the range of the finite floats Python raises
    [OverflowError]; [fits n] tells that [float(n)] returns, and [of_int n]
    is an infinity when it does not. *)
Definition of_int (n : Z) : float := SF2Prim (binary_normalize prec emax n 0 false).

Definition fits (n : Z) : bool := negb (PrimFloat.is_infinity (of_int n)).

Definition is_nan (a : float) : bool := PrimFloat.is_nan a.

(** Truthiness: [0.0] and [-0.0] are falsy, every other float is truthy. *)
Definition truthy (a : float) : bool := negb (PrimFloat.eqb a 0%float).

(** [x or 0.0] for an optional float. *)
Definition or_zero (x : option float) : float :=
  match x with
  | Some a => if truthy a then a else 0%float
  | None => 0%float
  end.

End PyFloat.

(** ** Python strings *)

Module PyStr.

Definition code (c : ascii) : N := N_of_ascii c.

(** [str.isspace] on one character: TAB, LF, VT, FF, CR, FS, GS, RS, US,
    SPACE, NEL and NBSP. *)
Definition is_space (c : ascii) : bool :=
  let n := code c in
  ((9 <=? n) && (n <=? 13) || (28 <=? n) && (n <=? 31)
   || (n =? 32) || (n =? 133) || (n =? 160))%N.

(** The line boundaries of [str.splitlines] other than CR: LF, VT, FF, FS,
    GS, RS and NEL. *)
Definition is_linebreak (c : ascii) : bool :=
  let n := code c in
  ((10 <=? n) && (n <=? 12) || (28 <=? n) && (n <=? 30) || (n =? 133))%N.

Definition is_cr (c : ascii) : bool := (code c =? 13)%N.
Definition is_lf (c : ascii) : bool := (code c =? 10)%N.

Fixpoint lstrip (s : string) : string :=
  match s with
  | "" => ""
  | String c s' => if is_space c then lstrip s' else s
  end.

Fixpoint rstrip (s : string) : string :=
  match s with
  | "" => ""
  | String c s' =>
      match rstrip s' with
      | "" => if is_space c then "" else String c ""
      | r => String c r
      end
  end.

(** [s.strip()] *)
Definition strip (s : string) : string := rstrip (lstrip s).

(** [s.splitlines()]: [acc] holds the current line, last character first. *)
Fixpoint splitlines_from (acc : list ascii) (s : string) : list string :=
  match s with
  | "" => match acc with [] => [] | _ => [string_of_list_ascii (rev acc)] end
  | String c s' =>
      if is_cr c then
        match s' with
        | String c' s'' =>
            if is_lf c' then string_of_list_ascii (rev acc) :: splitlines_from [] s''
            else string_of_list_ascii (rev acc) :: splitlines_from [] s'
        | "" => [string_of_list_ascii (rev acc)]
        end
      else if is_linebreak c then
        string_of_list_ascii (rev acc) :: splitlines_from [] s'
      else splitlines_from (c :: acc) s'
  end.

Definition splitlines (s : string) : list string := splitlines_from [] s.

(** [ch in s] *)
Fixpoint contains (ch : ascii) (s : string) : bool :=
  match s with
  | "" => false
  | String c s' => if decide (c = ch) then true else contains ch s'
  end.

(** [s.split(ch, 1)]: one element when [ch] does not occur, else the text
    before its first occurrence and the text after it. *)
Fixpoint split_once (ch : ascii) (s : string) : list string :=
  match s with
  | "" => [""]
  | String c s' =>
      if decide (c = ch) then [""; s']
      else match split_once ch s' with
           | [a; b] => [String c a; b]
           | _ => [s]
           end
  end.

(** Truthiness of a string: non-empty. *)
Definition truthy (s : string) : bool := negb (bool_decide (s = "")).

(** Truthiness of an optional string: present and non-empty. *)
Definition opt_truthy (s : option string) : bool :=
  match s with
  | Some t => truthy t
  | None => false
  end.

(** [s.encode("utf-8")]: one byte below U+0080, two bytes up to U+00FF. *)
Definition byte_of_N (n : N) : Byte.byte := default Byte.x00 (Byte.of_N n).

Definition utf8_char (c : ascii) : list Byte.byte :=
  let n := code c in
  if (n <? 128)%N then [byte_of_N n]
  else [byte_of_N (192 + n / 64)%N; byte_of_N (128 + n mod 64)%N].

Fixpoint encode_utf8 (s : string) : list Byte.byte :=
  match s with
  | "" => []
  | String c s' => utf8_char c ++ encode_utf8 s'
  end.

(** [str(n)] for an [int]. *)
Definition of_int (n : Z) : string := pretty n.

(** ["%0<width>d" % n] for [0 <= n]. *)
Fixpoint pad_zeros (k : nat) (s : string) : string :=
  match k with
  | O => s
  | S k' => String "0" (pad_zeros k' s)
  end.

Definition zero_padded (width : nat) (n : Z) : string :=
  let s := pretty n in
  pad_zeros (width - String.length s) s.

End PyStr.

(** ** Python dictionaries *)

Module PyDict.
Section PyDict.
Context {K V : Type} `{EqDecision K}.

(** Entries in insertion order; the operations keep the keys distinct. *)
Definition t : Type := list (K * V).

(** [d.get(k)] *)
Fixpoint get (k : K) (d : list (K * V)) : option V :=
  match d with
  | [] => None
  | (k', v) :: d' => if decide (k = k') then Some v else get k d'
  end.

(** [d[k] = v]: an existing key keeps its place, a new one goes last. *)
Fixpoint set (k : K) (v : V) (d : list (K * V)) : list (K * V) :=
  match d with
  | [] => [(k, v)]
  | (k', v') :: d' =>
      if decide (k = k') then (k, v) :: d' else (k', v') :: set k v d'
  end.

Definition keys (d : list (K * V)) : list K := map fst d.
Definition values (d : list (K * V)) : list V := map snd d.

(** A dict comprehension [{f(k): g(v) for k, v in d.items()}] and the like:
    the pairs are assigned in order. *)
Definition of_items (items : list (K * V)) : list (K * V) :=
  foldl (fun d kv => set (fst kv) (snd kv) d) [] items.

End PyDict.
Arguments t : clear implicits.
End PyDict.

(** ** [LatencyStats] *)

Record LatencyStats := mkLatencyStats {
  count : Z;
  total_ms : float;
  min_ms : option float;
  max_ms : option float
}.

(** The dataclass defaults. *)
Definition LatencyStats_new : LatencyStats :=
  {| count := 0; total_ms := 0%float; min_ms := None; max_ms := None |}.

(** [self.min_ms is None or latency_ms < self.min_ms] *)
Definition min_update (cur : option float) (latency_ms : float) : option float :=
  match cur with
  | None => Some latency_ms
  | Some m => if PyFloat.lt latency_ms m then Some latency_ms else Some m
  end.

(** [self.max_ms is None or latency_ms > self.max_ms] *)
Definition max_update (cur : option float) (latency_ms : float) : option float :=
  match cur with
  | None => Some latency_ms
  | Some m => if PyFloat.gt latency_ms m then Some latency_ms else Some m
  end.

(** [LatencyStats.add] *)
Definition add (self : LatencyStats) (latency_ms : float) : LatencyStats :=
  {| count := count self + 1;
     total_ms := PrimFloat.add (total_ms self) latency_ms;
     min_ms := min_update (min_ms self) latency_ms;
     max_ms := max_update (max_ms self) latency_ms |}.

(** [LatencyStats.mean]: the quotient when [float(self.count)] exists
    ([PyFloat.fits]); for a larger count the division raises
    [OverflowError]. *)
Definition mean (self : LatencyStats) : option float :=
  if decide (count self = 0) then None
  else Some (PrimFloat.div (total_ms self) (PyFloat.of_int (count self))).

(** A sequence of [add] calls, oldest first. *)
Definition add_all (self : LatencyStats) (samples : list float) : LatencyStats :=
  foldl add self samples.

(** ** [parse_header_lines] *)

Definition colon : ascii := ":"%char.

(** One turn of the [for line in raw.splitlines()] loop. *)
Definition parse_header_line (headers : PyDict.t string string) (line : string)
  : result (PyDict.t string string) :=
  let striped := PyStr.strip line in
  if negb (PyStr.truthy striped) then Ok headers
  else if negb (PyStr.contains colon striped) then
    Raise (ValueError (MsgHeaderFormat line))
  else
    match PyStr.split_once colon striped with
    | [name; value] =>
        let name := PyStr.strip name in
        let value := PyStr.strip value in
        if negb (PyStr.truthy name) then Raise (ValueError (MsgHeaderNameEmpty line))
        else Ok (PyDict.set name value headers)
    | _ => Raise UnpackError
    end.

Fixpoint parse_header_loop (headers : PyDict.t string string) (lines : list string)
  : result (PyDict.t string string) :=
  match lines with
  | [] => Ok headers
  | line :: rest =>
      headers' <-! parse_header_line headers line ;;
      parse_header_loop headers' rest
  end.

Definition parse_header_lines (raw : string) : result (PyDict.t string string) :=
  parse_header_loop [] (PyStr.splitlines raw).

(** ** [RunConfig] *)

Record RunConfig := mkRunConfig {
  url : string;
  method : string;
  rps : Z;
  duration_s : Z;
  timeout_s : float;
  headers : PyDict.t string string;
  body : option (list Byte.byte);
  headers_text : string;
  body_text : string
}.

(** [RunConfig.from_fields] *)
Definition from_fields (url method : string) (rps duration_s : Z) (timeout_s : float)
    (headers_text body_text : string) : result RunConfig :=
  headers <-! parse_header_lines headers_text ;;
  let body := if PyStr.truthy body_text then Some (PyStr.encode_utf8 body_text) else None in
  Ok {| url := url; method := method; rps := rps; duration_s := duration_s;
        timeout_s := timeout_s; headers := headers; body := body;
        headers_text := headers_text; body_text := body_text |}.

(** ** JSON values *)

Inductive json :=
  | JNull
  | JBool (b : bool)
  | JInt (n : Z)
  | JFloat (x : float)
  | JStr (s : string)
  | JArr (items : list json)
  | JObj (fields : list (string * json)).

(** Truthiness of a value read from JSON. *)
Definition json_truthy (v : json) : bool :=
  match v with
  | JNull => false
  | JBool b => b
  | JInt n => negb (n =? 0)
  | JFloat x => PyFloat.truthy x
  | JStr s => PyStr.truthy s
  | JArr items => match items with [] => false | _ => true end
  | JObj fields => match fields with [] => false | _ => true end
  end.

(** [d.get(key, default)] *)
Definition get_default (key : string) (default : json) (d : PyDict.t string json) : json :=
  match PyDict.get key d with
  | Some v => v
  | None => default
  end.

(** [RunConfig.to_dict] *)
Definition RunConfig_to_dict (self : RunConfig) : PyDict.t string json :=
  [("url", JStr (url self));
   ("method", JStr (method self));
   ("rps", JInt (rps self));
   ("duration_s", JInt (duration_s self));
   ("timeout_s", JFloat (timeout_s self));
   ("headers", JStr (headers_text self));
   ("body", JStr (body_text self))].

(** The built-ins whose result the interpreter computes are parameters:
    [str.upper], and [str], [int] and [float] applied to a JSON value. *)
Section Builtins.
Variable py_upper : string -> string.
Variable py_str : json -> string.
Variable py_int : json -> result Z.
Variable py_float : json -> result float.

(** [s.strip().upper() or "GET"] *)
Definition method_or_get (s : string) : string :=
  let m := py_upper (PyStr.strip s) in
  if PyStr.truthy m then m else "GET".

(** [x or ""] *)
Definition or_empty (v : json) : json :=
  if json_truthy v then v else JStr "".

(** [RunConfig.from_dict] *)
Definition from_dict (data : PyDict.t string json) : result RunConfig :=
  match PyDict.get "url" data with
  | None => Raise (KeyError "url")
  | Some u =>
      let url := PyStr.strip (py_str u) in
      let method := method_or_get (py_str (get_default "method" (JStr "GET") data)) in
      rps <-! py_int (get_default "rps" (JInt 1) data) ;;
      duration_s <-! py_int (get_default "duration_s" (JInt 1) data) ;;
      timeout_s <-! py_float (get_default "timeout_s" (JInt 10) data) ;;
      let headers_txt := py_str (or_empty (get_default "headers" (JStr "") data)) in
      let body_txt := py_str (or_empty (get_default "body" (JStr "") data)) in
      from_fields url method rps duration_s timeout_s headers_txt body_txt
  end.
End Builtins.

(** ** [RunSummary] *)

(** A key of the status [Counter]: an HTTP status or a string. *)
Inductive status_key :=
  | KInt (status : Z)
  | KStr (s : string).

Global Instance status_key_eq_dec : EqDecision status_key.
Proof. solve_decision. Defined.

(** [str(k)] *)
Definition str_key (k : status_key) : string :=
  match k with
  | KInt status => PyStr.of_int status
  | KStr s => s
  end.

(** [counter[k]]: a key that is absent reads as zero. *)
Definition counter_get (k : status_key) (c : PyDict.t status_key Z) : Z :=
  default 0 (PyDict.get k c).

(** [counter[k] += 1] *)
Definition counter_incr (k : status_key) (c : PyDict.t status_key Z)
  : PyDict.t status_key Z :=
  PyDict.set k (counter_get k c + 1) c.

(** [sum(counter.values())] *)
Definition counter_total (c : PyDict.t status_key Z) : Z :=
  foldr Z.add 0 (PyDict.values c).

(** A naive [datetime], as [datetime.utcnow()] returns it. *)
Record datetime := mkDatetime {
  year : Z; month : Z; day : Z;
  hour : Z; minute : Z; second : Z; microsecond : Z
}.

(** [dt.isoformat()] of a naive [datetime]. *)
Definition isoformat (dt : datetime) : string :=
  PyStr.zero_padded 4 (year dt) +:+ "-" +:+ PyStr.zero_padded 2 (month dt) +:+ "-"
  +:+ PyStr.zero_padded 2 (day dt) +:+ "T" +:+ PyStr.zero_padded 2 (hour dt) +:+ ":"
  +:+ PyStr.zero_padded 2 (minute dt) +:+ ":" +:+ PyStr.zero_padded 2 (second dt)
  +:+ (if decide (microsecond dt = 0) then ""
       else "." +:+ PyStr.zero_padded 6 (microsecond dt)).

Record RunSummary := mkRunSummary {
  total_sent : Z;
  status_counts : PyDict.t status_key Z;
  elapsed_s : float;
  latencies : LatencyStats;
  started_at : datetime
}.

Section Summary.
(** [round(x, 3)] is a parameter. *)
Variable round3 : float -> float.

(** [{str(k): v for k, v in self.status_counts.items()}] *)
Definition status_counts_to_dict (c : PyDict.t status_key Z) : PyDict.t string json :=
  PyDict.of_items (map (fun kv => (str_key (fst kv), JInt (snd kv))) c).

(** The value stored under ["latency"]. *)
Definition latency_to_dict (l : LatencyStats) : PyDict.t string json :=
  if negb (count l =? 0) then
    [("count", JInt (count l));
     ("average_ms", JFloat (round3 (PyFloat.or_zero (mean l))));
     ("min_ms", JFloat (round3 (PyFloat.or_zero (min_ms l))));
     ("max_ms", JFloat (round3 (PyFloat.or_zero (max_ms l))))]
  else [("count", JInt 0)].

(** [RunSummary.to_dict] *)
Definition to_dict (self : RunSummary) : PyDict.t string json :=
  let data :=
    [("total_sent", JInt (total_sent self));
     ("elapsed_s", JFloat (round3 (elapsed_s self)));
     ("status_counts", JObj (status_counts_to_dict (status_counts self)));
     ("started_at", JStr (isoformat (started_at self) +:+ "Z"))] in
  PyDict.set "latency" (JObj (latency_to_dict (latencies self))) data.
End Summary.

(** ** [fetch] *)

(** What an awaited call raises.  [asyncio.CancelledError] derives from
    [BaseException] and not from [Exception]; [Exc] is an instance of a
    subclass of [Exception], with [type(exc).__name__] and [str(exc)]. *)
Inductive raised :=
  | CancelledError
  | Exc (type_name text : string).

(** What the transport does with one request, that is the block
    [async with session.request(...) as resp: await resp.read()]. *)
Inductive transport :=
  | Responded (status : Z)
  | Failed (e : raised).

Record request := mkRequest {
  req_method : string;
  req_url : string;
  req_timeout : float;
  req_headers : PyDict.t string string;
  req_data : option (list Byte.byte)
}.

(** One call as the environment plays it: [time.perf_counter()] before the
    request, the transport's answer, and [time.perf_counter()] after it. *)
Record attempt := mkAttempt {
  t0 : float;
  answer : transport;
  t1 : float
}.

(** [(time.perf_counter() - t0) * 1000.0] *)
Definition elapsed_ms (a : attempt) : float :=
  PrimFloat.mul (PrimFloat.sub (t1 a) (t0 a)) 1000%float.

(** What [task.result()] does for a finished task: the tuple the coroutine
    returned, or the exception it ended with. *)
Inductive finished_result :=
  | Returned (status : option Z) (latency_ms : option float) (error : option string)
  | Raises (e : raised).

(** [fetch]: [except Exception] catches [Exc] and lets [CancelledError]
    through. *)
Definition fetch (session : request -> attempt) (method url : string)
    (timeout_s : float) (headers : PyDict.t string string)
    (body : option (list Byte.byte)) : finished_result :=
  let a := session (mkRequest method url timeout_s headers body) in
  match answer a with
  | Responded status => Returned (Some status) (Some (elapsed_ms a)) None
  | Failed (Exc _ text) => Returned None (Some (elapsed_ms a)) (Some text)
  | Failed CancelledError => Raises CancelledError
  end.

(** ** [run_probe] *)

(** A line put on [log_queue], kept as the fields its f-string formats
    (the wall-clock stamp of a line is left out). *)
Inductive log_entry :=
  | LogRequest (seq : Z) (status_display : string) (lat_display : option float)
               (err_txt : string)
  | LogEnd (sent : Z) (total : float).

(** Ghost events: what the loop did that the summary does not show. *)
Inductive ghost :=
  | Launched (wave_size : nat)     (* one wave of [asyncio.create_task] calls *)
  | Skipped (task_id : nat)        (* the [continue] under [except CancelledError] *)
  | Slept (seconds : float).       (* [await asyncio.sleep(to_sleep)] *)

(** The local variables of [run_probe], the queue and the stop flag. *)
Record probe_state := mkProbe {
  sent : Z;
  st_counts : PyDict.t status_key Z;
  st_latencies : LatencyStats;
  st_queue : list log_entry;
  st_stop : bool;
  trace : list ghost
}.

Definition push_trace (g : ghost) (st : probe_state) : probe_state :=
  mkProbe (sent st) (st_counts st) (st_latencies st) (st_queue st) (st_stop st)
          (trace st ++ [g]).

(** [stop_flag.is_set()], where the operator may have set the flag since the
    last look; the flag is never cleared during a run. *)
Definition observe_stop (set_since : bool) (st : probe_state) : probe_state :=
  mkProbe (sent st) (st_counts st) (st_latencies st) (st_queue st)
          (st_stop st || set_since) (trace st).

(** Lines 255-271: one outcome is counted, measured, tallied and logged. *)
Definition record_outcome (st : probe_state) (status : option Z)
    (latency_ms : option float) (error : option string) : probe_state :=
  let sent' := sent st + 1 in
  let latencies' :=
    match latency_ms with
    | Some l => add (st_latencies st) l
    | None => st_latencies st
    end in
  let status_key :=
    match status with
    | None => KStr "ERR"
    | Some s => KInt s
    end in
  let counts' := counter_incr status_key (st_counts st) in
  let line := LogRequest sent' (str_key status_key) latency_ms
                         (PyStr.strip (default "" error)) in
  mkProbe sent' counts' latencies' (st_queue st ++ [line]) (st_stop st) (trace st).

(** The body of [for finished in done]. *)
Definition process_finished (st : probe_state) (task_id : nat) (r : finished_result)
  : probe_state :=
  match r with
  | Returned status latency_ms error => record_outcome st status latency_ms error
  | Raises CancelledError => push_trace (Skipped task_id) st
  | Raises (Exc type_name text) =>
      record_outcome st None (Some 0%float) (Some (type_name +:+ ": " +:+ text))
  end.

(** A task of the current wave: the transport behaviour it will meet and
    whether [task.cancel()] was called on it. *)
Record task := mkTask {
  task_id : nat;
  play : request -> attempt;
  cancel_requested : bool
}.

Definition request_cancel (t : task) : task :=
  mkTask (task_id t) (play t) true.

(** A task that was cancelled while pending ends with [CancelledError],
    since [fetch] does not catch it; any other task ends as [fetch] does. *)
Definition task_result (req : request) (t : task) : finished_result :=
  if cancel_requested t then Raises CancelledError
  else fetch (play t) (req_method req) (req_url req) (req_timeout req)
             (req_headers req) (req_data req).

Fixpoint remove_task (id : nat) (pending : list task) : option (task * list task) :=
  match pending with
  | [] => None
  | t :: ts =>
      if decide (task_id t = id) then Some (t, ts)
      else match remove_task id ts with
           | Some (x, ts') => Some (x, t :: ts')
           | None => None
           end
  end.

(** The split [done, pending = await asyncio.wait(pending, ...)]: the
    environment names the tasks that finished, in the order the [done] set is
    iterated; a name that is not pending is ignored. *)
Fixpoint take_done (ids : list nat) (pending : list task) : list task * list task :=
  match ids with
  | [] => ([], pending)
  | id :: ids' =>
      match remove_task id pending with
      | Some (t, pending') =>
          let (done, rest) := take_done ids' pending' in (t :: done, rest)
      | None => take_done ids' pending
      end
  end.

(** One turn of [while pending] as the environment plays it. *)
Record poll_script := mkPoll {
  stop_now : bool;          (* the operator set the flag before this look *)
  done_ids : list nat       (* the tasks [asyncio.wait] reports done *)
}.

Definition poll (req : request) (p : poll_script) (st : probe_state)
    (pending : list task) : probe_state * list task :=
  let st := observe_stop (stop_now p) st in
  let pending := if st_stop st then map request_cancel pending else pending in
  let (done, pending') := take_done (done_ids p) pending in
  (foldl (fun s t => process_finished s (task_id t) (task_result req t)) st done,
   pending').

(** [while pending]: when the script has no further turn, the tasks still
    pending all finish in one last wait. *)
Fixpoint wait_loop (req : request) (polls : list poll_script) (st : probe_state)
    (pending : list task) : probe_state :=
  match pending with
  | [] => st
  | _ :: _ =>
      match polls with
      | [] => fst (poll req (mkPoll false (map task_id pending)) st pending)
      | p :: polls' =>
          let (st', pending') := poll req p st pending in
          wait_loop req polls' st' pending'
      end
  end.

(** One turn of the outer [while] as the environment plays it. *)
Record wave_script := mkWave {
  now : float;                          (* [perf_counter()] in the loop test *)
  stop_before_test : bool;              (* flag set before the loop test *)
  sec_start : float;
  plays : nat -> request -> attempt;    (* the transport, per launched task *)
  polls : list poll_script;
  sec_end : float;                      (* [perf_counter()] after the wave *)
  stop_before_sleep : bool              (* flag set before the sleep test *)
}.

(** The body of the outer loop. *)
Definition run_wave (req : request) (rps : Z) (w : wave_script) (st : probe_state)
  : probe_state :=
  let tasks := map (fun i => mkTask i (plays w i) false) (seq 0 (Z.to_nat rps)) in
  let st := push_trace (Launched (length tasks)) st in
  let st := wait_loop req (polls w) st tasks in
  let elapsed := PrimFloat.sub (sec_end w) (sec_start w) in
  let to_sleep := PrimFloat.sub 1%float elapsed in
  if PyFloat.gt to_sleep 0%float then
    let st := observe_stop (stop_before_sleep w) st in
    if negb (st_stop st) then push_trace (Slept to_sleep) st else st
  else st.

(** [while time.perf_counter() < end_time and not stop_flag.is_set()]: the
    script lists the turns in which the clock is read; when it ends the clock
    has passed [end_time]. *)
Fixpoint run_waves (req : request) (rps : Z) (end_time : float)
    (ws : list wave_script) (st : probe_state) : probe_state :=
  match ws with
  | [] => st
  | w :: ws' =>
      if PyFloat.lt (now w) end_time then
        let st := observe_stop (stop_before_test w) st in
        if negb (st_stop st) then run_waves req rps end_time ws' (run_wave req rps w st)
        else st
      else st
  end.

Record run_script := mkRun {
  start : float;                 (* the first [perf_counter()] *)
  summary_start : datetime;      (* [datetime.utcnow()] *)
  waves : list wave_script;
  finish : float                 (* the last [perf_counter()] *)
}.

(** [run_probe] returns the summary; the final state holds the queue, the
    flag and the ghost trace.  This is the run when [float(duration_s)]
    exists ([PyFloat.fits]); otherwise line 223 raises [OverflowError]
    before the loop, see [run_headless]. *)
Definition run_probe (url method : string) (rps duration_s : Z) (timeout_s : float)
    (headers : PyDict.t string string) (body : option (list Byte.byte))
    (log_queue : list log_entry) (stop_flag : bool) (env : run_script)
  : RunSummary * probe_state :=
  let st := mkProbe 0 [] LatencyStats_new log_queue stop_flag [] in
  let end_time := PrimFloat.add (start env) (PyFloat.of_int duration_s) in
  let req := mkRequest method url timeout_s headers body in
  let st := run_waves req rps end_time (waves env) st in
  let total := PrimFloat.sub (finish env) (start env) in
  let st := mkProbe (sent st) (st_counts st) (st_latencies st)
                    (st_queue st ++ [LogEnd (sent st) total])
                    (st_stop st) (trace st) in
  (mkRunSummary (sent st) (st_counts st) total (st_latencies st) (summary_start env), st).

(** ** [save_json] and [load_json] *)

(** A JSON value as [json.loads] can return it: the names of an object are
    distinct, at every depth. *)
Fixpoint json_wf (v : json) : bool :=
  match v with
  | JArr items => forallb json_wf items
  | JObj fields =>
      bool_decide (NoDup (map fst fields)) && forallb (fun kv => json_wf (snd kv)) fields
  | _ => true
  end.

Section Store.
(** The contents of a file, and the [json] module's writer
    ([json.dumps(payload, ensure_ascii=False, indent=2)]) and reader
    ([json.loads]). *)
Variable text : Type.
Variable dumps : json -> text.
Variable loads : text -> option json.

(** [save_json]: the file system is a dictionary from paths to contents
    (directories are not modelled). *)
Definition save_json (fs : PyDict.t string text) (path : string)
    (payload : PyDict.t string json) : PyDict.t string text :=
  PyDict.set path (dumps (JObj payload)) fs.

(** [load_json] *)
Definition load_json (fs : PyDict.t string text) (path : string) : result json :=
  match PyDict.get path fs with
  | None => Raise (OSError path)
  | Some contents =>
      match loads contents with
      | Some v => Ok v
      | None => Raise (JSONDecodeError path)
      end
  end.
End Store.

(** [data["config"] if "config" in data else data], then what [from_dict]
    needs of it: a dictionary. *)
Definition preset_fields (data : json) : result (PyDict.t string json) :=
  let chosen :=
    match data with
    | JObj fields => default data (PyDict.get "config" fields)
    | _ => data
    end in
  match chosen with
  | JObj fields => Ok fields
  | _ => Raise TypeError
  end.

(** ** [RateLimitTesterGUI.collect_config] *)

(** The texts of the entry widgets. *)
Record form := mkForm {
  e_url : string;
  e_rps : string;
  e_dur : string;
  e_to : string;
  cb_method : string;
  txt_headers : string;
  txt_body : string
}.

Section Gui.
Variable py_upper : string -> string.
(** [int(text)] and [float(text)]: [None] when they raise [ValueError]. *)
Variable int_of_str : string -> option Z.
Variable float_of_str : string -> option float.

(** [None] is the result after a message box; nothing is raised. *)
Definition collect_config (f : form) : option RunConfig :=
  let url := PyStr.strip (e_url f) in
  match int_of_str (PyStr.strip (e_rps f)) with
  | None => None
  | Some rps_val =>
  match int_of_str (PyStr.strip (e_dur f)) with
  | None => None
  | Some duration =>
  match float_of_str (PyStr.strip (e_to f)) with
  | None => None
  | Some timeout =>
      let method := method_or_get py_upper (cb_method f) in
      if negb (PyStr.truthy url) || (rps_val <=? 0) || (duration <=? 0)
         || PyFloat.le timeout 0%float
      then None
      else
        match from_fields url method rps_val duration timeout
                          (txt_headers f) (txt_body f) with
        | Ok config => Some config
        | Raise _ => None
        end
  end end end.
End Gui.

(** ** [run_headless] *)

(** [{"config": config.to_dict(), "summary": summary.to_dict()}] *)
Definition summary_payload (round3 : float -> float) (config : RunConfig)
    (summary : RunSummary) : PyDict.t string json :=
  [("config", JObj (RunConfig_to_dict config));
   ("summary", JObj (to_dict round3 summary))].

(** The namespace [build_parser] produces. *)
Record args := mkArgs {
  arg_url : option string;
  arg_method : string;
  arg_rps : Z;
  arg_duration : Z;
  arg_timeout : float;
  arg_headers : option string;
  arg_headers_path : option string;
  arg_body : option string;
  arg_body_path : option string;
  arg_preset : option string;
  arg_log_file : option string;
  arg_summary_json : option string;
  arg_print_log : bool;
  arg_headless : bool
}.

(** What [run_headless] does to the outside, in order. *)
Inductive event :=
  | EvReadText (path : string)
  | EvLoadJson (path : string)
  | EvFromDict
  | EvFromFields
  | EvPrintStart (url method : string)
  | EvRunProbe (config : RunConfig)
  | EvWriteLog (path : string) (lines : list log_entry)
  | EvPrintLog (lines : list log_entry)
  | EvSaveJson (path : string) (payload : PyDict.t string json)
  | EvPrint (payload : PyDict.t string json).

(** A computation with a trace of events that may end in an exception. *)
Definition io (A : Type) : Type := (list event * result A)%type.

Definition io_ret {A} (a : A) : io A := ([], Ok a).
Definition io_raise {A} (e : exn) : io A := ([], Raise e).
Definition io_emit (e : event) : io unit := ([e], Ok tt).
Definition io_lift {A} (r : result A) : io A := ([], r).

Definition io_bind {A B} (m : io A) (k : A -> io B) : io B :=
  match m with
  | (tr, Ok a) => let (tr', r) := k a in (tr ++ tr', r)
  | (tr, Raise e) => (tr, Raise e)
  end.

Notation "x <- m ;;; k" := (io_bind m (fun x => k))
  (at level 100, m at next level, right associativity).
Notation "m ;;; k" := (io_bind m (fun _ => k))
  (at level 100, right associativity).

Section Headless.
Variable py_upper : string -> string.
Variable py_str : json -> string.
Variable py_int : json -> result Z.
Variable py_float : json -> result float.
Variable round3 : float -> float.
(** The file system as the run finds it: [Path(p).read_text(...)] and
    [load_json(Path(p))]; and as it answers the two writes,
    [Path(p).write_text(...)] of the log and [save_json(Path(p), payload)],
    either of which may raise. *)
Variable read_text : string -> result string.
Variable read_json : string -> result json.
Variable write_text : string -> list log_entry -> result unit.
Variable write_json : string -> PyDict.t string json -> result unit.

(** [x or y] on strings, integers and floats. *)
Definition str_or (x : option string) (y : string) : string :=
  match x with
  | Some s => if PyStr.truthy s then s else y
  | None => y
  end.
Definition int_or (x y : Z) : Z := if x =? 0 then y else x.
Definition float_or (x y : float) : float := if PyFloat.truthy x then x else y.

(** The text given inline, or else the contents of the file named. *)
Definition inline_or_file (inline path : option string) : io string :=
  if PyStr.opt_truthy inline then io_ret (default "" inline)
  else if PyStr.opt_truthy path then
    io_emit (EvReadText (default "" path)) ;;; io_lift (read_text (default "" path))
  else io_ret "".

(** Lines 926-929 of [run_headless]: the two checks on the arguments. *)
Definition headless_checks (a : args) : result unit :=
  if PyStr.opt_truthy (arg_headers a) && PyStr.opt_truthy (arg_headers_path a) then
    Raise (ValueError (MsgText "--headers and --headers-path cannot be used together"))
  else if PyStr.opt_truthy (arg_body a) && PyStr.opt_truthy (arg_body_path a) then
    Raise (ValueError (MsgText "--body and --body-path cannot be used together"))
  else Ok tt.

(** Lines 926-973 of [run_headless]: from the arguments to the
    configuration. *)
Definition headless_config (a : args) : io RunConfig :=
  io_lift (headless_checks a) ;;;
  headers_txt <- inline_or_file (arg_headers a) (arg_headers_path a) ;;;
  body_txt <- inline_or_file (arg_body a) (arg_body_path a) ;;;
  fields <-
    (if PyStr.opt_truthy (arg_preset a) then
       io_emit (EvLoadJson (default "" (arg_preset a))) ;;;
       data <- io_lift (read_json (default "" (arg_preset a))) ;;;
       io_emit EvFromDict ;;;
       preset <- io_lift (d <-! preset_fields data ;;
                          from_dict py_upper py_str py_int py_float d) ;;;
       io_ret (str_or (arg_url a) (url preset),
               str_or (Some (arg_method a)) (method preset),
               int_or (arg_rps a) (rps preset),
               int_or (arg_duration a) (duration_s preset),
               float_or (arg_timeout a) (timeout_s preset),
               str_or (Some headers_txt) (headers_text preset),
               str_or (Some body_txt) (body_text preset))
     else
       io_ret (default "" (arg_url a),
               py_upper (str_or (Some (arg_method a)) "GET"),
               arg_rps a, arg_duration a, arg_timeout a, headers_txt, body_txt)) ;;;
  let '(url, method, rps, duration, timeout, headers_txt, body_txt) := fields in
  if negb (PyStr.truthy url) then
    io_raise (ValueError (MsgText
      "URL is required in headless mode (use --url or preset with URL)"))
  else
    io_emit EvFromFields ;;;
    io_lift (from_fields (PyStr.strip url) (method_or_get py_upper method)
                         rps duration timeout headers_txt body_txt).

(** [run_headless]: the configuration, the run, the outputs.  An event
    stands for the call being made.  The run raises [OverflowError] at line
    223, before any request, when [float(duration_s)] does not exist; each
    of the two writes may raise, and what is raised ends [run_headless]. *)
Definition run_headless (a : args) (env : run_script) : io (PyDict.t string json) :=
  config <- headless_config a ;;;
  io_emit (EvPrintStart (url config) (method config)) ;;;
  io_emit (EvRunProbe config) ;;;
  (if PyFloat.fits (duration_s config) then io_ret tt else io_raise OverflowError) ;;;
  let (summary, st) :=
    run_probe (url config) (method config) (rps config) (duration_s config)
              (timeout_s config) (headers config) (body config) [] false env in
  let logs := st_queue st in
  (if PyStr.opt_truthy (arg_log_file a)
   then io_emit (EvWriteLog (default "" (arg_log_file a)) logs) ;;;
        io_lift (write_text (default "" (arg_log_file a)) logs)
   else io_ret tt) ;;;
  (if arg_print_log a then io_emit (EvPrintLog logs) else io_ret tt) ;;;
  let payload := summary_payload round3 config summary in
  (if PyStr.opt_truthy (arg_summary_json a)
   then io_emit (EvSaveJson (default "" (arg_summary_json a)) payload) ;;;
        io_lift (write_json (default "" (arg_summary_json a)) payload)
   else io_ret tt) ;;;
  io_emit (EvPrint payload) ;;;
  io_ret payload.
End Headless.

(** ** More of Python's text operations *)

Module PyText.

(** A decimal digit and its value. *)
Definition is_decimal (c : ascii) : bool :=
  let n := PyStr.code c in ((48 <=? n) && (n <=? 57))%N.

Definition digit_value (c : ascii) : Z := Z.of_N (PyStr.code c) - 48.

(** [str.isdigit] on one character: the decimal digits and the superscripts
    two, three and one. *)
Definition is_digit (c : ascii) : bool :=
  let n := PyStr.code c in
  (is_decimal c || (n =? 178) || (n =? 179) || (n =? 185))%N.

(** The white space [int] skips at both ends of its argument: TAB, LF, VT,
    FF, CR, SPACE, NEL and NBSP. *)
Definition int_space (c : ascii) : bool :=
  let n := PyStr.code c in
  ((9 <=? n) && (n <=? 13) || (n =? 32) || (n =? 133) || (n =? 160))%N.

Fixpoint lstrip_by (f : ascii -> bool) (s : string) : string :=
  match s with
  | "" => ""
  | String c s' => if f c then lstrip_by f s' else s
  end.

Fixpoint rstrip_by (f : ascii -> bool) (s : string) : string :=
  match s with
  | "" => ""
  | String c s' =>
      match rstrip_by f s' with
      | "" => if f c then "" else String c ""
      | r => String c r
      end
  end.

(** The digits after the first one: an underscore may stand between two
    digits. *)
Fixpoint digits_from (acc : Z) (after_underscore : bool) (s : string) : option Z :=
  match s with
  | "" => if after_underscore then None else Some acc
  | String c s' =>
      if is_decimal c then digits_from (acc * 10 + digit_value c) false s'
      else if decide (c = "_"%char) then
        (if after_underscore then None else digits_from acc true s')
      else None
  end.

Definition digits (s : string) : option Z :=
  match s with
  | "" => None
  | String c s' => if is_decimal c then digits_from (digit_value c) false s' else None
  end.

Fixpoint count_decimal (s : string) : nat :=
  match s with
  | "" => O
  | String c s' => (if is_decimal c then 1 else 0) + count_decimal s'
  end.

(** [int(s)] for a text: [None] stands for [ValueError].  More than 4300
    digits are refused. *)
Definition int_of_str (s : string) : option Z :=
  let t := rstrip_by int_space (lstrip_by int_space s) in
  if (4300 <? count_decimal t)%nat then None
  else
    match t with
    | String "+" r => digits r
    | String "-" r => Z.opp <$> digits r
    | _ => digits t
    end.

Fixpoint spaces (k : nat) : string :=
  match k with
  | O => ""
  | S k' => String " " (spaces k')
  end.

(** [format(s, "<w")] and [format(s, ">w")]: padding, never cutting. *)
Definition ljust (width : nat) (s : string) : string :=
  s +:+ spaces (width - String.length s).
Definition rjust (width : nat) (s : string) : string :=
  spaces (width - String.length s) +:+ s.

Fixpoint drop (k : nat) (s : string) : string :=
  match k, s with
  | O, _ => s
  | S k', String _ s' => drop k' s'
  | S _, "" => ""
  end.

Fixpoint take (k : nat) (s : string) : string :=
  match k, s with
  | S k', String c s' => String c (take k' s')
  | _, _ => ""
  end.

(** [s[a:b]] for [0 <= a <= b]. *)
Definition slice (a b : nat) (s : string) : string := take (b - a) (drop a s).

(** [s.startswith(p)] *)
Fixpoint startswith (p s : string) : bool :=
  match p, s with
  | "", _ => true
  | String a p', String b s' => if decide (a = b) then startswith p' s' else false
  | String _ _, "" => false
  end.

(** [set(s) == {c}]: [s] is not empty and made of [c] only. *)
Fixpoint only_char (c : ascii) (s : string) : bool :=
  match s with
  | "" => false
  | String a "" => bool_decide (a = c)
  | String a s' => bool_decide (a = c) && only_char c s'
  end.

End PyText.

(** ** The log lines as text, and [_drain_queue] *)

(** [HEADER_LINE] *)
Definition HEADER_LINE : string :=
  PyText.ljust 23 "TIME" +:+ "  " +:+ PyText.rjust 6 "SEQ" +:+ "  "
  +:+ PyText.rjust 5 "STAT" +:+ "  " +:+ PyText.rjust 8 "LAT(ms)" +:+ "  ERROR".

(** The line [run_probe] puts on the queue for one request (line 270):
    [ts_iso] is [datetime.now().isoformat(timespec="milliseconds")] and
    [lat_display] the latency as [f"{latency_ms:.2f}"] writes it, or "-". *)
Definition request_line (ts_iso : string) (sent : Z) (status_display lat_display
    err_txt : string) : string :=
  PyText.ljust 23 ts_iso +:+ "  " +:+ PyText.rjust 6 (PyStr.of_int sent) +:+ "  "
  +:+ PyText.rjust 5 status_display +:+ "  " +:+ PyText.rjust 8 lat_display +:+ "  "
  +:+ err_txt.

(** [f"{latency_ms:.2f}" if latency_ms is not None else "-"], with [fmt2]
    for the format [.2f]. *)
Definition lat_display (fmt2 : float -> string) (latency_ms : option float) : string :=
  match latency_ms with
  | Some l => fmt2 l
  | None => "-"
  end.

(** The text of an entry of the queue, given the time stamp it was written
    with.  The closing line is a text in Korean ([end_text], built from the
    count and the elapsed time); its characters lie outside those a [string]
    holds here. *)
Definition entry_line (fmt2 : float -> string) (end_text : Z -> float -> string)
    (ts_iso : string) (e : log_entry) : string :=
  match e with
  | LogRequest seq status_display latency_ms err_txt =>
      request_line ts_iso seq status_display (lat_display fmt2 latency_ms) err_txt
  | LogEnd sent total => end_text sent total
  end.

(** The colour tags of the log pane. *)
Inductive tag := TagInfo | TagOk | TagWarn | TagErr.

(** [msg and msg[0].isdigit()] *)
Definition starts_with_digit (msg : string) : bool :=
  match msg with
  | "" => false
  | String c _ => PyText.is_digit c
  end.

(** Lines 650-656 of [_drain_queue]: the count shown in the progress label,
    when the message changes it. *)
Definition drain_progress (msg : string) : option Z :=
  if starts_with_digit msg && (31 <=? String.length msg)%nat then
    PyText.int_of_str (PyStr.strip (PyText.slice 25 31 msg))
  else None.

(** Lines 664-678: the tag for the status column. *)
Definition status_tag (stat : string) : option tag :=
  if decide (stat = "ERR") then Some TagErr
  else
    match PyText.int_of_str stat with
    | Some sc =>
        if (200 <=? sc) && (sc <? 300) then Some TagOk
        else if sc =? 429 then Some TagWarn
        else if (400 <=? sc) && (sc <? 600) then Some TagErr
        else None
    | None => None
    end.

(** Lines 657-678 of [_drain_queue]: the tag of a message. *)
Definition drain_tag (msg : string) : option tag :=
  if PyText.startswith "TIME " msg || PyText.only_char "-" msg then Some TagInfo
  else if starts_with_digit msg && (40 <=? String.length msg)%nat then
    status_tag (PyStr.strip (PyText.slice 33 38 msg))
  else None.

(** The first loop of [_drain_queue] over the messages waiting in the
    queue: the progress count it leaves in the label and the tagged lines it
    appends to the log pane. *)
Fixpoint drain_messages (progress : option Z) (msgs : list string)
  : option Z * list (string * option tag) :=
  match msgs with
  | [] => (progress, [])
  | msg :: rest =>
      let progress' :=
        match drain_progress msg with
        | Some count => Some count
        | None => progress
        end in
      let (final, shown) := drain_messages progress' rest in
      (final, (msg, drain_tag msg) :: shown)
  end.

(** ** [show_summary]: the figures of the summary window *)

(** [sum(count for status, count in counts.items()
         if isinstance(status, int) and p(status))] *)
Fixpoint sum_statuses (p : Z -> bool) (c : PyDict.t status_key Z) : Z :=
  match c with
  | [] => 0
  | (KInt status, n) :: c' => (if p status then n else 0) + sum_statuses p c'
  | (KStr _, _) :: c' => sum_statuses p c'
  end.

Record figures := mkFigures {
  success : Z;
  rate_limited : Z;
  error_count : Z;
  other_failures : Z;
  achieved_rps : float
}.

(** Lines 771-781 of [show_summary]; the quotient is the one of the code
    when [float(total_sent)] exists ([PyFloat.fits]). *)
Definition summary_figures (summary : RunSummary) : figures :=
  let counts := status_counts summary in
  let error_count := default 0 (PyDict.get (KStr "ERR") counts) in
  {| success := sum_statuses (fun s => (200 <=? s) && (s <? 300)) counts;
     rate_limited := default 0 (PyDict.get (KInt 429) counts);
     error_count := error_count;
     other_failures :=
       sum_statuses (fun s => (400 <=? s) && negb (s =? 429)) counts + error_count;
     achieved_rps :=
       if PyFloat.truthy (elapsed_s summary)
       then PrimFloat.div (PyFloat.of_int (total_sent summary)) (elapsed_s summary)
       else 0%float |}.

(** ** [apply_config] *)

(** [apply_config] fills the entry widgets; [float_str] is [str] on a
    float. *)
Definition apply_config (float_str : float -> string) (config : RunConfig) : form :=
  {| e_url := url config;
     cb_method := method config;
     e_rps := PyStr.of_int (rps config);
     e_dur := PyStr.of_int (duration_s config);
     e_to := float_str (timeout_s config);
     txt_headers := headers_text config;
     txt_body := body_text config |}.

(** ** [save_preset] and [load_preset] *)

Section Presets.
Variable py_upper : string -> string.
Variable int_of_str : string -> option Z.
Variable float_of_str : string -> option float.
Variable float_str : float -> string.
Variable py_str : json -> string.
Variable py_int : json -> result Z.
Variable py_float : json -> result float.
Variable text : Type.
Variable dumps : json -> text.
Variable loads : text -> option json.

(** [save_preset]: [path] is the answer of the file dialog, empty when
    the dialog is cancelled.  Nothing is written when the form is refused or
    no path is chosen. *)
Definition save_preset (fs : PyDict.t string text) (f : form) (path : string)
  : PyDict.t string text :=
  match collect_config py_upper int_of_str float_of_str f with
  | None => fs
  | Some config =>
      if negb (PyStr.truthy path) then fs
      else save_json text dumps fs path [("config", JObj (RunConfig_to_dict config))]
  end.

(** [load_preset]: the form after it; a file that cannot be read as a
    configuration leaves the form as it is (after a message box). *)
Definition load_preset (fs : PyDict.t string text) (path : string) (f : form) : form :=
  if negb (PyStr.truthy path) then f
  else
    match data <-! load_json text loads fs path ;;
          fields <-! preset_fields data ;;
          from_dict py_upper py_str py_int py_float fields with
    | Ok config => apply_config float_str config
    | Raise _ => f
    end.
End Presets.


(** The namespace [build_parser] gives when no option is passed. *)
Definition parser_defaults : args :=
  mkArgs None "GET" 5 30 10 None None None None None None None false false.

(** ** Properties as the specification words them, and the invariants
    of the proofs *)

(** *** [LatencyStats] *)

(** "The recorded minimum is at most the mean, which is at most the
    recorded maximum." *)
Definition mean_within_bounds (s : LatencyStats) : Prop :=
  exists mn av mx,
    min_ms s = Some mn /\ mean s = Some av /\ max_ms s = Some mx /\
    PyFloat.le mn av = true /\ PyFloat.le av mx = true.

(** A float that is a number. *)
Definition is_number (v : float) : Prop := PyFloat.is_nan v = false.

(** The extremes recorded for the samples [seen]. *)
Definition bounds (seen : list float) (s : LatencyStats) : Prop :=
  exists mn mx,
    min_ms s = Some mn /\ max_ms s = Some mx /\ mn ∈ seen /\ mx ∈ seen /\
    forall v, v ∈ seen -> PyFloat.le mn v = true /\ PyFloat.le v mx = true.

(** What [add] has established after the samples [seen]. *)
Definition tracks (seen : list float) (s : LatencyStats) : Prop :=
  count s = Z.of_nat (length seen) /\
  ((seen = [] /\ min_ms s = None /\ max_ms s = None) \/ bounds seen s).

(** *** [RunSummary.to_dict] *)

(** A [datetime] as Python makes it: every field in its range. *)
Definition valid_datetime (dt : datetime) : Prop :=
  1 <= year dt <= 9999 /\ 1 <= month dt <= 12 /\ 1 <= day dt <= 31 /\
  0 <= hour dt <= 23 /\ 0 <= minute dt <= 59 /\ 0 <= second dt <= 59 /\
  0 <= microsecond dt <= 999999.

#[global] Instance valid_datetime_dec (dt : datetime) : Decision (valid_datetime dt).
Proof. unfold valid_datetime. apply _. Defined.

(** "An ISO-8601 timestamp carrying a UTC designator": a reader of the
    extended format YYYY-MM-DDThh:mm:ss, with an optional fraction of six
    digits, closed by the designator Z.  It gives the date and time the
    text denotes. *)
Fixpoint read_digits (k : nat) (acc : Z) (s : string) : option (Z * string) :=
  match k with
  | O => Some (acc, s)
  | S k' =>
      match s with
      | String c s' =>
          if PyText.is_decimal c
          then read_digits k' (acc * 10 + PyText.digit_value c) s'
          else None
      | "" => None
      end
  end.

Definition read_char (c : ascii) (s : string) : option string :=
  match s with
  | String c' s' => if decide (c' = c) then Some s' else None
  | "" => None
  end.

Definition read_iso8601_utc (s : string) : option datetime :=
  '(y, s) ← read_digits 4 0 s; s ← read_char "-" s;
  '(mo, s) ← read_digits 2 0 s; s ← read_char "-" s;
  '(d, s) ← read_digits 2 0 s; s ← read_char "T" s;
  '(h, s) ← read_digits 2 0 s; s ← read_char ":" s;
  '(mi, s) ← read_digits 2 0 s; s ← read_char ":" s;
  '(sec, s) ← read_digits 2 0 s;
  '(us, s) ← match s with
             | String "." s' => read_digits 6 0 s'
             | _ => Some (0, s)
             end;
  let dt := mkDatetime y mo d h mi sec us in
  if decide (valid_datetime dt /\ s = "Z") then Some dt else None.

(** The figure written for an optional number: the number itself, and
    [0.0] when there is none or when it is a zero. *)
Definition figure_of (x : option float) (v : float) : Prop :=
  match x with
  | None => v = 0%float
  | Some a => if PrimFloat.eqb a 0%float then v = 0%float else v = a
  end.

(** The record of the specification: "[total_sent] (integer), [elapsed_s]
    (number, 3 decimal places), [status_counts] (mapping of
    status-key-as-text to integer count), [started_at] (ISO-8601 timestamp
    with UTC designator), and [latency] (either {count: 0} or {count,
    average_ms, min_ms, max_ms} each rounded to 3 decimals)", where the
    average is the total divided by the count. *)
Definition serialised (round3 : float -> float) (s : RunSummary)
    (d : PyDict.t string json) : Prop :=
  let l := latencies s in
  PyDict.keys d = ["total_sent"; "elapsed_s"; "status_counts"; "started_at"; "latency"] /\
  PyDict.get "total_sent" d = Some (JInt (total_sent s)) /\
  PyDict.get "elapsed_s" d = Some (JFloat (round3 (elapsed_s s))) /\
  (exists counts,
     PyDict.get "status_counts" d = Some (JObj counts) /\
     NoDup (PyDict.keys counts) /\
     (forall name v, (name, v) ∈ counts ->
        exists k n, (k, n) ∈ status_counts s /\ name = str_key k /\ v = JInt n) /\
     (forall k, k ∈ PyDict.keys (status_counts s) -> str_key k ∈ PyDict.keys counts)) /\
  (exists text,
     PyDict.get "started_at" d = Some (JStr text) /\
     read_iso8601_utc text = Some (started_at s)) /\
  (count l = 0 -> PyDict.get "latency" d = Some (JObj [("count", JInt 0)])) /\
  (count l <> 0 ->
   exists average low high,
     PyDict.get "latency" d =
       Some (JObj [("count", JInt (count l));
                   ("average_ms", JFloat (round3 average));
                   ("min_ms", JFloat (round3 low));
                   ("max_ms", JFloat (round3 high))]) /\
     figure_of (Some (PrimFloat.div (total_ms l) (PyFloat.of_int (count l)))) average /\
     figure_of (min_ms l) low /\ figure_of (max_ms l) high).

(** *** [parse_header_lines] *)

(** "The line is split at the first colon; name and value are trimmed." *)
Definition line_entry (line name value : string) : Prop :=
  exists a b,
    PyStr.strip line = a +:+ String colon b /\ PyStr.contains colon a = false /\
    name = PyStr.strip a /\ value = PyStr.strip b.

(** "A blank line": nothing is left of it after trimming. *)
Definition blank (line : string) : Prop := PyStr.strip line = "".

(** "A non-blank line that contains no colon or has an empty name after
    trimming." *)
Definition offending (line : string) : Prop :=
  ~ blank line /\
  (PyStr.contains colon line = false \/ exists value, line_entry line "" value).

(** No line of [lines] names [name]. *)
Definition no_entry (name : string) (lines : list string) : Prop :=
  forall line value, line ∈ lines -> ~ line_entry line name value.

(** "A later occurrence of the same name overwrites an earlier one": the
    value of [name] is that of the last line naming it. *)
Definition last_entry (lines : list string) (name value : string) : Prop :=
  exists before line after,
    lines = before ++ line :: after /\ line_entry line name value /\ no_entry name after.

(** The text of a line feed. *)
Definition newline : string := String "010" "".

(** A text made of white space only. *)
Fixpoint all_space (s : string) : bool :=
  match s with
  | "" => true
  | String c s' => PyStr.is_space c && all_space s'
  end.

(** A text that neither starts nor ends with white space. *)
Definition trimmed (s : string) : Prop :=
  s = "" \/
  ((exists c rest, s = String c rest /\ PyStr.is_space c = false) /\
   (exists init c, s = init +:+ String c "" /\ PyStr.is_space c = false)).

(** *** [fetch] *)

(** "A well-formed outcome: a status or the error marker, a latency, and an
    error description present exactly when the status is the error marker." *)
Definition well_formed_outcome (r : finished_result) : Prop :=
  exists status latency_ms error,
    r = Returned status (Some latency_ms) error /\
    (error <> None <-> status = None).

(** A transport that is cancelled while the request is in flight. *)
Definition cancelled_in_flight : request -> attempt :=
  fun _ => mkAttempt 100 (Failed CancelledError) 100.25.

(** *** [run_probe] *)

(** The three tallies agree. *)
Definition tallies_agree (st : probe_state) : Prop :=
  counter_total (st_counts st) = sent st /\ count (st_latencies st) = sent st.

(** A result whose tuple carries a latency. *)
Definition timed (r : finished_result) : Prop :=
  match r with
  | Returned _ None _ => False
  | _ => True
  end.

(** The requests launched so far, and those skipped as cancelled. *)
Fixpoint launched (tr : list ghost) : Z :=
  match tr with
  | [] => 0
  | Launched n :: tr' => Z.of_nat n + launched tr'
  | _ :: tr' => launched tr'
  end.

Fixpoint skipped (tr : list ghost) : Z :=
  match tr with
  | [] => 0
  | Skipped _ :: tr' => 1 + skipped tr'
  | _ :: tr' => skipped tr'
  end.

(** "It is recorded in none of the three": from [st] to [st'] the sent
    counter, the status tally, the latency accumulator and the log are what
    they were. *)
Definition nothing_recorded (st st' : probe_state) : Prop :=
  sent st' = sent st /\ st_counts st' = st_counts st /\
  st_latencies st' = st_latencies st /\ st_queue st' = st_queue st.

(** A task on which [cancel()] has been called. *)
Definition cancelled (t : task) : Prop := cancel_requested t = true.

(** "Every request of the wave resolves to a recorded outcome." *)
Definition every_request_recorded (st : probe_state) : Prop :=
  sent st = launched (trace st).

(** The requests that reached a terminal state: recorded or skipped. *)
Definition resolved (st : probe_state) : Z := sent st + skipped (trace st).

(** The keys [run_probe] uses: a status, or "ERR". *)
Definition probe_key (k : status_key) : Prop :=
  k = KStr "ERR" \/ exists status, k = KInt status.

(** The counter of every state [run_probe] reaches is of that kind. *)
Definition probe_counter (st : probe_state) : Prop :=
  NoDup (PyDict.keys (st_counts st)) /\ Forall probe_key (PyDict.keys (st_counts st)).

(** The text forms of the status keys of [c] are distinct. *)
Definition key_texts_distinct (c : PyDict.t status_key Z) : Prop :=
  NoDup (map str_key (PyDict.keys c)).

(** A wave during which the operator does not stop the probe and no
    request is cancelled by the transport. *)
Definition quiet_wave (w : wave_script) : Prop :=
  stop_before_test w = false /\ stop_before_sleep w = false /\
  Forall (fun p => stop_now p = false) (polls w) /\
  forall i req, answer (plays w i req) <> Failed CancelledError.

(** A task that will not end with [CancelledError]. *)
Definition steady (t : task) : Prop :=
  cancel_requested t = false /\ forall req, answer (play t req) <> Failed CancelledError.

(** Nothing was stopped and nothing was skipped. *)
Definition undisturbed (st : probe_state) : Prop :=
  st_stop st = false /\ skipped (trace st) = 0.

(** *** Example runs and inputs *)

(** A transport that answers with [status], between two clock readings. *)
Definition answers (status : Z) (before after : float) : request -> attempt :=
  fun _ => mkAttempt before (Responded status) after.

(** A run of three requests per second in which the operator stops the
    probe during the first wave: request 1 has answered, requests 0 and 2
    are still pending when the flag is seen; the script holds a second wave
    that is never launched. *)
Definition wave_stopped : wave_script :=
  mkWave 100 false 100 (fun _ => answers 200 100 100.01)
         [mkPoll false [1%nat]; mkPoll true [0%nat; 2%nat]] 100.5 false.

Definition wave_after : wave_script :=
  mkWave 101 false 101 (fun _ => answers 200 101 101.01) [] 101.5 false.

Definition run_stopped : run_script :=
  mkRun 100 (mkDatetime 2024 1 2 3 4 5 0) [wave_stopped; wave_after] 100.5.

(** One wave of two requests: the first is answered 429, the second fails
    in the transport. *)
Definition wave_two_outcomes : wave_script :=
  mkWave 100 false 100
         (fun i => if Nat.eqb i 0 then answers 429 100 100.5
                   else fun _ => mkAttempt 100 (Failed (Exc "ClientError" "refused")) 100.25)
         [] 100.5 false.

Definition run_two_outcomes : run_script :=
  mkRun 100 (mkDatetime 2024 1 2 3 4 5 0) [wave_two_outcomes] 101.

(** The request of these runs, the state [run_probe] starts from, and the
    configuration and summary of the stopped run. *)
Definition probe_request : request := mkRequest "GET" "http://localhost/" 5 [] None.

Definition probe_start : probe_state := mkProbe 0 [] LatencyStats_new [] false [].

Definition config_example : RunConfig :=
  mkRunConfig "http://localhost/" "GET" 3 5 5 [] None "" "".

Definition summary_stopped : RunSummary :=
  fst (run_probe "http://localhost/" "GET" 3 5 5 [] None [] false run_stopped).

(** A form the GUI accepts, with entry texts read by parsers that know
    them. *)
Definition form_example : form :=
  mkForm " http://localhost/ " "3" "5" "2.5" "get" "Accept: text/plain" "".

Definition int_example (s : string) : option Z :=
  if decide (s = "3") then Some 3 else if decide (s = "5") then Some 5 else None.

Definition float_example (s : string) : option float :=
  if decide (s = "2.5") then Some 2.5%float else None.

(** *** [run_headless] *)

(** "The option was supplied on the command line." *)
Definition supplied (x : option string) : Prop := x <> None.

(** [--headers ""] together with [--headers-path headers.txt]. *)
Definition args_empty_headers : args :=
  mkArgs (Some "http://localhost/") "GET" 5 30 10 (Some "") (Some "headers.txt")
         None None None None None false true.

(** *** Texts and the log pane *)

(** Every character of [s] satisfies [f]. *)
Fixpoint every (f : ascii -> bool) (s : string) : bool :=
  match s with
  | "" => true
  | String c s' => f c && every f s'
  end.

(** The colour of a status code in the log pane: green for 2xx, amber for
    429, red for the other 4xx and 5xx, none otherwise. *)
Definition status_class (status : Z) : option tag :=
  if (200 <=? status) && (status <? 300) then Some TagOk
  else if status =? 429 then Some TagWarn
  else if (400 <=? status) && (status <? 600) then Some TagErr
  else None.

(** The colour of an outcome: red for a transport failure. *)
Definition outcome_class (status : option Z) : option tag :=
  match status with
  | None => Some TagErr
  | Some s => status_class s
  end.

(** The text of the status column of an outcome. *)
Definition status_text (status : option Z) : string :=
  str_key (match status with None => KStr "ERR" | Some s => KInt s end).

(** A time stamp as [isoformat(timespec="milliseconds")] writes it:
    23 characters, the first one a digit. *)
Definition timestamp (ts : string) : Prop :=
  String.length ts = 23%nat /\ starts_with_digit ts = true.

(** *** The log and the figures of a run *)

(** The lines are request lines numbered [from], [from + 1], ... *)
Fixpoint numbered (from : Z) (lines : list log_entry) : Prop :=
  match lines with
  | [] => True
  | LogRequest seq _ _ _ :: rest => seq = from /\ numbered (from + 1) rest
  | LogEnd _ _ :: _ => False
  end.

(** The number of request lines whose status column reads [text]. *)
Fixpoint lines_with_status (text : string) (lines : list log_entry) : Z :=
  match lines with
  | [] => 0
  | LogRequest _ status_display _ _ :: rest =>
      (if decide (status_display = text) then 1 else 0) + lines_with_status text rest
  | LogEnd _ _ :: rest => lines_with_status text rest
  end.

(** The queue holds, after what it held at the start, one numbered line per
    recorded request. *)
Definition logged (log_queue : list log_entry) (st : probe_state) : Prop :=
  exists lines,
    st_queue st = log_queue ++ lines /\ numbered 1 lines /\
    Z.of_nat (length lines) = sent st.

(** The log and the counter agree on every status. *)
Definition log_matches_counter (log_queue : list log_entry) (st : probe_state) : Prop :=
  forall k, probe_key k ->
    lines_with_status (str_key k) (st_queue st)
    = lines_with_status (str_key k) log_queue + counter_get k (st_counts st).

(** No entry of the counter is below one. *)
Definition counts_positive (c : PyDict.t status_key Z) : Prop :=
  Forall (fun v => 0 < v) (PyDict.values c).

(** The statuses [show_summary] puts in no class: below 200, and 3xx. *)
Definition unclassified (status : Z) : bool :=
  (status <? 200) || ((300 <=? status) && (status <? 400)).

(** Nothing has been launched, recorded or logged. *)
Definition idle (log_queue : list log_entry) (st : probe_state) : Prop :=
  sent st = 0 /\ st_counts st = [] /\ st_latencies st = LatencyStats_new /\
  st_queue st = log_queue /\ launched (trace st) = 0.

(** *** More on [LatencyStats] and the headers *)

(** Two optional floats that are both absent, or equal as numbers
    (Python's [==], which does not tell [0.0] from [-0.0]). *)
Definition same_number (a b : option float) : Prop :=
  match a, b with
  | None, None => True
  | Some x, Some y => PrimFloat.eqb x y = true
  | _, _ => False
  end.

(** A header as an HTTP client wants it: a name that is not empty, has no
    colon and no white space around it, and a value without white space
    around it. *)
Definition clean_header (name value : string) : Prop :=
  name <> "" /\ PyStr.strip name = name /\ PyStr.contains colon name = false /\
  PyStr.strip value = value.

(** *** Built-ins for the examples *)

(** [str.upper] on a text of ASCII characters. *)
Definition ascii_upper_char (c : ascii) : ascii :=
  let n := PyStr.code c in
  if ((97 <=? n) && (n <=? 122))%N then ascii_of_N (n - 32) else c.

Fixpoint ascii_upper (s : string) : string :=
  match s with
  | "" => ""
  | String c s' => String (ascii_upper_char c) (ascii_upper s')
  end.

(** [str], [int] and [float] on the JSON values of a preset written by
    [RunConfig.to_dict]. *)
Definition str_of_json (v : json) : string :=
  match v with
  | JStr s => s
  | _ => "?"
  end.

Definition int_of_json (v : json) : result Z :=
  match v with
  | JInt n => Ok n
  | _ => Raise TypeError
  end.

Definition float_of_json (v : json) : result float :=
  match v with
  | JFloat x => Ok x
  | JInt n => if PyFloat.fits n then Ok (PyFloat.of_int n) else Raise OverflowError
  | _ => Raise TypeError
  end.

(** [str] on the float 2.5, for the example. *)
Definition float_str_example (x : float) : string := "2.5".

(** *** [run_headless] *)

(** The events by which [run_headless] takes things in: reading a file,
    loading a preset, building the configuration. *)
Definition input_event (ev : event) : Prop :=
  match ev with
  | EvReadText _ | EvLoadJson _ | EvFromDict | EvFromFields => True
  | _ => False
  end.

(** Any event but the print of the payload. *)
Definition not_print (ev : event) : Prop :=
  match ev with
  | EvPrint _ => False
  | _ => True
  end.

(** The number of probes run. *)
Fixpoint probes_run (tr : list event) : nat :=
  match tr with
  | [] => O
  | EvRunProbe _ :: tr' => S (probes_run tr')
  | _ :: tr' => probes_run tr'
  end.

(** A preset file asking for fifty requests per second for two seconds,
    and the arguments [--preset preset.json --headless]. *)
Definition preset_example : json :=
  JObj [("config", JObj (RunConfig_to_dict
    (mkRunConfig "http://localhost/" "POST" 50 2 1.5 [] None "" "")))].

Definition args_preset : args :=
  mkArgs None "GET" 5 30 10 None None None None (Some "preset.json") None None false true.

(** [--url " "] and nothing else. *)
Definition args_blank_url : args :=
  mkArgs (Some " ") "GET" 5 30 10 None None None None None None None false true.

(** *** The summary as JSON, and the log pane after a run *)

(** The sum of the integers of a JSON object. *)
Fixpoint json_int_total (fields : list (string * json)) : Z :=
  match fields with
  | [] => 0
  | (_, JInt n) :: rest => n + json_int_total rest
  | _ :: rest => json_int_total rest
  end.

(** Time stamps for the three lines of the run [run_two_outcomes], and
    stand-ins for the two formats of the log. *)
Definition stamps_example : list string :=
  ["2024-01-02T03:04:05.250"; "2024-01-02T03:04:05.500"; "2024-01-02T03:04:06.000"].

Definition fmt2_example (x : float) : string := "0.00".

Definition end_text_example (sent : Z) (total : float) : string :=
  "END " +:+ PyStr.of_int sent.

(** * Theorems *)

(** ** The order of binary64 floats *)

Module FloatOrder.

Lemma compare_cont_Eq (p q : positive) : Pos.compare_cont Eq p q = Pos.compare p q.
Proof. reflexivity. Qed.

Ltac order_cases :=
  repeat match goal with
  | |- context [Z.compare ?a ?b] => destruct (Z.compare_spec a b); subst
  | H : context [Z.compare ?a ?b] |- _ => destruct (Z.compare_spec a b); subst
  | |- context [Pos.compare ?a ?b] => destruct (Pos.compare_spec a b); subst
  | H : context [Pos.compare ?a ?b] |- _ => destruct (Pos.compare_spec a b); subst
  end.

(** Case analysis on the specification floats of a comparison. *)
Ltac spec_cases :=
  unfold SFltb, SFleb, SFeqb, SFcompare; intros;
  repeat match goal with
  | x : spec_float |- _ => destruct x
  | s : bool |- _ => destruct s
  end;
  rewrite ?compare_cont_Eq in *; simpl in *;
  try congruence;
  order_cases; simpl in *; try congruence; try lia.

Lemma SFltb_trans a b c : SFltb a b = true -> SFltb b c = true -> SFltb a c = true.
Proof. spec_cases. Qed.

Lemma SFleb_trans a b c : SFleb a b = true -> SFleb b c = true -> SFleb a c = true.
Proof. spec_cases. Qed.

Lemma SFltb_leb a b : SFltb a b = true -> SFleb a b = true.
Proof. spec_cases. Qed.

Lemma SFleb_total a b :
  SFeqb a a = true -> SFeqb b b = true -> SFltb a b = false -> SFleb b a = true.
Proof. spec_cases. Qed.

Lemma SFleb_refl a : SFeqb a a = true -> SFleb a a = true.
Proof. spec_cases. Qed.

Lemma number_eqb (a : float) : is_number a -> SFeqb (Prim2SF a) (Prim2SF a) = true.
Proof.
  unfold is_number, PyFloat.is_nan, PrimFloat.is_nan. rewrite FloatAxioms.eqb_spec.
  intros H. apply negb_false_iff in H. exact H.
Qed.

Lemma lt_trans a b c :
  PyFloat.lt a b = true -> PyFloat.lt b c = true -> PyFloat.lt a c = true.
Proof. unfold PyFloat.lt. rewrite !FloatAxioms.ltb_spec. apply SFltb_trans. Qed.

Lemma le_trans a b c :
  PyFloat.le a b = true -> PyFloat.le b c = true -> PyFloat.le a c = true.
Proof. unfold PyFloat.le. rewrite !FloatAxioms.leb_spec. apply SFleb_trans. Qed.

Lemma lt_le a b : PyFloat.lt a b = true -> PyFloat.le a b = true.
Proof. unfold PyFloat.lt, PyFloat.le. rewrite FloatAxioms.ltb_spec, FloatAxioms.leb_spec. apply SFltb_leb. Qed.

Lemma not_lt_le a b :
  is_number a -> is_number b -> PyFloat.lt a b = false -> PyFloat.le b a = true.
Proof.
  intros Ha Hb. unfold PyFloat.lt, PyFloat.le. rewrite FloatAxioms.ltb_spec, FloatAxioms.leb_spec.
  apply SFleb_total; auto using number_eqb.
Qed.

Lemma le_refl a : is_number a -> PyFloat.le a a = true.
Proof.
  intros Ha. unfold PyFloat.le. rewrite FloatAxioms.leb_spec. apply SFleb_refl, number_eqb, Ha.
Qed.

End FloatOrder.

(** ** Strings *)

Lemma contains_app ch a b :
  PyStr.contains ch (a +:+ b) = PyStr.contains ch a || PyStr.contains ch b.
Proof.
  induction a as [|c a IH]; simpl; [reflexivity|].
  destruct (decide (c = ch)); [reflexivity | exact IH].
Qed.

Lemma contains_cons_same ch b : PyStr.contains ch (String ch b) = true.
Proof. simpl. destruct (decide (ch = ch)); congruence. Qed.

(** [split] cuts at the first occurrence. *)
Lemma split_once_cut ch a b :
  PyStr.contains ch a = false ->
  PyStr.split_once ch (a +:+ String ch b) = [a; b].
Proof.
  induction a as [|c a IH]; simpl.
  - intros _. destruct (decide (ch = ch)); congruence.
  - destruct (decide (c = ch)); [discriminate|]. intros H. rewrite (IH H). reflexivity.
Qed.

Lemma split_once_none ch s :
  PyStr.contains ch s = false -> PyStr.split_once ch s = [s].
Proof.
  induction s as [|c s IH]; simpl; [reflexivity|].
  destruct (decide (c = ch)); [discriminate|]. intros H. rewrite (IH H). reflexivity.
Qed.

Lemma contains_cut ch s :
  PyStr.contains ch s = true ->
  exists a b, s = a +:+ String ch b /\ PyStr.contains ch a = false.
Proof.
  induction s as [|c s IH]; simpl; [discriminate|].
  destruct (decide (c = ch)) as [->|Hne].
  - intros _. exists "", s. split; reflexivity.
  - intros H. destruct (IH H) as (a & b & -> & Ha).
    exists (String c a), b. split; [reflexivity|].
    simpl. destruct (decide (c = ch)); [contradiction | exact Ha].
Qed.

(** The cut at the first occurrence is unique. *)
Lemma cut_unique ch a b a' b' :
  a +:+ String ch b = a' +:+ String ch b' ->
  PyStr.contains ch a = false -> PyStr.contains ch a' = false ->
  a = a' /\ b = b'.
Proof.
  intros E Ha Ha'.
  pose proof (split_once_cut ch a b Ha) as H1.
  pose proof (split_once_cut ch a' b' Ha') as H2.
  rewrite E in H1. rewrite H1 in H2. injection H2 as -> ->. split; reflexivity.
Qed.

Lemma contains_lstrip ch s :
  PyStr.is_space ch = false -> PyStr.contains ch (PyStr.lstrip s) = PyStr.contains ch s.
Proof.
  intros Hch. induction s as [|c s IH]; simpl; [reflexivity|].
  destruct (PyStr.is_space c) eqn:Hc.
  - destruct (decide (c = ch)) as [->|_]; [congruence | exact IH].
  - reflexivity.
Qed.

Lemma contains_rstrip ch s :
  PyStr.is_space ch = false -> PyStr.contains ch (PyStr.rstrip s) = PyStr.contains ch s.
Proof.
  intros Hch. induction s as [|c s IH]; simpl; [reflexivity|].
  destruct (PyStr.rstrip s) as [|c' r] eqn:Hr.
  - simpl in IH. destruct (PyStr.is_space c) eqn:Hc; simpl.
    + destruct (decide (c = ch)) as [->|_]; [congruence | exact IH].
    + destruct (decide (c = ch)); [reflexivity | exact IH].
  - change (PyStr.contains ch (String c (String c' r))
            = PyStr.contains ch (String c s)).
    cbn [PyStr.contains]. destruct (decide (c = ch)); [reflexivity | exact IH].
Qed.

Lemma contains_strip ch s :
  PyStr.is_space ch = false -> PyStr.contains ch (PyStr.strip s) = PyStr.contains ch s.
Proof.
  intros Hch. unfold PyStr.strip. rewrite contains_rstrip, contains_lstrip; auto.
Qed.

Lemma truthy_false s : PyStr.truthy s = false <-> s = "".
Proof.
  unfold PyStr.truthy. rewrite negb_false_iff, bool_decide_eq_true. reflexivity.
Qed.

Lemma truthy_true s : PyStr.truthy s = true <-> s <> "".
Proof.
  unfold PyStr.truthy. rewrite negb_true_iff, bool_decide_eq_false. reflexivity.
Qed.

Lemma lstrip_cut s :
  exists l, s = l +:+ PyStr.lstrip s /\ all_space l = true /\
    match PyStr.lstrip s with
    | "" => True
    | String c _ => PyStr.is_space c = false
    end.
Proof.
  induction s as [|c s (l & E & Hl & Hc)]; simpl.
  - exists "". repeat split.
  - destruct (PyStr.is_space c) eqn:Hs.
    + exists (String c l). split; [rewrite E at 1; reflexivity|].
      split; [simpl; rewrite Hs; exact Hl | exact Hc].
    + exists "". repeat split. exact Hs.
Qed.

Lemma rstrip_cut s :
  exists r, s = PyStr.rstrip s +:+ r /\ all_space r = true /\
    (PyStr.rstrip s = "" \/
     exists init c, PyStr.rstrip s = init +:+ String c "" /\ PyStr.is_space c = false).
Proof.
  induction s as [|c s (r & E & Hr & Hc)]; simpl.
  - exists "". repeat split. left. reflexivity.
  - destruct (PyStr.rstrip s) as [|c' t] eqn:Et.
    + assert (E' : s = r) by exact E. subst r. clear E.
      destruct (PyStr.is_space c) eqn:Hs.
      * exists (String c s). simpl. rewrite Hs, Hr. repeat split. left. reflexivity.
      * exists s. repeat split; [exact Hr|]. right. exists "", c. split; [reflexivity | exact Hs].
    + exists r. split; [rewrite E at 1; reflexivity|]. split; [exact Hr|]. right.
      destruct Hc as [Hc | (init & c0 & Hi & Hc0)]; [discriminate|].
      exists (String c init), c0. split; [rewrite Hi; reflexivity | exact Hc0].
Qed.

Lemma rstrip_head c t :
  PyStr.is_space c = false ->
  exists t', PyStr.rstrip (String c t) = String c t'.
Proof.
  intros Hc. simpl. destruct (PyStr.rstrip t); [rewrite Hc|]; eauto.
Qed.

(** [strip] removes white space at both ends and nothing else. *)
Lemma strip_trims s :
  exists l r,
    s = l +:+ PyStr.strip s +:+ r /\ all_space l = true /\ all_space r = true /\
    trimmed (PyStr.strip s).
Proof.
  unfold PyStr.strip.
  destruct (lstrip_cut s) as (l & El & Hl & Hfirst).
  destruct (rstrip_cut (PyStr.lstrip s)) as (r & Er & Hr & Hlast).
  exists l, r. split; [rewrite <- Er; exact El|]. split; [exact Hl|]. split; [exact Hr|].
  destruct Hlast as [Hnil | Hlast]; [left; exact Hnil|]. right. split; [|exact Hlast].
  destruct (PyStr.lstrip s) as [|c t]; [destruct Hlast as (init & c0 & H & _);
    destruct init; discriminate|].
  destruct (rstrip_head c t Hfirst) as [t' Ht']. exists c, t'. split; assumption.
Qed.

(** ** Dictionaries *)

Lemma dict_get_set {K V} `{EqDecision K} (k k0 : K) (v0 : V) (d : PyDict.t K V) :
  PyDict.get k (PyDict.set k0 v0 d) = if decide (k = k0) then Some v0 else PyDict.get k d.
Proof.
  induction d as [|[k' v'] d IH]; simpl.
  - destruct (decide (k = k0)); reflexivity.
  - destruct (decide (k0 = k')) as [->|Hne]; simpl.
    + destruct (decide (k = k')); reflexivity.
    + destruct (decide (k = k')) as [->|Hne'].
      * destruct (decide (k' = k0)); [congruence | reflexivity].
      * exact IH.
Qed.

Lemma dict_set_elem {K V} `{EqDecision K} (k k0 : K) (v v0 : V) (d : PyDict.t K V) :
  (k, v) ∈ PyDict.set k0 v0 d -> (k, v) = (k0, v0) \/ (k, v) ∈ d.
Proof.
  induction d as [|[k' v'] d IH]; simpl.
  - intros H. apply list_elem_of_singleton in H. left. exact H.
  - destruct (decide (k0 = k')) as [->|Hne]; rewrite !elem_of_cons; tauto.
Qed.

Lemma dict_set_keys {K V} `{EqDecision K} (k0 : K) (v0 : V) (d : PyDict.t K V) :
  PyDict.keys (PyDict.set k0 v0 d)
  = if decide (k0 ∈ PyDict.keys d) then PyDict.keys d else PyDict.keys d ++ [k0].
Proof.
  unfold PyDict.keys. induction d as [|[k' v'] d IH]; simpl.
  - destruct (decide (k0 ∈ [])) as [H|_]; [apply elem_of_nil in H; contradiction | reflexivity].
  - destruct (decide (k0 = k')) as [->|Hne]; simpl.
    + destruct (decide (k' ∈ k' :: map fst d)) as [_|H]; [reflexivity|].
      destruct H. left.
    + rewrite IH. destruct (decide (k0 ∈ map fst d)) as [Hin|Hnin].
      * destruct (decide (k0 ∈ k' :: map fst d)) as [_|H]; [reflexivity|].
        destruct H. right. exact Hin.
      * destruct (decide (k0 ∈ k' :: map fst d)) as [H|_]; [|reflexivity].
        apply elem_of_cons in H as [H|H]; contradiction.
Qed.

Lemma dict_set_nodup {K V} `{EqDecision K} (k0 : K) (v0 : V) (d : PyDict.t K V) :
  NoDup (PyDict.keys d) -> NoDup (PyDict.keys (PyDict.set k0 v0 d)).
Proof.
  intros Hd. rewrite dict_set_keys.
  destruct (decide (k0 ∈ PyDict.keys d)) as [_|Hnin]; [exact Hd|].
  apply NoDup_app. split; [exact Hd|]. split.
  - intros x Hx Hx0. apply list_elem_of_singleton in Hx0. subst. contradiction.
  - apply NoDup_singleton.
Qed.

(** Assigning a key that is not there appends the pair. *)
Lemma dict_set_fresh {K V} `{EqDecision K} (k0 : K) (v0 : V) (d : PyDict.t K V) :
  k0 ∉ PyDict.keys d -> PyDict.set k0 v0 d = d ++ [(k0, v0)].
Proof.
  unfold PyDict.keys. induction d as [|[k' v'] d IH]; simpl; intros H; [reflexivity|].
  destruct (decide (k0 = k')) as [->|Hne].
  - destruct H. left.
  - rewrite IH; [reflexivity|]. intros Hin. apply H. right. exact Hin.
Qed.

(** A comprehension over pairs with distinct keys keeps every pair, in
    order. *)
Lemma of_items_nodup {K V} `{EqDecision K} (items : list (K * V)) :
  NoDup (map fst items) -> PyDict.of_items items = items.
Proof.
  unfold PyDict.of_items.
  assert (G : forall acc, NoDup (map fst (acc ++ items)) ->
    foldl (fun d kv => PyDict.set (fst kv) (snd kv) d) acc items = acc ++ items).
  { induction items as [|[k v] items IH]; intros acc Hnd; simpl.
    - rewrite app_nil_r. reflexivity.
    - rewrite dict_set_fresh.
      + rewrite IH; rewrite <- app_assoc; [reflexivity | exact Hnd].
      + unfold PyDict.keys. rewrite map_app in Hnd. apply NoDup_app in Hnd as (_ & Hd & _).
        intros Hin. apply (Hd k Hin). left. }
  intros Hnd. apply (G []). exact Hnd.
Qed.

Lemma of_items_keys_nodup {K V} `{EqDecision K} (items : list (K * V)) :
  NoDup (PyDict.keys (PyDict.of_items items)).
Proof.
  unfold PyDict.of_items.
  assert (G : forall acc, NoDup (PyDict.keys acc) ->
    NoDup (PyDict.keys (foldl (fun d kv => PyDict.set (fst kv) (snd kv) d) acc items))).
  { induction items as [|[k v] items IH]; intros acc Hnd; simpl; [exact Hnd|].
    apply IH, dict_set_nodup, Hnd. }
  apply G. constructor.
Qed.

Lemma of_items_elem {K V} `{EqDecision K} (items : list (K * V)) k v :
  (k, v) ∈ PyDict.of_items items -> (k, v) ∈ items.
Proof.
  unfold PyDict.of_items.
  assert (G : forall acc,
    (k, v) ∈ foldl (fun d kv => PyDict.set (fst kv) (snd kv) d) acc items ->
    (k, v) ∈ acc \/ (k, v) ∈ items).
  { induction items as [|[k' v'] items IH]; intros acc Hin; simpl in *; [left; exact Hin|].
    rewrite elem_of_cons.
    destruct (IH _ Hin) as [H|H]; [|tauto].
    apply dict_set_elem in H. tauto. }
  intros Hin. destruct (G [] Hin) as [H|H]; [apply elem_of_nil in H; contradiction | exact H].
Qed.

Lemma of_items_keys {K V} `{EqDecision K} (items : list (K * V)) k :
  k ∈ map fst items -> k ∈ PyDict.keys (PyDict.of_items items).
Proof.
  unfold PyDict.of_items.
  assert (G : forall acc, k ∈ PyDict.keys acc \/ k ∈ map fst items ->
    k ∈ PyDict.keys (foldl (fun d kv => PyDict.set (fst kv) (snd kv) d) acc items)).
  { induction items as [|[k' v'] items IH]; intros acc Hin; simpl in *.
    - destruct Hin as [H|H]; [exact H | apply elem_of_nil in H; contradiction].
    - apply IH. rewrite dict_set_keys.
      destruct (decide (k' ∈ PyDict.keys acc)) as [Hk|Hk].
      + destruct Hin as [H|H]; [left; exact H|].
        apply elem_of_cons in H as [->|H]; [left; exact Hk | right; exact H].
      + destruct Hin as [H|H]; [left; apply elem_of_app; left; exact H|].
        apply elem_of_cons in H as [->|H]; [|right; exact H].
        left. apply elem_of_app. right. left. }
  intros Hin. apply G. right. exact Hin.
Qed.

(** ** The status counter *)

Lemma values_total_set (k : status_key) (v : Z) (c : PyDict.t status_key Z) :
  counter_total (PyDict.set k v c) = counter_total c - counter_get k c + v.
Proof.
  unfold counter_total, counter_get.
  induction c as [|[k' v'] c IH]; simpl.
  - lia.
  - destruct (decide (k = k')); simpl; [lia | rewrite IH; lia].
Qed.

Lemma counter_total_incr (k : status_key) (c : PyDict.t status_key Z) :
  counter_total (counter_incr k c) = counter_total c + 1.
Proof. unfold counter_incr. rewrite values_total_set. lia. Qed.

(** ** [LatencyStats] *)

Section LatencyStatsFacts.
Import FloatOrder.

Lemma tracks_new : tracks [] LatencyStats_new.
Proof. split; [reflexivity | left; repeat split]. Qed.

Lemma tracks_add seen s v :
  Forall is_number seen -> is_number v ->
  tracks seen s -> tracks (seen ++ [v]) (add s v).
Proof.
  intros Hseen Hv [Hcount Hrest]. split.
  { simpl. rewrite Hcount, length_app. simpl. lia. }
  right. destruct Hrest as [(-> & Hmin & Hmax) | (mn & mx & Hmin & Hmax & Hmn & Hmx & Hall)].
  - exists v, v. simpl. rewrite Hmin, Hmax. simpl.
    split; [reflexivity|]. split; [reflexivity|].
    split; [apply list_elem_of_singleton; reflexivity|].
    split; [apply list_elem_of_singleton; reflexivity|].
    intros u Hu. apply list_elem_of_singleton in Hu. subst u.
    split; apply le_refl, Hv.
  - assert (Hnum : forall u, u ∈ seen -> is_number u).
    { intros u Hu. rewrite Forall_forall in Hseen. apply Hseen, Hu. }
    pose proof (Hall mn Hmn) as [_ Hmnmx].
    unfold bounds. simpl. rewrite Hmin, Hmax. unfold min_update, max_update, PyFloat.gt.
    assert (Hin_v : v ∈ seen ++ [v])
      by (apply elem_of_app; right; apply list_elem_of_singleton; reflexivity).
    assert (Hin_l : forall u, u ∈ seen -> u ∈ seen ++ [v])
      by (intros u Hu; apply elem_of_app; left; exact Hu).
    destruct (PyFloat.lt v mn) eqn:Hlo; destruct (PyFloat.lt mx v) eqn:Hhi;
      eexists _, _; (split; [reflexivity|]); (split; [reflexivity|]);
      (split; [solve [auto]|]); (split; [solve [auto]|]);
      intros u Hu; apply elem_of_app in Hu as [Hu|Hu];
      try (apply list_elem_of_singleton in Hu; subst u);
      try (destruct (Hall u Hu) as [H1 H2]);
      split; eauto 6 using le_refl, lt_le, le_trans, not_lt_le.
Qed.

Lemma tracks_add_all samples : forall seen s,
  Forall is_number seen -> Forall is_number samples ->
  tracks seen s -> tracks (seen ++ samples) (add_all s samples).
Proof.
  induction samples as [|v samples IH]; intros seen s Hseen Hs Ht.
  - rewrite app_nil_r. exact Ht.
  - inversion Hs; subst. simpl.
    replace (seen ++ v :: samples) with ((seen ++ [v]) ++ samples)
      by (rewrite <- app_assoc; reflexivity).
    apply IH; [apply Forall_app; split; [assumption | constructor; [assumption|constructor]]
              | assumption | apply tracks_add; assumption].
Qed.
End LatencyStatsFacts.

(** C9, as amended: after a non-empty sequence of [add] calls on numbers,
    [count] is the number of calls, [min_ms] and [max_ms] are recorded
    samples, every recorded sample lies between them, and
    [min_ms <= max_ms].  (Nothing is said of the mean, which is a rounded
    quotient.) *)
Theorem latency_stats_extremes (x : float) (samples : list float) :
  Forall is_number (x :: samples) ->
  let s := add_all LatencyStats_new (x :: samples) in
  count s = Z.of_nat (length (x :: samples)) /\
  exists mn mx,
    min_ms s = Some mn /\ max_ms s = Some mx /\
    mn ∈ x :: samples /\ mx ∈ x :: samples /\
    (forall v, v ∈ x :: samples -> PyFloat.le mn v = true /\ PyFloat.le v mx = true) /\
    PyFloat.le mn mx = true.
Proof.
  intros Hnum s.
  destruct (tracks_add_all (x :: samples) [] LatencyStats_new) as [Hcount Hrest];
    [constructor | exact Hnum | apply tracks_new |].
  simpl app in *. fold s in Hcount, Hrest. split; [exact Hcount|].
  destruct Hrest as [(Hnil & _) | (mn & mx & Hmin & Hmax & Hmn & Hmx & Hall)];
    [discriminate|].
  exists mn, mx. repeat split; try assumption; try (apply Hall; assumption).
Qed.

(** Three samples of a tenth of a millisecond. *)
Lemma latency_stats_extremes_witness :
  let s := add_all LatencyStats_new [0.1; 0.1; 0.1]%float in
  count s = 3 /\
  exists mn mx,
    min_ms s = Some mn /\ max_ms s = Some mx /\
    mn ∈ [0.1; 0.1; 0.1]%float /\ mx ∈ [0.1; 0.1; 0.1]%float /\
    (forall v, v ∈ [0.1; 0.1; 0.1]%float ->
               PyFloat.le mn v = true /\ PyFloat.le v mx = true) /\
    PyFloat.le mn mx = true.
Proof.
  apply (latency_stats_extremes 0.1%float [0.1; 0.1]%float).
  repeat constructor.
Defined.

(** C9, as stated, fails: for three samples of 0.1 the accumulated sum is
    0.30000000000000004 and the mean 0.10000000000000002 is above the
    recorded maximum 0.1. *)
Lemma mean_exceeds_max :
  ~ mean_within_bounds (add_all LatencyStats_new [0.1; 0.1; 0.1]%float).
Proof.
  intros (mn & av & mx & _ & Hav & Hmax & _ & Hle).
  vm_compute in Hav, Hmax.
  injection Hav as <-. injection Hmax as <-.
  vm_compute in Hle. discriminate.
Qed.

(** ** [RunSummary.to_dict] *)

Lemma latency_to_dict_cases round3 (l : LatencyStats) :
  (count l = 0 -> latency_to_dict round3 l = [("count", JInt 0)]) /\
  (count l <> 0 ->
   latency_to_dict round3 l =
     [("count", JInt (count l));
      ("average_ms", JFloat (round3 (PyFloat.or_zero (mean l))));
      ("min_ms", JFloat (round3 (PyFloat.or_zero (min_ms l))));
      ("max_ms", JFloat (round3 (PyFloat.or_zero (max_ms l))))]).
Proof.
  unfold latency_to_dict. split; intros H.
  - rewrite H. reflexivity.
  - apply Z.eqb_neq in H. rewrite H. reflexivity.
Qed.

(** The summary of the stopped run, serialised with a rounding that
    changes nothing. *)
Example to_dict_stopped :
  to_dict (fun x => x) summary_stopped =
    [("total_sent", JInt 1);
     ("elapsed_s", JFloat 0.5);
     ("status_counts", JObj [("200", JInt 1)]);
     ("started_at", JStr "2024-01-02T03:04:05Z");
     ("latency", JObj [("count", JInt 1);
                       ("average_ms", JFloat (elapsed_ms (answers 200 100 100.01 probe_request)));
                       ("min_ms", JFloat (elapsed_ms (answers 200 100 100.01 probe_request)));
                       ("max_ms", JFloat (elapsed_ms (answers 200 100 100.01 probe_request)))])].
Proof. vm_compute. reflexivity. Qed.

(** ** [RunConfig]: what construction checks *)



Example collect_config_example :
  collect_config (fun _ => "GET") int_example float_example form_example
  = Some (mkRunConfig "http://localhost/" "GET" 3 5 2.5 [("Accept", "text/plain")] None
                      "Accept: text/plain" "").
Proof. vm_compute. reflexivity. Qed.

(** ** [parse_header_lines] *)

Lemma colon_not_space : PyStr.is_space colon = false.
Proof. reflexivity. Qed.

Lemma line_entry_colon line name value :
  line_entry line name value -> PyStr.contains colon line = true /\ ~ blank line.
Proof.
  intros (a & b & E & _). split.
  - rewrite <- (contains_strip colon line colon_not_space), E, contains_app.
    rewrite contains_cons_same. apply orb_true_r.
  - unfold blank. rewrite E. destruct a; discriminate.
Qed.

Lemma line_entry_unique line n v n' v' :
  line_entry line n v -> line_entry line n' v' -> n = n' /\ v = v'.
Proof.
  intros (a & b & E & Ha & -> & ->) (a' & b' & E' & Ha' & -> & ->).
  rewrite E in E'. destruct (cut_unique _ _ _ _ _ E' Ha Ha') as [-> ->].
  split; reflexivity.
Qed.

(** What one turn of the loop does, by the kind of line. *)
Lemma parse_header_line_blank h line :
  blank line -> parse_header_line h line = Ok h.
Proof.
  unfold blank, parse_header_line. intros ->. reflexivity.
Qed.

Lemma parse_header_line_no_colon h line :
  ~ blank line -> PyStr.contains colon line = false ->
  parse_header_line h line = Raise (ValueError (MsgHeaderFormat line)).
Proof.
  unfold blank, parse_header_line. intros Hb Hc.
  apply truthy_true in Hb. rewrite Hb. simpl.
  rewrite (contains_strip colon line colon_not_space), Hc. reflexivity.
Qed.

Lemma parse_header_line_entry h line name value :
  line_entry line name value ->
  parse_header_line h line =
    if PyStr.truthy name then Ok (PyDict.set name value h)
    else Raise (ValueError (MsgHeaderNameEmpty line)).
Proof.
  intros He. destruct (line_entry_colon _ _ _ He) as [Hc Hb].
  destruct He as (a & b & E & Ha & -> & ->).
  unfold blank in Hb. unfold parse_header_line.
  apply truthy_true in Hb. rewrite Hb. simpl.
  rewrite (contains_strip colon line colon_not_space), Hc. simpl.
  rewrite E, (split_once_cut colon a b Ha).
  destruct (PyStr.truthy (PyStr.strip a)); reflexivity.
Qed.

Lemma line_kinds line :
  blank line \/
  (~ blank line /\ PyStr.contains colon line = false) \/
  exists name value, line_entry line name value.
Proof.
  destruct (decide (PyStr.strip line = "")) as [Hb|Hb]; [left; exact Hb|].
  destruct (PyStr.contains colon line) eqn:Hc; [|right; left; split; [exact Hb | reflexivity]].
  right; right.
  rewrite <- (contains_strip colon line colon_not_space) in Hc.
  destruct (contains_cut _ _ Hc) as (a & b & E & Ha).
  exists (PyStr.strip a), (PyStr.strip b), a, b. repeat split; assumption.
Qed.

Lemma parse_header_line_ok h line h' :
  parse_header_line h line = Ok h' ->
  ~ offending line /\
  ((h' = h /\ forall n v, ~ line_entry line n v) \/
   exists n0 v0, n0 <> "" /\ h' = PyDict.set n0 v0 h /\
     forall n v, line_entry line n v <-> n = n0 /\ v = v0).
Proof.
  intros H. destruct (line_kinds line) as [Hb | [[Hb Hc] | (n0 & v0 & He)]].
  - rewrite (parse_header_line_blank h line Hb) in H. injection H as <-.
    split; [intros [Hnb _]; contradiction|].
    left. split; [reflexivity|]. intros n v Hn.
    apply line_entry_colon in Hn as [_ Hnb]. contradiction.
  - rewrite (parse_header_line_no_colon h line Hb Hc) in H. discriminate.
  - rewrite (parse_header_line_entry h line n0 v0 He) in H.
    destruct (PyStr.truthy n0) eqn:Hn0; [|discriminate]. injection H as <-.
    apply truthy_true in Hn0. split.
    + intros [_ [Hc | [v Hv]]].
      * apply line_entry_colon in He as [He _]. congruence.
      * destruct (line_entry_unique _ _ _ _ _ He Hv) as [-> _]. congruence.
    + right. exists n0, v0. split; [exact Hn0|]. split; [reflexivity|].
      intros n v. split.
      * intros Hn. destruct (line_entry_unique _ _ _ _ _ Hn He) as [-> ->]. split; reflexivity.
      * intros [-> ->]. exact He.
Qed.

Lemma parse_header_line_raise h line e :
  parse_header_line h line = Raise e ->
  offending line /\
  ((e = ValueError (MsgHeaderFormat line) /\ PyStr.contains colon line = false) \/
   (e = ValueError (MsgHeaderNameEmpty line) /\ exists value, line_entry line "" value)).
Proof.
  intros H. destruct (line_kinds line) as [Hb | [[Hb Hc] | (n0 & v0 & He)]].
  - rewrite (parse_header_line_blank h line Hb) in H. discriminate.
  - rewrite (parse_header_line_no_colon h line Hb Hc) in H. injection H as <-.
    split; [split; [exact Hb | left; exact Hc] | left; split; [reflexivity | exact Hc]].
  - rewrite (parse_header_line_entry h line n0 v0 He) in H.
    destruct (PyStr.truthy n0) eqn:Hn0; [discriminate|]. injection H as <-.
    apply truthy_false in Hn0. subst n0.
    split; [split; [apply (line_entry_colon _ _ _ He) | right; eauto]
           | right; split; [reflexivity | eauto]].
Qed.

Lemma last_entry_cons line lines name value :
  last_entry (line :: lines) name value <->
  last_entry lines name value \/ (line_entry line name value /\ no_entry name lines).
Proof.
  split.
  - intros (before & l & after & E & He & Hno).
    destruct before as [|b before]; simpl in E; injection E as -> ->.
    + right. split; assumption.
    + left. exists before, l, after. repeat split; assumption.
  - intros [(before & l & after & -> & He & Hno) | [He Hno]].
    + exists (line :: before), l, after. repeat split; assumption.
    + exists [], line, lines. repeat split; assumption.
Qed.

Lemma no_entry_cons line lines name :
  no_entry name (line :: lines) <->
  (forall value, ~ line_entry line name value) /\ no_entry name lines.
Proof.
  unfold no_entry. split.
  - intros H. split.
    + intros value. apply H. left.
    + intros l value Hl. apply H. right. exact Hl.
  - intros [H1 H2] l value Hl. apply elem_of_cons in Hl as [->|Hl]; [apply H1 | apply H2, Hl].
Qed.

Lemma no_entry_nil name : no_entry name [].
Proof. intros l v Hl. apply elem_of_nil in Hl. contradiction. Qed.

Lemma last_entry_nil name value : ~ last_entry [] name value.
Proof. intros (before & l & after & E & _). destruct before; discriminate. Qed.

(** The loop, started from the dictionary [h]. *)
Lemma parse_header_loop_mapping lines : forall h m,
  parse_header_loop h lines = Ok m ->
  forall name value,
    PyDict.get name m = Some value <->
    last_entry lines name value \/ (no_entry name lines /\ PyDict.get name h = Some value).
Proof.
  induction lines as [|line lines IH]; intros h m H name value.
  - simpl in H. injection H as <-. split.
    + intros Hg. right. split; [apply no_entry_nil | exact Hg].
    + intros [Hl | [_ Hg]]; [destruct (last_entry_nil _ _ Hl) | exact Hg].
  - simpl in H. destruct (parse_header_line h line) as [h'|e] eqn:Hline; [|discriminate].
    simpl in H. rewrite (IH h' m H name value).
    rewrite last_entry_cons, no_entry_cons.
    destruct (parse_header_line_ok _ _ _ Hline)
      as [_ [[-> Hnone] | (n0 & v0 & Hn0 & -> & Hone)]].
    + split.
      * intros [Hl | [Hno Hg]]; [left; left; exact Hl|].
        right. split; [split; [intros v; apply Hnone | exact Hno] | exact Hg].
      * intros [[Hl | [He _]] | [[_ Hno] Hg]];
          [left; exact Hl | destruct (Hnone _ _ He) | right; split; assumption].
    + rewrite dict_get_set. split.
      * intros [Hl | [Hno Hg]]; [left; left; exact Hl|].
        destruct (decide (name = n0)) as [->|Hne].
        -- injection Hg as <-. left. right. split; [apply Hone; split; reflexivity | exact Hno].
        -- right. split; [split; [|exact Hno] | exact Hg].
           intros v Hv. apply Hone in Hv as [-> _]. contradiction.
      * intros [[Hl | [He Hno]] | [[Hnone Hno] Hg]]; [left; exact Hl | |].
        -- apply Hone in He as [-> ->]. right. split; [exact Hno|].
           destruct (decide (n0 = n0)); congruence.
        -- right. split; [exact Hno|].
           destruct (decide (name = n0)) as [->|Hne]; [|exact Hg].
           destruct (Hnone v0). apply Hone. split; reflexivity.
Qed.

Lemma parse_header_loop_raise lines : forall h e,
  parse_header_loop h lines = Raise e ->
  exists before line after,
    lines = before ++ line :: after /\ Forall (fun l => ~ offending l) before /\
    offending line /\
    (e = ValueError (MsgHeaderFormat line) \/ e = ValueError (MsgHeaderNameEmpty line)).
Proof.
  induction lines as [|line lines IH]; intros h e H; simpl in H; [discriminate|].
  destruct (parse_header_line h line) as [h'|e'] eqn:Hline; simpl in H.
  - destruct (IH h' e H) as (before & l & after & -> & Hb & Hoff & He).
    exists (line :: before), l, after. split; [reflexivity|].
    split; [constructor; [apply (parse_header_line_ok _ _ _ Hline) | exact Hb]|].
    split; assumption.
  - injection H as <-. destruct (parse_header_line_raise _ _ _ Hline) as [Hoff He].
    exists [], line, lines. split; [reflexivity|]. split; [constructor|].
    split; [exact Hoff|]. destruct He as [[-> _] | [-> _]]; [left | right]; reflexivity.
Qed.

(** C5: the header text "A: 1", "A: 2", "B:3" on three lines gives
    {"A": "2", "B": "3"}; and whenever [parse_header_lines] returns a
    mapping, a name maps to a value exactly when the last line that names it
    (blank lines aside, the line cut at its first colon, name and value
    trimmed) carries that value. *)
Theorem parse_header_lines_mapping :
  parse_header_lines ("A: 1" +:+ newline +:+ "A: 2" +:+ newline +:+ "B:3")
    = Ok [("A", "2"); ("B", "3")] /\
  forall raw m,
    parse_header_lines raw = Ok m ->
    (forall name value,
       PyDict.get name m = Some value <-> last_entry (PyStr.splitlines raw) name value) /\
    (forall line, line ∈ PyStr.splitlines raw -> blank line ->
       forall name value, ~ line_entry line name value).
Proof.
  split; [reflexivity|].
  intros raw m H. split.
  - intros name value.
    rewrite (parse_header_loop_mapping _ _ _ H name value). simpl. split.
    + intros [Hl | [_ Hg]]; [exact Hl | discriminate].
    + intros Hl. left. exact Hl.
  - intros line _ Hb name value He.
    apply line_entry_colon in He as [_ Hnb]. contradiction.
Qed.

(** C6: the header text "bad-line-no-colon" is refused with the message
    that quotes the line; [parse_header_lines] raises exactly when some line
    is not blank and either has no colon or has an empty name before its
    first colon; what it raises is a [ValueError] whose message quotes the
    first such line. *)
Theorem parse_header_lines_errors :
  parse_header_lines "bad-line-no-colon"
    = Raise (ValueError (MsgHeaderFormat "bad-line-no-colon")) /\
  forall raw,
    ((exists e, parse_header_lines raw = Raise e) <->
     (exists line, line ∈ PyStr.splitlines raw /\ offending line)) /\
    (forall e, parse_header_lines raw = Raise e ->
       exists before line after,
         PyStr.splitlines raw = before ++ line :: after /\
         Forall (fun l => ~ offending l) before /\ offending line /\
         (e = ValueError (MsgHeaderFormat line) \/
          e = ValueError (MsgHeaderNameEmpty line))).
Proof.
  split; [reflexivity|].
  intros raw. split; [split|].
  - intros [e H]. apply parse_header_loop_raise in H
      as (before & line & after & E & _ & Hoff & _).
    exists line. split; [|exact Hoff].
    rewrite E. apply elem_of_app. right. left.
  - intros (line & Hin & Hoff).
    destruct (parse_header_lines raw) as [m|e] eqn:H; [|eauto].
    exfalso. unfold parse_header_lines in H.
    assert (Hall : ~ Forall (fun l => ~ offending l) (PyStr.splitlines raw)).
    { intros Hall. rewrite Forall_forall in Hall. exact (Hall line Hin Hoff). }
    apply Hall. clear Hall Hin Hoff line.
    revert H. generalize (@nil (string * string)) as h.
    induction (PyStr.splitlines raw) as [|l ls IH]; intros h H; [constructor|].
    simpl in H. destruct (parse_header_line h l) as [h'|e] eqn:Hl; [|discriminate].
    constructor; [apply (parse_header_line_ok _ _ _ Hl) | apply (IH h' H)].
  - intros e H. apply parse_header_loop_raise in H. exact H.
Qed.

(** ** [fetch] *)

(** C3, as amended: when the transport answers, or fails with an exception
    that derives from [Exception] (connection failure, timeout expiry,
    protocol error), [fetch] returns the status or the error marker [None],
    the elapsed milliseconds, and an error description that is present
    exactly when the status is the marker; on cancellation
    ([asyncio.CancelledError]) it returns nothing: the exception reaches the
    caller. *)
Theorem fetch_outcome
    (session : request -> attempt) (method url : string) (timeout_s : float)
    (headers : PyDict.t string string) (body : option (list Byte.byte)) :
  let a := session (mkRequest method url timeout_s headers body) in
  let r := fetch session method url timeout_s headers body in
  match answer a with
  | Failed CancelledError => r = Raises CancelledError
  | Responded status =>
      r = Returned (Some status) (Some (elapsed_ms a)) None /\ well_formed_outcome r
  | Failed (Exc _ text) =>
      r = Returned None (Some (elapsed_ms a)) (Some text) /\ well_formed_outcome r
  end.
Proof.
  intros a r. unfold r, fetch. fold a.
  destruct (answer a) as [status | [|name text]].
  - split; [reflexivity|]. eexists _, _, _. split; [reflexivity|].
    split; intros H; [contradiction | discriminate].
  - reflexivity.
  - split; [reflexivity|]. eexists _, _, _. split; [reflexivity|].
    split; intros H; [reflexivity | discriminate].
Qed.

(** C3, as stated, fails: a cancelled request makes [fetch] raise. *)
Lemma fetch_propagates_cancellation :
  fetch cancelled_in_flight "GET" "http://localhost/" 5 [] None = Raises CancelledError /\
  ~ well_formed_outcome (fetch cancelled_in_flight "GET" "http://localhost/" 5 [] None).
Proof.
  split; [reflexivity|].
  intros (status & latency_ms & error & H & _). discriminate.
Qed.

(** ** [run_probe]: every recorded outcome is counted three times *)

Lemma fetch_timed session method url timeout_s headers body :
  timed (fetch session method url timeout_s headers body).
Proof.
  unfold fetch. destruct (answer _) as [status|[|name text]]; exact I.
Qed.

Lemma task_result_timed req t : timed (task_result req t).
Proof.
  unfold task_result. destruct (cancel_requested t); [exact I | apply fetch_timed].
Qed.

Lemma record_outcome_agree st status l error :
  tallies_agree st -> tallies_agree (record_outcome st status (Some l) error).
Proof.
  intros [Hc Hl]. unfold tallies_agree, record_outcome. simpl.
  rewrite counter_total_incr. lia.
Qed.

Lemma process_finished_agree st id r :
  timed r -> tallies_agree st -> tallies_agree (process_finished st id r).
Proof.
  intros Ht Hst. destruct r as [status [l|] error | [|name text]]; simpl in *.
  - apply record_outcome_agree, Hst.
  - contradiction.
  - exact Hst.
  - apply record_outcome_agree, Hst.
Qed.

Lemma process_all_agree req done : forall st,
  tallies_agree st ->
  tallies_agree
    (foldl (fun s t => process_finished s (task_id t) (task_result req t)) st done).
Proof.
  induction done as [|t done IH]; intros st Hst; simpl; [exact Hst|].
  apply IH, process_finished_agree; [apply task_result_timed | exact Hst].
Qed.

Lemma poll_agree req p st pending :
  tallies_agree st -> tallies_agree (fst (poll req p st pending)).
Proof.
  intros Hst. unfold poll.
  destruct (take_done _ _) as [done pending']. simpl.
  apply process_all_agree. exact Hst.
Qed.

Lemma wait_loop_agree req polls : forall st pending,
  tallies_agree st -> tallies_agree (wait_loop req polls st pending).
Proof.
  induction polls as [|p polls IH]; intros st pending Hst;
    destruct pending as [|t pending]; simpl; try exact Hst.
  - apply (poll_agree req _ st (t :: pending) Hst).
  - pose proof (poll_agree req p st (t :: pending) Hst) as Hp.
    destruct (poll req p st (t :: pending)) as [st' pending']. apply IH, Hp.
Qed.

Lemma run_wave_agree req rps w st :
  tallies_agree st -> tallies_agree (run_wave req rps w st).
Proof.
  intros Hst. unfold run_wave.
  set (st1 := wait_loop _ _ _ _).
  assert (H1 : tallies_agree st1) by (apply wait_loop_agree; exact Hst).
  destruct (PyFloat.gt _ _); [|exact H1].
  destruct (negb _); exact H1.
Qed.

Lemma run_waves_agree req rps end_time ws : forall st,
  tallies_agree st -> tallies_agree (run_waves req rps end_time ws st).
Proof.
  induction ws as [|w ws IH]; intros st Hst; simpl; [exact Hst|].
  destruct (PyFloat.lt _ _); [|exact Hst].
  destruct (negb _); [|exact Hst].
  apply IH, run_wave_agree. exact Hst.
Qed.

(** C1: in the summary of every run, the status counts add up to
    [total_sent], which is also the number of latency samples; and each
    completion that is processed adds one to each of the three. *)
Theorem run_probe_tallies_agree
    (url method : string) (rps duration_s : Z) (timeout_s : float)
    (headers : PyDict.t string string) (body : option (list Byte.byte))
    (log_queue : list log_entry) (stop_flag : bool) (env : run_script) :
  let s := fst (run_probe url method rps duration_s timeout_s headers body
                          log_queue stop_flag env) in
  (counter_total (status_counts s) = total_sent s /\
   total_sent s = count (latencies s)) /\
  (forall st req t,
     match task_result req t with
     | Raises CancelledError => True
     | r =>
         let st' := process_finished st (task_id t) r in
         sent st' = sent st + 1 /\
         count (st_latencies st') = count (st_latencies st) + 1 /\
         counter_total (st_counts st') = counter_total (st_counts st) + 1
     end).
Proof.
  split.
  - unfold run_probe. simpl.
    set (st0 := mkProbe 0 [] LatencyStats_new log_queue stop_flag []).
    assert (H0 : tallies_agree st0) by (split; reflexivity).
    pose proof (run_waves_agree (mkRequest method url timeout_s headers body) rps
                  (PrimFloat.add (start env) (PyFloat.of_int duration_s))
                  (waves env) st0 H0) as [Hc Hl].
    split; [exact Hc | symmetry; exact Hl].
  - intros st req t. pose proof (task_result_timed req t) as Ht.
    destruct (task_result req t) as [status [l|] error | [|name text]];
      simpl in *; try exact I; try contradiction;
      rewrite counter_total_incr; repeat split; reflexivity.
Qed.

(** ** [run_probe]: cancellation *)

Lemma launched_app tr tr' : launched (tr ++ tr') = launched tr + launched tr'.
Proof. induction tr as [|[n|i|d] tr IH]; simpl; lia. Qed.

Lemma skipped_app tr tr' : skipped (tr ++ tr') = skipped tr + skipped tr'.
Proof. induction tr as [|[n|i|d] tr IH]; simpl; lia. Qed.

Lemma remove_task_length id pending t rest :
  remove_task id pending = Some (t, rest) -> length pending = S (length rest).
Proof.
  revert t rest. induction pending as [|u pending IH]; intros t rest; simpl; [discriminate|].
  destruct (decide (task_id u = id)).
  - intros [= <- <-]. reflexivity.
  - destruct (remove_task id pending) as [[x ts']|] eqn:E; [|discriminate].
    intros [= <- <-]. simpl. f_equal. eapply IH. reflexivity.
Qed.

Lemma take_done_length ids : forall pending,
  (length (fst (take_done ids pending)) + length (snd (take_done ids pending))
   = length pending)%nat.
Proof.
  induction ids as [|id ids IH]; intros pending; simpl; [reflexivity|].
  destruct (remove_task id pending) as [[t pending']|] eqn:E; [|apply IH].
  specialize (IH pending'). apply remove_task_length in E.
  destruct (take_done ids pending') as [done rest]. simpl in *. lia.
Qed.

(** Naming every pending task leaves none pending. *)
Lemma take_done_all pending : snd (take_done (map task_id pending) pending) = [].
Proof.
  induction pending as [|t pending IH]; simpl; [reflexivity|].
  destruct (decide (task_id t = task_id t)); [|congruence].
  destruct (take_done (map task_id pending) pending) as [done rest]. exact IH.
Qed.

Lemma map_request_cancel_ids pending :
  map task_id (map request_cancel pending) = map task_id pending.
Proof. induction pending as [|t pending IH]; simpl; [|rewrite IH]; reflexivity. Qed.

Lemma process_finished_resolved st id r :
  resolved (process_finished st id r) = resolved st + 1 /\
  launched (trace (process_finished st id r)) = launched (trace st) /\
  st_stop (process_finished st id r) = st_stop st.
Proof.
  unfold resolved.
  destruct r as [status l error | [|name text]]; simpl;
    rewrite ?skipped_app, ?launched_app; simpl; repeat split; lia.
Qed.

Lemma process_all_resolved req done : forall st,
  let st' := foldl (fun s t => process_finished s (task_id t) (task_result req t)) st done in
  resolved st' = resolved st + Z.of_nat (length done) /\
  launched (trace st') = launched (trace st) /\
  st_stop st' = st_stop st.
Proof.
  induction done as [|t done IH]; intros st; simpl; [repeat split; lia|].
  destruct (IH (process_finished st (task_id t) (task_result req t))) as (H1 & H2 & H3).
  destruct (process_finished_resolved st (task_id t) (task_result req t)) as (G1 & G2 & G3).
  rewrite H1, H2, H3, G1, G2, G3. repeat split; lia.
Qed.

Lemma poll_resolved req p st pending :
  let r := poll req p st pending in
  resolved (fst r) + Z.of_nat (length (snd r)) = resolved st + Z.of_nat (length pending) /\
  launched (trace (fst r)) = launched (trace st) /\
  st_stop (fst r) = st_stop st || stop_now p.
Proof.
  unfold poll.
  set (pending1 := if st_stop (observe_stop (stop_now p) st)
                   then map request_cancel pending else pending).
  assert (Hlen : length pending1 = length pending).
  { unfold pending1. destruct (st_stop _); [apply length_map | reflexivity]. }
  pose proof (take_done_length (done_ids p) pending1) as Hd.
  destruct (take_done (done_ids p) pending1) as [done pending'].
  destruct (process_all_resolved req done (observe_stop (stop_now p) st)) as (H1 & H2 & H3).
  simpl in *. rewrite H1, H2, H3. unfold resolved. simpl. repeat split; lia.
Qed.

Lemma poll_drains req st pending :
  snd (poll req (mkPoll false (map task_id pending)) st pending) = [].
Proof.
  unfold poll. simpl.
  destruct (st_stop st || false).
  - rewrite <- (map_request_cancel_ids pending).
    pose proof (take_done_all (map request_cancel pending)) as H.
    destruct (take_done _ _) as [done rest]. exact H.
  - pose proof (take_done_all pending) as H.
    destruct (take_done _ _) as [done rest]. exact H.
Qed.

Lemma wait_loop_resolved req polls : forall st pending,
  let st' := wait_loop req polls st pending in
  resolved st' = resolved st + Z.of_nat (length pending) /\
  launched (trace st') = launched (trace st) /\
  (st_stop st = true -> st_stop st' = true).
Proof.
  induction polls as [|p polls IH]; intros st pending;
    destruct pending as [|t pending]; cbn [wait_loop];
    try (cbn; repeat split; [lia | auto]).
  - pose proof (poll_resolved req (mkPoll false (map task_id (t :: pending))) st
                  (t :: pending)) as (H1 & H2 & H3).
    rewrite poll_drains in H1. cbn zeta. split; [|split].
    + simpl length in *. lia.
    + exact H2.
    + intros Hs. rewrite H3, Hs. reflexivity.
  - pose proof (poll_resolved req p st (t :: pending)) as (H1 & H2 & H3).
    destruct (poll req p st (t :: pending)) as [st' pending'].
    destruct (IH st' pending') as (G1 & G2 & G3). cbn zeta. simpl fst in *. simpl snd in *.
    split; [|split].
    + lia.
    + congruence.
    + intros Hs. apply G3. rewrite H3, Hs. reflexivity.
Qed.

Lemma run_wave_resolved req rps w st :
  let st' := run_wave req rps w st in
  launched (trace st') = launched (trace st) + Z.of_nat (Z.to_nat rps) /\
  resolved st' = resolved st + Z.of_nat (Z.to_nat rps).
Proof.
  unfold run_wave.
  set (tasks := map _ (seq 0 (Z.to_nat rps))).
  assert (Hn : length tasks = Z.to_nat rps)
    by (unfold tasks; rewrite length_map, length_seq; reflexivity).
  destruct (wait_loop_resolved req (polls w) (push_trace (Launched (length tasks)) st) tasks)
    as (H1 & H2 & _).
  set (st1 := wait_loop _ _ _ _) in *.
  assert (G : launched (trace st1) = launched (trace st) + Z.of_nat (Z.to_nat rps) /\
              resolved st1 = resolved st + Z.of_nat (Z.to_nat rps)).
  { rewrite H1, H2. unfold resolved. simpl. rewrite launched_app, skipped_app. simpl. lia. }
  cbn zeta.
  destruct (PyFloat.gt _ _); [|exact G].
  destruct (negb _); [|exact G].
  unfold resolved in *. simpl. rewrite launched_app, skipped_app. simpl. lia.
Qed.

Lemma observe_stop_set b st : st_stop st = true -> observe_stop b st = st.
Proof. destruct st; simpl; intros ->; reflexivity. Qed.

Lemma observe_stop_unset b st :
  st_stop (observe_stop b st) = false -> observe_stop b st = st.
Proof.
  destruct st as [a c l q f tr]; simpl. intros H.
  apply orb_false_iff in H as [-> ->]. reflexivity.
Qed.

(** Once the flag is set, the outer loop launches nothing. *)
Lemma run_waves_stopped req rps end_time ws st :
  st_stop st = true -> run_waves req rps end_time ws st = st.
Proof.
  intros Hs. destruct ws as [|w ws]; simpl; [reflexivity|].
  destruct (PyFloat.lt _ _); [|reflexivity].
  rewrite (observe_stop_set _ _ Hs), Hs. reflexivity.
Qed.

(** Once the flag has been seen, what is still pending is cancelled, and
    what is cancelled is skipped. *)
Lemma nothing_recorded_refl st : nothing_recorded st st.
Proof. repeat split. Qed.

Lemma nothing_recorded_trans st st' st'' :
  nothing_recorded st st' -> nothing_recorded st' st'' -> nothing_recorded st st''.
Proof.
  intros (H1 & H2 & H3 & H4) (G1 & G2 & G3 & G4).
  repeat split; congruence.
Qed.

Lemma remove_task_cancelled id pending t rest :
  Forall cancelled pending -> remove_task id pending = Some (t, rest) ->
  cancelled t /\ Forall cancelled rest.
Proof.
  revert t rest. induction pending as [|u pending IH]; intros t rest Hall; simpl; [discriminate|].
  inversion Hall as [|? ? Hu Hrest]; subst.
  destruct (decide (task_id u = id)).
  - intros [= <- <-]. split; assumption.
  - destruct (remove_task id pending) as [[x ts']|] eqn:E; [|discriminate].
    intros [= <- <-]. destruct (IH x ts' Hrest eq_refl) as [Hx Hts].
    split; [exact Hx | constructor; assumption].
Qed.

Lemma take_done_cancelled ids : forall pending,
  Forall cancelled pending ->
  Forall cancelled (fst (take_done ids pending)) /\
  Forall cancelled (snd (take_done ids pending)).
Proof.
  induction ids as [|id ids IH]; intros pending Hall; simpl; [split; [constructor | exact Hall]|].
  destruct (remove_task id pending) as [[t pending']|] eqn:E; [|apply IH, Hall].
  destruct (remove_task_cancelled _ _ _ _ Hall E) as [Ht Hrest].
  destruct (IH pending' Hrest) as [H1 H2].
  destruct (take_done ids pending') as [done rest]. simpl in *.
  split; [constructor; assumption | exact H2].
Qed.

Lemma request_cancel_all pending : Forall cancelled (map request_cancel pending).
Proof. induction pending as [|t pending IH]; simpl; constructor; [reflexivity | exact IH]. Qed.

Lemma process_all_cancelled req done : forall st,
  Forall cancelled done ->
  let st' := foldl (fun s t => process_finished s (task_id t) (task_result req t)) st done in
  nothing_recorded st st' /\
  skipped (trace st') = skipped (trace st) + Z.of_nat (length done) /\
  st_stop st' = st_stop st.
Proof.
  induction done as [|t done IH]; intros st Hall; simpl.
  - split; [apply nothing_recorded_refl|]. split; [lia | reflexivity].
  - inversion Hall as [|? ? Ht Hdone]; subst.
    unfold task_result at 2 4 6. rewrite Ht. simpl process_finished.
    destruct (IH (push_trace (Skipped (task_id t)) st) Hdone) as (H1 & H2 & H3).
    split; [exact H1|]. split; [|exact H3].
    rewrite H2. simpl. rewrite skipped_app. simpl. lia.
Qed.

Lemma poll_cancels req p st pending :
  st_stop st || stop_now p = true ->
  let r := poll req p st pending in
  nothing_recorded st (fst r) /\
  skipped (trace (fst r)) + Z.of_nat (length (snd r))
    = skipped (trace st) + Z.of_nat (length pending) /\
  st_stop (fst r) = true.
Proof.
  intros Hflag. unfold poll. simpl st_stop. rewrite Hflag.
  pose proof (take_done_cancelled (done_ids p) _ (request_cancel_all pending)) as [Hd _].
  pose proof (take_done_length (done_ids p) (map request_cancel pending)) as Hlen.
  rewrite length_map in Hlen.
  destruct (take_done (done_ids p) (map request_cancel pending)) as [done rest].
  simpl in *.
  destruct (process_all_cancelled req done (observe_stop (stop_now p) st) Hd)
    as (H1 & H2 & H3).
  split; [exact H1|]. split; [rewrite H2; simpl; lia|].
  rewrite H3. exact Hflag.
Qed.

Lemma wait_loop_cancels req polls : forall st pending,
  st_stop st = true ->
  let st' := wait_loop req polls st pending in
  nothing_recorded st st' /\
  skipped (trace st') = skipped (trace st) + Z.of_nat (length pending).
Proof.
  induction polls as [|p polls IH]; intros st pending Hstop;
    destruct pending as [|t pending]; cbn [wait_loop];
    try (split; [apply nothing_recorded_refl | simpl; lia]).
  - pose proof (poll_cancels req (mkPoll false (map task_id (t :: pending))) st (t :: pending))
      as (H1 & H2 & _); [rewrite Hstop; reflexivity|].
    rewrite (poll_drains req st (t :: pending)) in H2. simpl length in H2.
    split; [exact H1 | simpl length; lia].
  - pose proof (poll_cancels req p st (t :: pending)) as (H1 & H2 & H3);
      [rewrite Hstop; reflexivity|].
    destruct (poll req p st (t :: pending)) as [st1 pending1]. simpl in H1, H2, H3.
    destruct (IH st1 pending1 H3) as [G1 G2]. cbv beta iota.
    split; [exact (nothing_recorded_trans _ _ _ H1 G1)|]. simpl length in *. lia.
Qed.

Lemma wait_loop_cancels_now req p polls st pending :
  stop_now p = true ->
  let st' := wait_loop req (p :: polls) st pending in
  nothing_recorded st st' /\
  skipped (trace st') = skipped (trace st) + Z.of_nat (length pending).
Proof.
  intros Hp. destruct pending as [|t pending]; cbn [wait_loop];
    [split; [apply nothing_recorded_refl | simpl; lia]|].
  pose proof (poll_cancels req p st (t :: pending)) as (H1 & H2 & H3);
    [rewrite Hp; apply orb_true_r|].
  destruct (poll req p st (t :: pending)) as [st1 pending1]. simpl in H1, H2, H3.
  destruct (wait_loop_cancels req polls st1 pending1 H3) as [G1 G2]. cbv beta iota.
  split; [exact (nothing_recorded_trans _ _ _ H1 G1)|]. simpl length in *. lia.
Qed.

Lemma run_wave_cancelled req rps w st p polls' :
  polls w = p :: polls' -> stop_now p = true ->
  let st' := run_wave req rps w st in
  nothing_recorded st st' /\
  skipped (trace st') = skipped (trace st) + Z.of_nat (Z.to_nat rps).
Proof.
  intros Hpolls Hp. unfold run_wave. rewrite Hpolls.
  set (tasks := map _ (seq 0 (Z.to_nat rps))).
  assert (Hn : length tasks = Z.to_nat rps)
    by (unfold tasks; rewrite length_map, length_seq; reflexivity).
  destruct (wait_loop_cancels_now req p polls' (push_trace (Launched (length tasks)) st)
              tasks Hp) as [H1 H2].
  set (st1 := wait_loop _ _ _ _) in *.
  assert (G : nothing_recorded st st1 /\
              skipped (trace st1) = skipped (trace st) + Z.of_nat (Z.to_nat rps)).
  { split; [exact H1|]. rewrite H2, Hn. simpl. rewrite skipped_app. simpl. lia. }
  destruct (PyFloat.gt _ _); [|exact G].
  destruct (negb _); [|exact G].
  destruct G as [G1 G2]. split; [exact G1|].
  simpl. rewrite skipped_app. simpl. lia.
Qed.



(** What the stopped run leaves: three requests launched, one recorded. *)
Example run_stopped_summary :
  let r := run_probe "http://localhost/" "GET" 3 5 5 [] None [] false run_stopped in
  total_sent (fst r) = 1 /\
  status_counts (fst r) = [(KInt 200, 1)] /\
  count (latencies (fst r)) = 1 /\
  trace (snd r) = [Launched 3; Skipped 0; Skipped 2].
Proof. vm_compute. repeat split. Qed.


(** ** [run_probe]: a run that is not stopped *)

Lemma remove_task_steady id pending t rest :
  Forall steady pending -> remove_task id pending = Some (t, rest) ->
  steady t /\ Forall steady rest.
Proof.
  revert t rest. induction pending as [|u pending IH]; intros t rest Hall; simpl; [discriminate|].
  inversion Hall as [|? ? Hu Hrest]; subst.
  destruct (decide (task_id u = id)).
  - intros [= <- <-]. split; assumption.
  - destruct (remove_task id pending) as [[x ts']|] eqn:E; [|discriminate].
    intros [= <- <-]. destruct (IH x ts' Hrest eq_refl) as [Hx Hts].
    split; [exact Hx | constructor; assumption].
Qed.

Lemma take_done_steady ids : forall pending,
  Forall steady pending ->
  Forall steady (fst (take_done ids pending)) /\ Forall steady (snd (take_done ids pending)).
Proof.
  induction ids as [|id ids IH]; intros pending Hall; simpl; [split; [constructor | exact Hall]|].
  destruct (remove_task id pending) as [[t pending']|] eqn:E; [|apply IH, Hall].
  destruct (remove_task_steady _ _ _ _ Hall E) as [Ht Hrest].
  destruct (IH pending' Hrest) as [H1 H2].
  destruct (take_done ids pending') as [done rest]. simpl in *.
  split; [constructor; assumption | exact H2].
Qed.

Lemma process_steady st req t :
  steady t -> undisturbed st ->
  undisturbed (process_finished st (task_id t) (task_result req t)).
Proof.
  intros [Hc Ha] [Hs Hk]. unfold task_result, fetch. rewrite Hc.
  specialize (Ha (mkRequest (req_method req) (req_url req) (req_timeout req)
                            (req_headers req) (req_data req))).
  destruct (answer _) as [status | [|name text]]; [| congruence |]; split; assumption.
Qed.

Lemma poll_steady req p st pending :
  stop_now p = false -> undisturbed st -> Forall steady pending ->
  undisturbed (fst (poll req p st pending)) /\ Forall steady (snd (poll req p st pending)).
Proof.
  intros Hp [Hs Hk] Hall. unfold poll.
  assert (H0 : undisturbed (observe_stop (stop_now p) st)).
  { split; simpl; [rewrite Hs, Hp; reflexivity | exact Hk]. }
  replace (st_stop (observe_stop (stop_now p) st)) with false
    by (symmetry; apply H0).
  destruct (take_done_steady (done_ids p) pending Hall) as [Hdone Hrest].
  destruct (take_done (done_ids p) pending) as [done pending']. simpl in *.
  split; [|exact Hrest].
  revert H0 Hdone. generalize (observe_stop (stop_now p) st) as st0.
  induction done as [|t done IH]; intros st0 H0 Hdone; simpl; [exact H0|].
  inversion Hdone as [|? ? Ht Hdone']; subst.
  apply IH; [apply process_steady; assumption | exact Hdone'].
Qed.

Lemma wait_loop_steady req polls : forall st pending,
  Forall (fun p => stop_now p = false) polls -> undisturbed st -> Forall steady pending ->
  undisturbed (wait_loop req polls st pending).
Proof.
  induction polls as [|p polls IH]; intros st pending Hq Hst Hall;
    destruct pending as [|t pending]; simpl; try exact Hst.
  - apply (poll_steady req (mkPoll false _) st (t :: pending) eq_refl Hst Hall).
  - inversion Hq as [|? ? Hp Hq']; subst.
    destruct (poll_steady req p st (t :: pending) Hp Hst Hall) as [G1 G2].
    destruct (poll req p st (t :: pending)) as [st' pending']. apply IH; assumption.
Qed.

Lemma run_wave_steady req rps w st :
  quiet_wave w -> undisturbed st -> undisturbed (run_wave req rps w st).
Proof.
  intros (_ & Hsleep & Hpolls & Hplays) [Hs Hk]. unfold run_wave.
  set (tasks := map _ (seq 0 (Z.to_nat rps))).
  assert (Hall : Forall steady tasks).
  { unfold tasks. apply Forall_forall. intros t Ht.
    apply list_elem_of_fmap in Ht as (i & -> & _). split; [reflexivity|]. apply Hplays. }
  assert (H0 : undisturbed (push_trace (Launched (length tasks)) st)).
  { split; simpl; [exact Hs | rewrite skipped_app; simpl; lia]. }
  pose proof (wait_loop_steady req (polls w) _ tasks Hpolls H0 Hall) as [H1 H2].
  set (st1 := wait_loop _ _ _ _) in *.
  destruct (PyFloat.gt _ _); [|split; assumption].
  simpl. rewrite H1, Hsleep. simpl.
  split; simpl; [rewrite H1; reflexivity | rewrite skipped_app; simpl; lia].
Qed.

Lemma run_waves_accounted req rps end_time ws : forall st,
  resolved st = launched (trace st) ->
  resolved (run_waves req rps end_time ws st)
  = launched (trace (run_waves req rps end_time ws st)).
Proof.
  induction ws as [|w ws IH]; intros st Hst; simpl; [exact Hst|].
  destruct (PyFloat.lt _ _); [|exact Hst].
  destruct (negb _); [|exact Hst].
  apply IH.
  destruct (run_wave_resolved req rps w (observe_stop (stop_before_test w) st)) as [H1 H2].
  rewrite H1, H2. unfold resolved in *. simpl. lia.
Qed.

Lemma run_waves_steady req rps end_time ws : forall st,
  Forall quiet_wave ws -> undisturbed st ->
  undisturbed (run_waves req rps end_time ws st).
Proof.
  induction ws as [|w ws IH]; intros st Hq Hst; simpl; [exact Hst|].
  inversion Hq as [|? ? Hw Hws]; subst.
  destruct (PyFloat.lt _ _); [|exact Hst].
  assert (H0 : undisturbed (observe_stop (stop_before_test w) st)).
  { destruct Hw as [Hw _]. destruct Hst as [Hs Hk].
    split; simpl; [rewrite Hs, Hw; reflexivity | exact Hk]. }
  destruct (negb _); [|exact H0].
  apply IH; [exact Hws | apply run_wave_steady; assumption].
Qed.

(** Without a stop and without a cancelled transport every launched request
    is recorded. *)
Theorem quiet_run_records_every_request
    (url method : string) (rps duration_s : Z) (timeout_s : float)
    (headers : PyDict.t string string) (body : option (list Byte.byte))
    (log_queue : list log_entry) (env : run_script) :
  Forall quiet_wave (waves env) ->
  let r := run_probe url method rps duration_s timeout_s headers body log_queue false env in
  total_sent (fst r) = launched (trace (snd r)) /\ skipped (trace (snd r)) = 0.
Proof.
  intros Hq. unfold run_probe. simpl.
  set (st0 := mkProbe 0 [] LatencyStats_new log_queue false []).
  set (req := mkRequest method url timeout_s headers body).
  set (end_time := PrimFloat.add (start env) (PyFloat.of_int duration_s)).
  assert (H0 : undisturbed st0) by (split; reflexivity).
  assert (G0 : resolved st0 = launched (trace st0)) by reflexivity.
  pose proof (run_waves_steady req rps end_time (waves env) st0 Hq H0) as [_ Hk].
  pose proof (run_waves_accounted req rps end_time (waves env) st0 G0) as Hacc.
  unfold resolved in Hacc. split; [lia | exact Hk].
Qed.

Lemma quiet_run_records_every_request_witness :
  let r := run_probe "http://localhost/" "GET" 2 1 5 [] None [] false run_two_outcomes in
  total_sent (fst r) = launched (trace (snd r)) /\ skipped (trace (snd r)) = 0.
Proof.
  apply (quiet_run_records_every_request "http://localhost/" "GET" 2 1 5 [] None []
           run_two_outcomes).
  constructor; [|constructor].
  repeat split; [constructor|].
  intros i req. simpl. destruct (Nat.eqb i 0); discriminate.
Defined.

(** One answer 429 and one transport fault give the counts {429: 1, ERR: 1}
    and [total_sent = 2]. *)
Theorem two_outcomes_summary :
  let s := fst (run_probe "http://localhost/" "GET" 2 1 5 [] None [] false
                          run_two_outcomes) in
  total_sent s = 2 /\
  status_counts s = [(KInt 429, 1); (KStr "ERR", 1)] /\
  count (latencies s) = 2 /\
  min_ms (latencies s) = Some 250%float /\ max_ms (latencies s) = Some 500%float.
Proof. vm_compute. repeat split. Qed.

(** ** The round trip through a JSON file *)

Lemma pretty_N_go_not_ERR (x : N) (s : string) : s <> "ERR" -> pretty_N_go x s <> "ERR".
Proof.
  revert s. induction (N.lt_wf_0 x) as [x _ IH]; intros s Hs.
  destruct (decide (x = 0%N)) as [->|Hx].
  - rewrite pretty_N_go_0. exact Hs.
  - rewrite pretty_N_go_step by lia. apply IH.
    + apply N.div_lt; lia.
    + unfold pretty_N_char. repeat case_match; discriminate.
Qed.

Lemma str_int_not_ERR (n : Z) : PyStr.of_int n <> "ERR".
Proof.
  unfold PyStr.of_int, pretty, pretty_Z. destruct n as [|p|p].
  - discriminate.
  - unfold pretty, pretty_positive, pretty, pretty_N.
    destruct (decide (N.pos p = 0%N)); [discriminate|].
    apply pretty_N_go_not_ERR. discriminate.
  - discriminate.
Qed.

Lemma str_key_inj k k' : probe_key k -> probe_key k' -> str_key k = str_key k' -> k = k'.
Proof.
  intros [->|[n ->]] [->|[n' ->]]; simpl; intros E.
  - reflexivity.
  - symmetry in E. destruct (str_int_not_ERR _ E).
  - destruct (str_int_not_ERR _ E).
  - unfold PyStr.of_int in E. apply (inj pretty) in E. subst. reflexivity.
Qed.

(** A counter with distinct keys, all of them of the kind [run_probe] uses,
    has distinct key texts. *)
Lemma probe_keys_distinct (c : PyDict.t status_key Z) :
  NoDup (PyDict.keys c) -> Forall probe_key (PyDict.keys c) -> key_texts_distinct c.
Proof.
  unfold key_texts_distinct. generalize (PyDict.keys c) as ks.
  induction ks as [|k ks IH]; intros Hnd Hall; simpl; [constructor|].
  apply NoDup_cons in Hnd as [Hk Hnd]. inversion Hall as [|? ? Hpk Hrest]; subst.
  apply NoDup_cons. split; [|apply IH; assumption].
  intros Hin. apply list_elem_of_fmap in Hin as (k' & E & Hk').
  rewrite Forall_forall in Hrest.
  apply str_key_inj in E; [subst; contradiction | exact Hpk | apply Hrest, Hk'].
Qed.

Lemma record_outcome_counter st status latency_ms error :
  probe_counter st -> probe_counter (record_outcome st status latency_ms error).
Proof.
  intros [Hnd Hall]. unfold probe_counter, record_outcome, counter_incr. simpl. split.
  - apply dict_set_nodup, Hnd.
  - rewrite dict_set_keys. destruct (decide _); [exact Hall|].
    apply Forall_app. split; [exact Hall|]. constructor; [|constructor].
    destruct status; [right; eauto | left; reflexivity].
Qed.

Lemma process_finished_counter st id r :
  probe_counter st -> probe_counter (process_finished st id r).
Proof.
  intros H. destruct r as [status l error | [|name text]]; simpl;
    [apply record_outcome_counter | | apply record_outcome_counter]; exact H.
Qed.

Lemma poll_counter req p st pending :
  probe_counter st -> probe_counter (fst (poll req p st pending)).
Proof.
  intros Hst. unfold poll.
  destruct (take_done _ _) as [done pending']. simpl.
  assert (H0 : probe_counter (observe_stop (stop_now p) st)) by exact Hst.
  revert H0. generalize (observe_stop (stop_now p) st) as st0.
  induction done as [|t done IH]; intros st0 H0; simpl; [exact H0|].
  apply IH, process_finished_counter, H0.
Qed.

Lemma wait_loop_counter req polls : forall st pending,
  probe_counter st -> probe_counter (wait_loop req polls st pending).
Proof.
  induction polls as [|p polls IH]; intros st pending Hst;
    destruct pending as [|t pending]; simpl; try exact Hst.
  - apply (poll_counter req _ st (t :: pending) Hst).
  - pose proof (poll_counter req p st (t :: pending) Hst) as Hp.
    destruct (poll req p st (t :: pending)) as [st' pending']. apply IH, Hp.
Qed.

Lemma run_waves_counter req rps end_time ws : forall st,
  probe_counter st -> probe_counter (run_waves req rps end_time ws st).
Proof.
  induction ws as [|w ws IH]; intros st Hst; simpl; [exact Hst|].
  destruct (PyFloat.lt _ _); [|exact Hst].
  destruct (negb _); [|exact Hst].
  apply IH. unfold run_wave.
  set (st1 := wait_loop _ _ _ _).
  assert (H1 : probe_counter st1) by (apply wait_loop_counter; exact Hst).
  destruct (PyFloat.gt _ _); [|exact H1].
  destruct (negb _); exact H1.
Qed.

Lemma run_probe_key_texts_distinct
    (url method : string) (rps duration_s : Z) (timeout_s : float)
    (headers : PyDict.t string string) (body : option (list Byte.byte))
    (log_queue : list log_entry) (stop_flag : bool) (env : run_script) :
  key_texts_distinct
    (status_counts (fst (run_probe url method rps duration_s timeout_s headers body
                                   log_queue stop_flag env))).
Proof.
  unfold run_probe. simpl.
  set (st0 := mkProbe 0 [] LatencyStats_new log_queue stop_flag []).
  assert (H0 : probe_counter st0) by (split; constructor).
  destruct (run_waves_counter (mkRequest method url timeout_s headers body) rps
              (PrimFloat.add (start env) (PyFloat.of_int duration_s))
              (waves env) st0 H0) as [Hnd Hall].
  apply probe_keys_distinct; assumption.
Qed.

Lemma json_wf_obj (fields : list (string * json)) :
  NoDup (map fst fields) -> Forall (fun kv => json_wf (snd kv) = true) fields ->
  json_wf (JObj fields) = true.
Proof.
  intros Hnd Hall. simpl. apply andb_true_iff. split.
  - apply bool_decide_eq_true. exact Hnd.
  - apply forallb_forall. intros kv Hin. rewrite Forall_forall in Hall.
    apply Hall. apply list_elem_of_In. exact Hin.
Qed.

Lemma status_counts_to_dict_distinct (c : PyDict.t status_key Z) :
  key_texts_distinct c ->
  status_counts_to_dict c = map (fun kv => (str_key (fst kv), JInt (snd kv))) c.
Proof.
  intros H. unfold status_counts_to_dict. apply of_items_nodup.
  rewrite <- list_fmap_compose. unfold key_texts_distinct, PyDict.keys in H.
  rewrite <- list_fmap_compose in H. exact H.
Qed.

Lemma to_dict_wf round3 (s : RunSummary) : json_wf (JObj (to_dict round3 s)) = true.
Proof.
  apply json_wf_obj.
  - unfold to_dict. simpl. compute_done.
  - unfold to_dict. simpl. repeat constructor; simpl.
    + apply andb_true_iff. split.
      * apply bool_decide_eq_true. apply (of_items_keys_nodup (K:=string)).
      * apply forallb_forall. intros [k v] Hin. apply list_elem_of_In in Hin.
        apply of_items_elem, list_elem_of_fmap in Hin as ([k' n] & E & _).
        injection E as -> ->. reflexivity.
    + unfold latency_to_dict. destruct (negb _); vm_compute; reflexivity.
Qed.

Lemma summary_payload_wf round3 config summary :
  json_wf (JObj (summary_payload round3 config summary)) = true.
Proof.
  apply json_wf_obj; [compute_done|].
  constructor; [reflexivity|].
  constructor; [apply to_dict_wf | constructor].
Qed.

Section RoundTrip.
Variable text : Type.
Variable dumps : json -> text.
Variable loads : text -> option json.
Variable round3 : float -> float.

(** The [json] module reads back what it wrote. *)
Hypothesis loads_dumps : forall v, json_wf v = true -> loads (dumps v) = Some v.

Lemma load_after_save fs path payload :
  json_wf (JObj payload) = true ->
  load_json text loads (save_json text dumps fs path payload) path = Ok (JObj payload).
Proof.
  intros Hwf. unfold load_json, save_json. rewrite dict_get_set.
  destruct (decide (path = path)); [|congruence].
  rewrite (loads_dumps _ Hwf). reflexivity.
Qed.

(** C8: a summary whose status keys have distinct texts (as those of every
    run have), saved with [save_json] and loaded again, comes back with the
    same [total_sent], the same [elapsed_s] rounded to three decimals, and
    the same status counts, entry by entry, under the keys' texts. *)
Theorem summary_round_trip
    (fs : PyDict.t string text) (path : string) (config : RunConfig) (s : RunSummary) :
  key_texts_distinct (status_counts s) ->
  exists loaded summary,
    load_json text loads (save_json text dumps fs path (summary_payload round3 config s)) path
      = Ok (JObj loaded) /\
    PyDict.get "summary" loaded = Some (JObj summary) /\
    PyDict.get "total_sent" summary = Some (JInt (total_sent s)) /\
    PyDict.get "elapsed_s" summary = Some (JFloat (round3 (elapsed_s s))) /\
    PyDict.get "status_counts" summary =
      Some (JObj (map (fun kv => (str_key (fst kv), JInt (snd kv))) (status_counts s))).
Proof.
  intros Hkeys.
  exists (summary_payload round3 config s), (to_dict round3 s).
  split; [apply load_after_save, summary_payload_wf|].
  repeat split; try reflexivity.
  simpl. rewrite (status_counts_to_dict_distinct _ Hkeys). reflexivity.
Qed.
End RoundTrip.

(** The stopped run, written and read by a reader that inverts the writer. *)
Lemma summary_round_trip_witness :
  exists loaded summary,
    load_json json Some
      (save_json json id [] "summary.json" (summary_payload id config_example summary_stopped))
      "summary.json" = Ok (JObj loaded) /\
    PyDict.get "summary" loaded = Some (JObj summary) /\
    PyDict.get "total_sent" summary = Some (JInt (total_sent summary_stopped)) /\
    PyDict.get "elapsed_s" summary = Some (JFloat (id (elapsed_s summary_stopped))) /\
    PyDict.get "status_counts" summary =
      Some (JObj (map (fun kv => (str_key (fst kv), JInt (snd kv)))
                      (status_counts summary_stopped))).
Proof.
  apply (summary_round_trip json id Some id (fun v _ => eq_refl) [] "summary.json"
           config_example summary_stopped).
  apply run_probe_key_texts_distinct.
Defined.

(** ** [run_headless]: the checks on the arguments *)

(** C10, as amended: [run_headless] raises the first [ValueError] exactly
    when [--headers] and [--headers-path] are both given a non-empty value,
    and the second exactly when that is not so and [--body] and
    [--body-path] are both given a non-empty value; when a check raises,
    nothing has been read, built or sent; when at most one option of each
    pair is supplied, the checks raise nothing. *)
Theorem headless_argument_checks
    (py_upper : string -> string) (py_str : json -> string)
    (py_int : json -> result Z) (py_float : json -> result float)
    (round3 : float -> float)
    (read_text : string -> result string) (read_json : string -> result json)
    (write_text : string -> list log_entry -> result unit)
    (write_json : string -> PyDict.t string json -> result unit)
    (a : args) :
  let both_headers :=
    PyStr.opt_truthy (arg_headers a) && PyStr.opt_truthy (arg_headers_path a) in
  let both_bodies :=
    PyStr.opt_truthy (arg_body a) && PyStr.opt_truthy (arg_body_path a) in
  (headless_checks a
     = Raise (ValueError (MsgText "--headers and --headers-path cannot be used together"))
   <-> both_headers = true) /\
  (headless_checks a
     = Raise (ValueError (MsgText "--body and --body-path cannot be used together"))
   <-> both_headers = false /\ both_bodies = true) /\
  (headless_checks a = Ok tt <-> both_headers = false /\ both_bodies = false) /\
  (forall e env,
     headless_checks a = Raise e ->
     run_headless py_upper py_str py_int py_float round3 read_text read_json
                  write_text write_json a env
     = ([], Raise e)) /\
  ((arg_headers a = None \/ arg_headers_path a = None) ->
   (arg_body a = None \/ arg_body_path a = None) ->
   headless_checks a = Ok tt).
Proof.
  intros both_headers both_bodies.
  assert (Hone : forall x y : option string,
            x = None \/ y = None -> PyStr.opt_truthy x && PyStr.opt_truthy y = false).
  { intros x y [-> | ->]; [reflexivity | apply andb_false_r]. }
  assert (Hchecks : headless_checks a =
            if both_headers then
              Raise (ValueError
                       (MsgText "--headers and --headers-path cannot be used together"))
            else if both_bodies then
              Raise (ValueError (MsgText "--body and --body-path cannot be used together"))
            else Ok tt) by reflexivity.
  split; [|split; [|split; [|split]]].
  - rewrite Hchecks. destruct both_headers, both_bodies; split;
      try discriminate; try reflexivity.
  - rewrite Hchecks. destruct both_headers, both_bodies; split;
      try discriminate; try reflexivity; try (intros [? ?]; discriminate);
      try (intros _; split; reflexivity).
  - rewrite Hchecks. destruct both_headers, both_bodies; split;
      try discriminate; try reflexivity; try (intros [? ?]; discriminate);
      try (intros _; split; reflexivity).
  - intros e env He. unfold run_headless, headless_config. rewrite He. reflexivity.
  - intros Hh Hb. rewrite Hchecks. unfold both_headers, both_bodies.
    rewrite (Hone _ _ Hh), (Hone _ _ Hb). reflexivity.
Qed.

(** C10, as stated, fails: with [--headers ""] and [--headers-path
    headers.txt] both options are supplied and no check raises; the headers
    are read from the file. *)
Lemma empty_headers_pass_the_checks :
  supplied (arg_headers args_empty_headers) /\
  supplied (arg_headers_path args_empty_headers) /\
  headless_checks args_empty_headers = Ok tt /\
  headless_config (fun s => s) (fun _ => "") (fun _ => Ok 1) (fun _ => Ok 1%float)
                  (fun _ => Ok "A: 1") (fun p => Raise (OSError p)) args_empty_headers
  = ([EvReadText "headers.txt"; EvFromFields],
     Ok (mkRunConfig "http://localhost/" "GET" 5 30 10 [("A", "1")] None "A: 1" "")).
Proof.
  repeat split; try discriminate.
Qed.

(** * Further properties of the code *)

(** ** Texts: padding, slices and decimal numerals *)

Lemma app_assoc_str (a b c : string) : (a +:+ b) +:+ c = a +:+ b +:+ c.
Proof.
  induction a as [|x a IH]; [reflexivity|].
  change (String x ((a +:+ b) +:+ c) = String x (a +:+ b +:+ c)). rewrite IH. reflexivity.
Qed.

Lemma app_nil_r_str (a : string) : a +:+ "" = a.
Proof.
  induction a as [|x a IH]; [reflexivity|].
  change (String x (a +:+ "") = String x a). rewrite IH. reflexivity.
Qed.

Lemma length_app_str (a b : string) :
  String.length (a +:+ b) = (String.length a + String.length b)%nat.
Proof.
  induction a as [|x a IH]; [reflexivity|].
  change (S (String.length (a +:+ b)) = S (String.length a + String.length b)).
  rewrite IH. reflexivity.
Qed.

Lemma spaces_length (k : nat) : String.length (PyText.spaces k) = k.
Proof. induction k as [|k IH]; simpl; [reflexivity | rewrite IH; reflexivity]. Qed.

Lemma rjust_length (w : nat) (s : string) :
  String.length (PyText.rjust w s) = Nat.max w (String.length s).
Proof. unfold PyText.rjust. rewrite length_app_str, spaces_length. lia. Qed.

Lemma ljust_length (w : nat) (s : string) :
  String.length (PyText.ljust w s) = Nat.max w (String.length s).
Proof. unfold PyText.ljust. rewrite length_app_str, spaces_length. lia. Qed.

Lemma rjust_wide (w : nat) (s : string) :
  (w <= String.length s)%nat -> PyText.rjust w s = s.
Proof.
  intros H. unfold PyText.rjust. replace (w - String.length s)%nat with O by lia.
  reflexivity.
Qed.

Lemma ljust_wide (w : nat) (s : string) :
  (w <= String.length s)%nat -> PyText.ljust w s = s.
Proof.
  intros H. unfold PyText.ljust. replace (w - String.length s)%nat with O by lia.
  apply app_nil_r_str.
Qed.

Lemma drop_app (a b : string) : PyText.drop (String.length a) (a +:+ b) = b.
Proof.
  induction a as [|x a IH]; [destruct b; reflexivity|].
  change (PyText.drop (String.length a) (a +:+ b) = b). exact IH.
Qed.

Lemma take_app (a b : string) : PyText.take (String.length a) (a +:+ b) = a.
Proof.
  induction a as [|x a IH]; [destruct b; reflexivity|].
  change (String x (PyText.take (String.length a) (a +:+ b)) = String x a).
  rewrite IH. reflexivity.
Qed.

(** The slice that covers one field of a line. *)
Lemma slice_field (a b c : string) (i j : nat) :
  String.length a = i -> String.length b = (j - i)%nat ->
  PyText.slice i j (a +:+ b +:+ c) = b.
Proof.
  intros <- Hb. unfold PyText.slice. rewrite drop_app, <- Hb. apply take_app.
Qed.

Lemma lstrip_by_is_space (s : string) : PyText.lstrip_by PyStr.is_space s = PyStr.lstrip s.
Proof. induction s as [|c s IH]; simpl; [reflexivity | rewrite IH; reflexivity]. Qed.

Lemma rstrip_by_is_space (s : string) : PyText.rstrip_by PyStr.is_space s = PyStr.rstrip s.
Proof. induction s as [|c s IH]; simpl; [reflexivity | rewrite IH; reflexivity]. Qed.

Lemma every_impl (f g : ascii -> bool) (s : string) :
  (forall c, f c = true -> g c = true) -> every f s = true -> every g s = true.
Proof.
  intros Hfg. induction s as [|c s IH]; simpl; [reflexivity|].
  intros [Hc Hs]%andb_true_iff. rewrite (Hfg c Hc), (IH Hs). reflexivity.
Qed.

Lemma every_app (f : ascii -> bool) (a b : string) :
  every f (a +:+ b) = every f a && every f b.
Proof.
  induction a as [|x a IH]; [reflexivity|].
  change (f x && every f (a +:+ b) = f x && every f a && every f b).
  rewrite IH. apply andb_assoc.
Qed.

(** A text without a character to strip is left as it is. *)
Lemma lstrip_by_none (f : ascii -> bool) (s : string) :
  every (fun c => negb (f c)) s = true -> PyText.lstrip_by f s = s.
Proof.
  destruct s as [|c s]; simpl; [reflexivity|].
  intros [Hc _]%andb_true_iff. apply negb_true_iff in Hc. rewrite Hc. reflexivity.
Qed.

Lemma rstrip_by_none (f : ascii -> bool) (s : string) :
  every (fun c => negb (f c)) s = true -> PyText.rstrip_by f s = s.
Proof.
  induction s as [|c s IH]; simpl; [reflexivity|].
  intros [Hc Hs]%andb_true_iff. apply negb_true_iff in Hc. rewrite (IH Hs), Hc.
  destruct s; reflexivity.
Qed.

Lemma decimal_not_space (c : ascii) :
  PyText.is_decimal c = true -> negb (PyStr.is_space c) = true.
Proof. destruct c as [[] [] [] [] [] [] [] []]; vm_compute; congruence. Qed.

Lemma decimal_not_int_space (c : ascii) :
  PyText.is_decimal c = true -> negb (PyText.int_space c) = true.
Proof. destruct c as [[] [] [] [] [] [] [] []]; vm_compute; congruence. Qed.

Lemma decimal_is_digit (c : ascii) : PyText.is_decimal c = true -> PyText.is_digit c = true.
Proof. unfold PyText.is_digit. intros ->. reflexivity. Qed.

Lemma strip_decimal (s : string) : every PyText.is_decimal s = true -> PyStr.strip s = s.
Proof.
  intros H. apply (every_impl _ _ _ decimal_not_space) in H. unfold PyStr.strip.
  rewrite <- lstrip_by_is_space, <- rstrip_by_is_space.
  rewrite (lstrip_by_none _ _ H). apply rstrip_by_none, H.
Qed.

(** Padding on the left does not show after [strip]. *)
Lemma lstrip_spaces (k : nat) (s : string) :
  PyStr.lstrip (PyText.spaces k +:+ s) = PyStr.lstrip s.
Proof. induction k as [|k IH]; [reflexivity | exact IH]. Qed.

Lemma strip_rjust (w : nat) (s : string) : PyStr.strip (PyText.rjust w s) = PyStr.strip s.
Proof. unfold PyStr.strip, PyText.rjust. rewrite lstrip_spaces. reflexivity. Qed.

Lemma count_decimal_length (s : string) : (PyText.count_decimal s <= String.length s)%nat.
Proof. induction s as [|c s IH]; simpl; [lia | destruct (PyText.is_decimal c); lia]. Qed.

(** *** [str] on an [int]: the numeral *)

Lemma pretty_N_char_decimal (x : N) :
  PyText.is_decimal (pretty_N_char (x mod 10)) = true /\
  PyText.digit_value (pretty_N_char (x mod 10)) = Z.of_N (x mod 10).
Proof.
  assert (H : (x mod 10 < 10)%N) by (apply N.mod_lt; discriminate).
  destruct (x mod 10)%N as [|p]; [split; reflexivity|].
  do 4 (destruct p as [p|p|]; try (split; reflexivity); try lia).
Qed.

Lemma pretty_N_go_app (x : N) (s : string) : pretty_N_go x s = pretty_N_go x "" +:+ s.
Proof.
  revert s. induction (N.lt_wf_0 x) as [x _ IH]; intros s.
  destruct (decide (x = 0%N)) as [->|Hx]; [rewrite !pretty_N_go_0; reflexivity|].
  assert (Hlt : (x / 10 < x)%N) by (apply N.div_lt; lia).
  rewrite !(pretty_N_go_step x) by lia.
  rewrite (IH _ Hlt (String _ s)), (IH _ Hlt (String _ "")).
  rewrite app_assoc_str. reflexivity.
Qed.

Lemma pretty_N_go_decimal (x : N) (s : string) :
  every PyText.is_decimal s = true -> every PyText.is_decimal (pretty_N_go x s) = true.
Proof.
  revert s. induction (N.lt_wf_0 x) as [x _ IH]; intros s Hs.
  destruct (decide (x = 0%N)) as [->|Hx]; [rewrite pretty_N_go_0; exact Hs|].
  rewrite pretty_N_go_step by lia. apply IH; [apply N.div_lt; lia|].
  simpl. rewrite (proj1 (pretty_N_char_decimal x)). exact Hs.
Qed.

Lemma digits_from_pretty (x : N) (s : string) :
  PyText.digits_from 0 false (pretty_N_go x s) = PyText.digits_from (Z.of_N x) false s.
Proof.
  revert s. induction (N.lt_wf_0 x) as [x _ IH]; intros s.
  destruct (decide (x = 0%N)) as [->|Hx]; [rewrite pretty_N_go_0; reflexivity|].
  rewrite pretty_N_go_step by lia. rewrite IH by (apply N.div_lt; lia).
  destruct (pretty_N_char_decimal x) as [Hd Hv].
  cbn [PyText.digits_from]. rewrite Hd, Hv. f_equal.
  pose proof (N.div_mod x 10). lia.
Qed.

(** The number of digits. *)
Lemma pretty_N_go_length (k : nat) (x : N) (s : string) :
  (10 ^ N.of_nat k <= x < 10 ^ N.of_nat (S k))%N ->
  String.length (pretty_N_go x s) = (S k + String.length s)%nat.
Proof.
  revert x s. induction k as [|k IH]; intros x s Hx.
  - change (1 <= x < 10)%N in Hx. rewrite pretty_N_go_step by lia.
    replace (x / 10)%N with 0%N by (symmetry; apply N.div_small; lia).
    rewrite pretty_N_go_0. reflexivity.
  - rewrite !Nat2N.inj_succ, !N.pow_succ_r' in Hx.
    assert (0 < 10 ^ N.of_nat k)%N by (apply N.neq_0_lt_0, N.pow_nonzero; discriminate).
    rewrite pretty_N_go_step by lia. rewrite IH.
    + simpl. lia.
    + rewrite Nat2N.inj_succ, N.pow_succ_r'.
      split; [apply N.div_le_lower_bound; lia | apply N.Div0.div_lt_upper_bound; lia].
Qed.

Lemma pretty_N_go_length_le (k : nat) (x : N) (s : string) :
  (x < 10 ^ N.of_nat k)%N ->
  (String.length (pretty_N_go x s) <= k + String.length s)%nat.
Proof.
  revert x s. induction k as [|k IH]; intros x s Hx.
  - change (x < 1)%N in Hx. replace x with 0%N by lia. rewrite pretty_N_go_0. lia.
  - destruct (decide (x = 0%N)) as [->|Hx0]; [rewrite pretty_N_go_0; lia|].
    rewrite Nat2N.inj_succ, N.pow_succ_r' in Hx.
    rewrite pretty_N_go_step by lia.
    etransitivity; [apply IH; apply N.Div0.div_lt_upper_bound; lia|simpl; lia].
Qed.

Lemma pretty_Z_nonneg (n : Z) :
  0 <= n -> pretty n = if decide (n = 0) then "0" else pretty_N_go (Z.to_N n) "".
Proof.
  intros Hn. destruct n as [|p|p]; [reflexivity| |lia].
  destruct (decide (Z.pos p = 0)); [discriminate|].
  unfold pretty, pretty_Z, pretty, pretty_positive, pretty, pretty_N.
  destruct (decide (N.pos p = 0%N)); [discriminate | reflexivity].
Qed.

Lemma str_int_decimal (n : Z) : 0 <= n -> every PyText.is_decimal (PyStr.of_int n) = true.
Proof.
  intros Hn. unfold PyStr.of_int. rewrite (pretty_Z_nonneg n Hn).
  destruct (decide (n = 0)); [reflexivity | apply pretty_N_go_decimal; reflexivity].
Qed.

Lemma str_int_length_le (k : nat) (n : Z) :
  (0 < k)%nat -> 0 <= n < 10 ^ Z.of_nat k -> (String.length (PyStr.of_int n) <= k)%nat.
Proof.
  intros Hk Hn. unfold PyStr.of_int. rewrite (pretty_Z_nonneg n) by lia.
  destruct (decide (n = 0)); [simpl; lia|].
  etransitivity; [apply (pretty_N_go_length_le k)|simpl; lia].
  apply N2Z.inj_lt. rewrite Z2N.id, N2Z.inj_pow, nat_N_Z by lia. simpl. lia.
Qed.

Lemma str_int_length (k : nat) (n : Z) :
  10 ^ Z.of_nat k <= n < 10 ^ Z.of_nat (S k) -> String.length (PyStr.of_int n) = S k.
Proof.
  intros Hn. assert (0 < 10 ^ Z.of_nat k) by (apply Z.pow_pos_nonneg; lia).
  unfold PyStr.of_int. rewrite (pretty_Z_nonneg n) by lia.
  destruct (decide (n = 0)); [lia|].
  rewrite (pretty_N_go_length k); [simpl; lia|].
  split; [apply N2Z.inj_le | apply N2Z.inj_lt];
    rewrite Z2N.id, N2Z.inj_pow, nat_N_Z by lia; simpl; lia.
Qed.

(** The numeral of [n] is that of [n / 10] followed by the last digit. *)
Lemma str_int_last_digit (n : Z) :
  10 <= n ->
  PyStr.of_int n = PyStr.of_int (n / 10) +:+ String (pretty_N_char (Z.to_N n mod 10)) "".
Proof.
  intros Hn. assert (1 <= n / 10) by (apply Z.div_le_lower_bound; lia).
  unfold PyStr.of_int. rewrite (pretty_Z_nonneg n), (pretty_Z_nonneg (n / 10)) by lia.
  destruct (decide (n = 0)); [lia|]. destruct (decide (n / 10 = 0)); [lia|].
  rewrite pretty_N_go_step by lia. rewrite pretty_N_go_app. f_equal. f_equal.
  rewrite Z2N.inj_div by lia. reflexivity.
Qed.

(** [int] reads a numeral back. *)
Lemma digits_decimal (s : string) :
  every PyText.is_decimal s = true -> s <> "" ->
  PyText.digits s = PyText.digits_from 0 false s.
Proof.
  destruct s as [|c s]; [congruence|]. simpl. intros [Hc _]%andb_true_iff _.
  rewrite Hc. reflexivity.
Qed.

Lemma int_of_str_decimal (s : string) :
  every PyText.is_decimal s = true -> s <> "" -> (String.length s <= 4300)%nat ->
  PyText.int_of_str s = PyText.digits_from 0 false s.
Proof.
  intros Hs Hne Hlen. unfold PyText.int_of_str.
  pose proof (every_impl _ _ _ decimal_not_int_space Hs) as Hsp.
  rewrite (lstrip_by_none _ _ Hsp), (rstrip_by_none _ _ Hsp).
  pose proof (count_decimal_length s).
  destruct (4300 <? PyText.count_decimal s)%nat eqn:E; [apply Nat.ltb_lt in E; lia|].
  rewrite <- (digits_decimal s Hs Hne).
  destruct s as [|c s]; [congruence|]. simpl in Hs. apply andb_true_iff in Hs as [Hc _].
  destruct c as [[] [] [] [] [] [] [] []]; try reflexivity; vm_compute in Hc; discriminate.
Qed.

Lemma int_of_str_str_int (n : Z) :
  0 <= n -> (String.length (PyStr.of_int n) <= 4300)%nat ->
  PyText.int_of_str (PyStr.of_int n) = Some n.
Proof.
  intros Hn Hlen. rewrite int_of_str_decimal; [|apply str_int_decimal, Hn| |exact Hlen].
  - unfold PyStr.of_int. rewrite (pretty_Z_nonneg n Hn).
    destruct (decide (n = 0)) as [->|Hne]; [reflexivity|].
    rewrite digits_from_pretty. simpl. rewrite Z2N.id by lia. reflexivity.
  - unfold PyStr.of_int. rewrite (pretty_Z_nonneg n Hn).
    destruct (decide (n = 0)); [discriminate|].
    intros E. assert (Hl : String.length (pretty_N_go (Z.to_N n) "") = O) by (rewrite E; reflexivity).
    destruct (decide (Z.to_N n < 10)%N).
    + rewrite (pretty_N_go_length 0) in Hl; [discriminate|]. change (1 <= Z.to_N n < 10)%N. lia.
    + rewrite pretty_N_go_step, pretty_N_go_app, length_app_str in Hl by lia.
      simpl in Hl. lia.
Qed.

(** ** The log pane: [_drain_queue] on the lines of [run_probe] *)

Lemma starts_with_digit_app (s x : string) :
  s <> "" -> starts_with_digit (s +:+ x) = starts_with_digit s.
Proof. destruct s; [congruence | reflexivity]. Qed.

Lemma digit_line_not_info (msg : string) :
  starts_with_digit msg = true ->
  PyText.startswith "TIME " msg || PyText.only_char "-" msg = false.
Proof.
  destruct msg as [|c r]; [discriminate|]. simpl. intros Hc.
  destruct (decide ("T"%char = c)) as [<-|_]; [discriminate|].
  destruct (bool_decide_reflect (c = "-"%char)) as [->|_]; [discriminate|].
  destruct r; reflexivity.
Qed.

Lemma timestamp_nonempty (ts : string) : timestamp ts -> ts <> "".
Proof. intros [Hl _] ->. discriminate. Qed.

Lemma status_text_length (status : option Z) :
  (forall s, status = Some s -> 0 <= s < 100000) ->
  (String.length (status_text status) <= 5)%nat.
Proof.
  intros H. destruct status as [s|]; [|simpl; lia].
  apply (str_int_length_le 5); [lia | exact (H s eq_refl)].
Qed.

Lemma int_of_str_short (k : nat) (n : Z) :
  (0 < k <= 4300)%nat -> 0 <= n < 10 ^ Z.of_nat k ->
  PyText.int_of_str (PyStr.of_int n) = Some n.
Proof.
  intros Hk Hn. apply int_of_str_str_int; [lia|].
  pose proof (str_int_length_le k n). lia.
Qed.

Lemma status_tag_code (k : nat) (s : Z) :
  (0 < k <= 4300)%nat -> 0 <= s < 10 ^ Z.of_nat k ->
  status_tag (PyStr.of_int s) = status_class s.
Proof.
  intros Hk Hs. unfold status_tag.
  destruct (decide (PyStr.of_int s = "ERR")) as [E|_]; [destruct (str_int_not_ERR _ E)|].
  rewrite (int_of_str_short k) by assumption. reflexivity.
Qed.

Lemma status_tag_outcome (status : option Z) :
  (forall s, status = Some s -> 0 <= s < 100000) ->
  status_tag (PyStr.strip (status_text status)) = outcome_class status.
Proof.
  intros H. destruct status as [s|]; [|reflexivity].
  specialize (H s eq_refl). unfold status_text, str_key.
  rewrite strip_decimal by (apply str_int_decimal; lia).
  apply (status_tag_code 5); [lia | exact H].
Qed.

(** The columns of a request line. *)
Lemma request_line_length (ts : string) (seq : Z) (status_display lat err : string) :
  (40 <= String.length (request_line ts seq status_display lat err))%nat.
Proof.
  unfold request_line. rewrite !length_app_str, ljust_length, !rjust_length. simpl. lia.
Qed.

Lemma request_line_first (ts : string) (seq : Z) (status_display lat err : string) :
  timestamp ts ->
  starts_with_digit (request_line ts seq status_display lat err) = true.
Proof.
  intros Hts. unfold request_line. rewrite (ljust_wide 23 ts) by (rewrite (proj1 Hts); lia).
  rewrite starts_with_digit_app by (apply timestamp_nonempty, Hts). apply Hts.
Qed.

(** The sequence column is read whatever the status column holds. *)
Lemma request_line_progress (ts : string) (seq : Z) (status_display lat err : string) :
  timestamp ts -> 0 <= seq < 1000000 ->
  drain_progress (request_line ts seq status_display lat err) = Some seq.
Proof.
  intros Hts Hseq.
  pose proof (request_line_length ts seq status_display lat err) as Hlen.
  pose proof (request_line_first ts seq status_display lat err Hts) as Hfirst.
  assert (H6 : String.length (PyText.rjust 6 (PyStr.of_int seq)) = 6%nat).
  { rewrite rjust_length. pose proof (str_int_length_le 6 seq). lia. }
  unfold drain_progress. rewrite Hfirst, (proj2 (Nat.leb_le 31 _)) by lia.
  cbn [andb]. clear Hlen Hfirst. unfold request_line.
  rewrite (ljust_wide 23 ts) by (rewrite (proj1 Hts); lia).
  rewrite <- (app_assoc_str ts "  ").
  rewrite slice_field; [|rewrite length_app_str, (proj1 Hts); reflexivity|exact H6].
  rewrite strip_rjust, strip_decimal by (apply str_int_decimal; lia).
  apply (int_of_str_short 6); lia.
Qed.

Lemma request_line_tag (ts : string) (seq : Z) (status_display lat err : string) :
  timestamp ts -> 0 <= seq < 1000000 -> (String.length status_display <= 5)%nat ->
  drain_tag (request_line ts seq status_display lat err)
  = status_tag (PyStr.strip status_display).
Proof.
  intros Hts Hseq Hstatus.
  pose proof (request_line_length ts seq status_display lat err) as Hlen.
  pose proof (request_line_first ts seq status_display lat err Hts) as Hfirst.
  assert (H6 : String.length (PyText.rjust 6 (PyStr.of_int seq)) = 6%nat).
  { rewrite rjust_length. pose proof (str_int_length_le 6 seq). lia. }
  assert (H5 : String.length (PyText.rjust 5 status_display) = 5%nat).
  { rewrite rjust_length. lia. }
  unfold drain_tag. rewrite digit_line_not_info by exact Hfirst.
  rewrite Hfirst, (proj2 (Nat.leb_le 40 _)) by lia.
  cbn [andb]. clear Hlen Hfirst. unfold request_line.
  rewrite (ljust_wide 23 ts) by (rewrite (proj1 Hts); lia).
  rewrite <- (app_assoc_str "  " (PyText.rjust 6 _)), <- (app_assoc_str ts).
  rewrite <- (app_assoc_str _ "  ").
  rewrite slice_field; [| |exact H5].
  - rewrite strip_rjust. reflexivity.
  - rewrite !length_app_str, H6, (proj1 Hts). reflexivity.
Qed.

(** X16: a request line of the first 999999 requests is read back by the log
    pane: the progress label takes the sequence number of the line, and the
    line is coloured by its status (green for 2xx, amber for 429, red for
    the other 4xx and 5xx and for a transport failure, no colour
    otherwise). *)
Theorem drain_reads_request_line (ts : string) (seq : Z) (status : option Z)
    (lat err : string) :
  timestamp ts -> 0 <= seq < 1000000 ->
  (forall s, status = Some s -> 0 <= s < 100000) ->
  drain_progress (request_line ts seq (status_text status) lat err) = Some seq /\
  drain_tag (request_line ts seq (status_text status) lat err) = outcome_class status.
Proof.
  intros Hts Hseq Hstatus. split; [apply request_line_progress; assumption|].
  rewrite request_line_tag by (try assumption; apply status_text_length, Hstatus).
  apply status_tag_outcome, Hstatus.
Qed.

Lemma drain_reads_request_line_witness :
  drain_progress (request_line "2024-01-02T03:04:05.678" 42 (status_text (Some 429))
                               "12.50" "") = Some 42 /\
  drain_tag (request_line "2024-01-02T03:04:05.678" 42 (status_text (Some 429))
                          "12.50" "") = outcome_class (Some 429).
Proof.
  apply (drain_reads_request_line "2024-01-02T03:04:05.678" 42 (Some 429) "12.50" "").
  - split; reflexivity.
  - lia.
  - intros s [= <-]. lia.
Defined.

(** X17: from the millionth request on the sequence number no longer fits
    its column and the line is misread: the progress label shows a tenth of
    the number, and a line with a three-digit status is given no colour. *)
Theorem drain_misreads_long_count (ts : string) (seq status : Z) (lat err : string) :
  timestamp ts -> 1000000 <= seq < 10000000 -> 100 <= status < 1000 ->
  drain_progress (request_line ts seq (status_text (Some status)) lat err)
    = Some (seq / 10) /\
  drain_tag (request_line ts seq (status_text (Some status)) lat err) = None.
Proof.
  intros Hts Hseq Hstatus.
  pose proof (request_line_length ts seq (status_text (Some status)) lat err) as Hlen.
  pose proof (request_line_first ts seq (status_text (Some status)) lat err Hts) as Hfirst.
  assert (H7 : String.length (PyStr.of_int seq) = 7%nat) by (apply (str_int_length 6); lia).
  assert (H3 : String.length (PyStr.of_int status) = 3%nat) by (apply (str_int_length 2); lia).
  assert (H6 : String.length (PyStr.of_int (seq / 10)) = 6%nat).
  { apply (str_int_length 5).
    change (100000 <= seq / 10 < 1000000). Z.div_mod_to_equations. lia. }
  assert (Hs10 : 10 <= status / 10 < 100) by (Z.div_mod_to_equations; lia).
  assert (Hq : 100000 <= seq / 10 < 1000000) by (Z.div_mod_to_equations; lia).
  assert (H2 : String.length (PyStr.of_int (status / 10)) = 2%nat).
  { apply (str_int_length 1). exact Hs10. }
  unfold drain_progress, drain_tag. rewrite digit_line_not_info by exact Hfirst.
  rewrite Hfirst, (proj2 (Nat.leb_le 31 _)), (proj2 (Nat.leb_le 40 _)) by lia.
  cbn [andb].
  clear Hlen Hfirst. unfold request_line, status_text, str_key.
  rewrite (ljust_wide 23 ts) by (rewrite (proj1 Hts); lia).
  rewrite (rjust_wide 6) by lia.
  assert (E5 : PyText.rjust 5 (PyStr.of_int status) = PyText.spaces 2 +:+ PyStr.of_int status)
    by (unfold PyText.rjust; rewrite H3; reflexivity).
  rewrite E5. clear E5.
  rewrite (str_int_last_digit seq), (str_int_last_digit status) by lia.
  set (d := String (pretty_N_char (Z.to_N seq mod 10)) "").
  set (d' := String (pretty_N_char (Z.to_N status mod 10)) "").
  set (rest := PyText.rjust 8 lat +:+ "  " +:+ err). split.
  - rewrite <- (app_assoc_str ts "  "), (app_assoc_str (PyStr.of_int (seq / 10))).
    rewrite slice_field; [|rewrite length_app_str, (proj1 Hts); reflexivity|exact H6].
    rewrite strip_decimal by (apply str_int_decimal; lia).
    apply (int_of_str_short 6); [lia|].
    change (0 <= seq / 10 < 1000000). lia.
  - transitivity (status_tag (PyStr.strip (PyText.slice 33 38
      ((ts +:+ "  " +:+ PyStr.of_int (seq / 10) +:+ d +:+ " ")
       +:+ (PyText.spaces 3 +:+ PyStr.of_int (status / 10))
       +:+ d' +:+ "  " +:+ rest)))).
    { f_equal. f_equal. f_equal. rewrite !app_assoc_str. reflexivity. }
    rewrite slice_field.
    + unfold PyStr.strip. rewrite lstrip_spaces. fold (PyStr.strip (PyStr.of_int (status / 10))).
      rewrite strip_decimal by (apply str_int_decimal; lia).
      rewrite (status_tag_code 2) by (change (10 ^ Z.of_nat 2) with 100; lia).
      unfold status_class.
      repeat match goal with |- context [if ?b then _ else _] =>
        let E := fresh in destruct b eqn:E; try lia end.
      reflexivity.
    + rewrite !length_app_str, H6, (proj1 Hts). reflexivity.
    + rewrite length_app_str, H2. reflexivity.
Qed.

Lemma drain_misreads_long_count_witness :
  drain_progress (request_line "2024-01-02T03:04:05.678" 1234567 (status_text (Some 200))
                               "12.50" "") = Some (1234567 / 10) /\
  drain_tag (request_line "2024-01-02T03:04:05.678" 1234567 (status_text (Some 200))
                          "12.50" "") = None.
Proof.
  apply (drain_misreads_long_count "2024-01-02T03:04:05.678" 1234567 200 "12.50" "").
  - split; reflexivity.
  - lia.
  - lia.
Defined.

(** ** [run_probe]: what every run maintains *)

(** A property of the state that recording an outcome with a latency,
    noting a ghost event and looking at the flag preserve holds throughout
    the loops. *)
Section ProbeInvariant.
Variable P : probe_state -> Prop.
Hypothesis P_record : forall st status l error,
  P st -> P (record_outcome st status (Some l) error).
Hypothesis P_trace : forall g st, P st -> P (push_trace g st).
Hypothesis P_stop : forall b st, P st -> P (observe_stop b st).

Lemma process_finished_inv st id r : timed r -> P st -> P (process_finished st id r).
Proof.
  intros Ht Hst. destruct r as [status [l|] error | [|name text]]; simpl in *.
  - apply P_record, Hst.
  - contradiction.
  - apply P_trace, Hst.
  - apply P_record, Hst.
Qed.

Lemma process_all_inv req done : forall st,
  P st -> P (foldl (fun s t => process_finished s (task_id t) (task_result req t)) st done).
Proof.
  induction done as [|t done IH]; intros st Hst; simpl; [exact Hst|].
  apply IH, process_finished_inv; [apply task_result_timed | exact Hst].
Qed.

Lemma poll_inv req p st pending : P st -> P (fst (poll req p st pending)).
Proof.
  intros Hst. unfold poll. destruct (take_done _ _) as [done pending']. simpl.
  apply process_all_inv, P_stop, Hst.
Qed.

Lemma wait_loop_inv req polls : forall st pending,
  P st -> P (wait_loop req polls st pending).
Proof.
  induction polls as [|p polls IH]; intros st pending Hst;
    destruct pending as [|t pending]; simpl; try exact Hst.
  - apply (poll_inv req _ st (t :: pending) Hst).
  - pose proof (poll_inv req p st (t :: pending) Hst) as Hp.
    destruct (poll req p st (t :: pending)) as [st' pending']. apply IH, Hp.
Qed.

Lemma run_wave_inv req rps w st : P st -> P (run_wave req rps w st).
Proof.
  intros Hst. unfold run_wave.
  set (st1 := wait_loop _ _ _ _).
  assert (H1 : P st1) by (apply wait_loop_inv, P_trace, Hst).
  destruct (PyFloat.gt _ _); [|exact H1].
  destruct (negb _); [apply P_trace|]; apply P_stop, H1.
Qed.

Lemma run_waves_inv req rps end_time ws : forall st,
  P st -> P (run_waves req rps end_time ws st).
Proof.
  induction ws as [|w ws IH]; intros st Hst; simpl; [exact Hst|].
  destruct (PyFloat.lt _ _); [|exact Hst].
  destruct (negb _); [|apply P_stop, Hst].
  apply IH, run_wave_inv, P_stop, Hst.
Qed.
End ProbeInvariant.

(** *** The log *)

Lemma numbered_snoc (lines : list log_entry) : forall from status lat err,
  numbered from lines ->
  numbered from (lines ++ [LogRequest (from + Z.of_nat (length lines)) status lat err]).
Proof.
  induction lines as [|[seq s l e|a b] lines IH]; intros from status lat err H.
  - simpl. split; [lia | exact I].
  - destruct H as [-> H]. split; [reflexivity|].
    replace (from + Z.of_nat (length (LogRequest from s l e :: lines)))
      with (from + 1 + Z.of_nat (length lines)) by (simpl length; lia).
    apply IH, H.
  - destruct H.
Qed.

Lemma record_outcome_logged q0 st status l error :
  logged q0 st -> logged q0 (record_outcome st status (Some l) error).
Proof.
  intros (lines & Hq & Hn & Hl). unfold logged, record_outcome. simpl.
  eexists (lines ++ [_]). split; [rewrite Hq, <- (assoc_L (++)); reflexivity|].
  split; [|rewrite length_app; simpl; lia].
  rewrite <- Hl, Z.add_comm. apply numbered_snoc, Hn.
Qed.

Lemma run_waves_logged q0 req rps end_time ws st :
  logged q0 st -> logged q0 (run_waves req rps end_time ws st).
Proof.
  apply run_waves_inv.
  - intros. apply record_outcome_logged. assumption.
  - intros g s H. exact H.
  - intros b s H. exact H.
Qed.

(** X3: the log of a run.  Whatever the queue held at the start is kept;
    after it comes one line per recorded request, numbered 1, 2, ...,
    [total_sent] in the order of recording; the last line is the closing
    line, with the same total and elapsed time as the summary. *)
Theorem run_probe_log_is_numbered
    (url method : string) (rps duration_s : Z) (timeout_s : float)
    (headers : PyDict.t string string) (body : option (list Byte.byte))
    (log_queue : list log_entry) (stop_flag : bool) (env : run_script) :
  let r := run_probe url method rps duration_s timeout_s headers body
                     log_queue stop_flag env in
  exists lines,
    st_queue (snd r)
    = log_queue ++ lines ++ [LogEnd (total_sent (fst r)) (elapsed_s (fst r))] /\
    numbered 1 lines /\ Z.of_nat (length lines) = total_sent (fst r).
Proof.
  unfold run_probe. simpl.
  set (st0 := mkProbe 0 [] LatencyStats_new log_queue stop_flag []).
  assert (H0 : logged log_queue st0).
  { exists []. split; [simpl; rewrite app_nil_r; reflexivity|]. split; [exact I | reflexivity]. }
  destruct (run_waves_logged log_queue (mkRequest method url timeout_s headers body) rps
              (PrimFloat.add (start env) (PyFloat.of_int duration_s)) (waves env) st0 H0)
    as (lines & Hq & Hn & Hl).
  exists lines. rewrite Hq, <- (assoc_L (++)). repeat split; assumption.
Qed.

Lemma lines_with_status_app text a b :
  lines_with_status text (a ++ b) = lines_with_status text a + lines_with_status text b.
Proof.
  induction a as [|[seq s l e|x y] a IH]; simpl; [reflexivity| |exact IH].
  rewrite IH. lia.
Qed.

Lemma counter_get_incr k k0 c :
  counter_get k (counter_incr k0 c)
  = if decide (k = k0) then counter_get k0 c + 1 else counter_get k c.
Proof.
  unfold counter_incr, counter_get at 1. rewrite dict_get_set.
  destruct (decide (k = k0)); reflexivity.
Qed.

Lemma record_outcome_matches q0 st status latency_ms error :
  log_matches_counter q0 st ->
  log_matches_counter q0 (record_outcome st status latency_ms error).
Proof.
  intros H k Hk. unfold record_outcome. simpl.
  set (key := match status with Some s => KInt s | None => KStr "ERR" end).
  assert (Hkey : probe_key key) by (destruct status; [right; eauto | left; reflexivity]).
  rewrite lines_with_status_app, counter_get_incr, (H k Hk). simpl.
  destruct (decide (str_key key = str_key k)) as [E|E];
    destruct (decide (k = key)) as [->|Hne]; try lia.
  - destruct Hne. symmetry. exact (str_key_inj _ _ Hkey Hk E).
  - congruence.
Qed.

Lemma run_waves_matches q0 req rps end_time ws st :
  log_matches_counter q0 st -> log_matches_counter q0 (run_waves req rps end_time ws st).
Proof.
  apply run_waves_inv.
  - intros. apply record_outcome_matches. assumption.
  - intros g s H. exact H.
  - intros b s H. exact H.
Qed.

(** X4: the log and the status counts of a run agree.  For every status
    code, and for the error marker, the number of log lines added by the run
    whose status column shows it is the count the summary holds for it
    (zero when the summary has no entry). *)
Theorem run_probe_log_matches_counts
    (url method : string) (rps duration_s : Z) (timeout_s : float)
    (headers : PyDict.t string string) (body : option (list Byte.byte))
    (log_queue : list log_entry) (stop_flag : bool) (env : run_script)
    (status : option Z) :
  let r := run_probe url method rps duration_s timeout_s headers body
                     log_queue stop_flag env in
  lines_with_status (status_text status) (st_queue (snd r))
  = lines_with_status (status_text status) log_queue
    + counter_get (match status with None => KStr "ERR" | Some s => KInt s end)
                  (status_counts (fst r)).
Proof.
  unfold run_probe. simpl.
  set (st0 := mkProbe 0 [] LatencyStats_new log_queue stop_flag []).
  assert (H0 : log_matches_counter log_queue st0).
  { intros k _. unfold counter_get. simpl. lia. }
  pose proof (run_waves_matches log_queue (mkRequest method url timeout_s headers body) rps
                (PrimFloat.add (start env) (PyFloat.of_int duration_s)) (waves env) st0 H0)
    as H.
  rewrite lines_with_status_app. simpl. rewrite Z.add_0_r.
  apply H. destruct status; [right; eauto | left; reflexivity].
Qed.

(** *** Runs that send nothing *)

Lemma wait_loop_nil req polls st : wait_loop req polls st [] = st.
Proof. destruct polls; reflexivity. Qed.

Lemma run_waves_idle q0 req rps end_time ws : forall st,
  rps <= 0 -> idle q0 st -> idle q0 (run_waves req rps end_time ws st).
Proof.
  intros st Hrps. revert st.
  induction ws as [|w ws IH]; intros st Hst; simpl; [exact Hst|].
  destruct (PyFloat.lt _ _); [|exact Hst].
  assert (H0 : idle q0 (observe_stop (stop_before_test w) st)) by exact Hst.
  destruct (negb _); [|exact H0].
  apply IH. unfold run_wave. replace (Z.to_nat rps) with O by lia. simpl.
  rewrite wait_loop_nil.
  assert (H1 : idle q0 (push_trace (Launched 0) (observe_stop (stop_before_test w) st))).
  { destruct Hst as (? & ? & ? & ? & Htr). unfold idle. simpl.
    rewrite launched_app. simpl. repeat split; try assumption. lia. }
  destruct (PyFloat.gt _ _); [|exact H1].
  destruct (negb _); [|exact H1].
  destruct H1 as (? & ? & ? & ? & Htr). unfold idle. simpl in *.
  rewrite launched_app. simpl. repeat split; try assumption. lia.
Qed.

(** X5: a run that finds the stop flag set, or that is asked for no
    request per second ([rps <= 0]), sends nothing: no request is launched,
    the summary counts nothing, and the only line added to the log is the
    closing line. *)
Theorem run_probe_sends_nothing
    (url method : string) (rps duration_s : Z) (timeout_s : float)
    (headers : PyDict.t string string) (body : option (list Byte.byte))
    (log_queue : list log_entry) (stop_flag : bool) (env : run_script) :
  stop_flag = true \/ rps <= 0 ->
  let r := run_probe url method rps duration_s timeout_s headers body
                     log_queue stop_flag env in
  total_sent (fst r) = 0 /\ status_counts (fst r) = [] /\
  latencies (fst r) = LatencyStats_new /\
  launched (trace (snd r)) = 0 /\
  st_queue (snd r) = log_queue ++ [LogEnd 0 (elapsed_s (fst r))].
Proof.
  intros H. unfold run_probe. simpl.
  set (st0 := mkProbe 0 [] LatencyStats_new log_queue stop_flag []).
  set (req := mkRequest method url timeout_s headers body).
  set (end_time := PrimFloat.add (start env) (PyFloat.of_int duration_s)).
  assert (Hidle : idle log_queue (run_waves req rps end_time (waves env) st0)).
  { destruct H as [-> | Hrps].
    - rewrite run_waves_stopped by reflexivity. repeat split.
    - apply run_waves_idle; [exact Hrps | repeat split]. }
  destruct Hidle as (Hs & Hc & Hl & Hq & Htr).
  rewrite Hs, Hc, Hl, Hq, Htr. repeat split.
Qed.

Lemma run_probe_sends_nothing_witness :
  let r := run_probe "http://localhost/" "GET" 3 5 5 [] None [] true run_stopped in
  total_sent (fst r) = 0 /\ status_counts (fst r) = [] /\
  latencies (fst r) = LatencyStats_new /\
  launched (trace (snd r)) = 0 /\
  st_queue (snd r) = [] ++ [LogEnd 0 (elapsed_s (fst r))].
Proof.
  apply (run_probe_sends_nothing "http://localhost/" "GET" 3 5 5 [] None [] true run_stopped).
  left. reflexivity.
Defined.

(** X2: every request of a run is accounted for once: the requests
    launched are those recorded in [total_sent] and those skipped because
    they were cancelled. *)
Theorem run_probe_accounts_for_every_request
    (url method : string) (rps duration_s : Z) (timeout_s : float)
    (headers : PyDict.t string string) (body : option (list Byte.byte))
    (log_queue : list log_entry) (stop_flag : bool) (env : run_script) :
  let r := run_probe url method rps duration_s timeout_s headers body
                     log_queue stop_flag env in
  total_sent (fst r) + skipped (trace (snd r)) = launched (trace (snd r)) /\
  0 <= total_sent (fst r) /\ 0 <= skipped (trace (snd r)).
Proof.
  unfold run_probe. simpl.
  set (st0 := mkProbe 0 [] LatencyStats_new log_queue stop_flag []).
  set (req := mkRequest method url timeout_s headers body).
  set (end_time := PrimFloat.add (start env) (PyFloat.of_int duration_s)).
  pose proof (run_waves_accounted req rps end_time (waves env) st0 eq_refl) as Hacc.
  destruct (run_waves_logged log_queue req rps end_time (waves env) st0) as (lines & _ & _ & Hl).
  { exists []. split; [simpl; rewrite app_nil_r; reflexivity|]. split; [exact I | reflexivity]. }
  unfold resolved in Hacc. split; [exact Hacc|]. split; [lia|].
  generalize (trace (run_waves req rps end_time (waves env) st0)).
  intros tr. induction tr as [|[n|i|d] tr IH]; simpl; lia.
Qed.

(** ** [show_summary]: the figures of the summary window *)

Lemma dict_get_absent {K V} `{EqDecision K} (k : K) (d : PyDict.t K V) :
  k ∉ PyDict.keys d -> PyDict.get k d = None.
Proof.
  unfold PyDict.keys. induction d as [|[k' v'] d IH]; simpl; intros H; [reflexivity|].
  destruct (decide (k = k')) as [->|_]; [destruct H; left|].
  apply IH. intros Hin. apply H. right. exact Hin.
Qed.

Lemma dict_set_values {K V} `{EqDecision K} (P : V -> Prop) (k : K) (v : V)
    (d : PyDict.t K V) :
  P v -> Forall P (PyDict.values d) -> Forall P (PyDict.values (PyDict.set k v d)).
Proof.
  unfold PyDict.values. intros Hv. induction d as [|[k' v'] d IH]; simpl; intros Hd.
  - constructor; [exact Hv | constructor].
  - inversion Hd as [|? ? Hv' Hd']; subst.
    destruct (decide (k = k')); simpl; constructor; auto.
Qed.

Lemma counter_get_nonneg k c : counts_positive c -> 0 <= counter_get k c.
Proof.
  unfold counts_positive, counter_get, PyDict.values.
  induction c as [|[k' v'] c IH]; simpl; intros H; [lia|].
  inversion H as [|? ? Hv Hc]; subst.
  destruct (decide (k = k')); simpl; [lia | apply IH, Hc].
Qed.

Lemma sum_statuses_nonneg p c : counts_positive c -> 0 <= sum_statuses p c.
Proof.
  unfold counts_positive, PyDict.values.
  induction c as [|[[s|s] v] c IH]; simpl; intros H; [lia| |];
    inversion H as [|? ? Hv Hc]; subst; specialize (IH Hc); [|exact IH].
  destruct (p s); lia.
Qed.

Lemma record_outcome_positive st status latency_ms error :
  counts_positive (st_counts st) ->
  counts_positive (st_counts (record_outcome st status latency_ms error)).
Proof.
  intros H. unfold record_outcome, counter_incr. simpl.
  apply dict_set_values; [|exact H].
  pose proof (counter_get_nonneg
    (match status with Some s => KInt s | None => KStr "ERR" end) _ H). lia.
Qed.

Lemma run_waves_positive req rps end_time ws st :
  counts_positive (st_counts st) ->
  counts_positive (st_counts (run_waves req rps end_time ws st)).
Proof.
  apply (run_waves_inv (fun s => counts_positive (st_counts s))).
  - intros. apply record_outcome_positive. assumption.
  - intros g s H. exact H.
  - intros b s H. exact H.
Qed.

(** With distinct keys, reading one status is summing over it. *)
Lemma sum_statuses_absent n c :
  KInt n ∉ PyDict.keys c -> sum_statuses (fun s => s =? n) c = 0.
Proof.
  unfold PyDict.keys. induction c as [|[[s|s] v] c IH]; simpl; intros H; [reflexivity| |].
  - destruct (Z.eqb_spec s n) as [->|_]; [destruct H; left|].
    apply IH. intros Hin. apply H. right. exact Hin.
  - apply IH. intros Hin. apply H. right. exact Hin.
Qed.

Lemma counter_get_sum n c :
  NoDup (PyDict.keys c) -> counter_get (KInt n) c = sum_statuses (fun s => s =? n) c.
Proof.
  unfold counter_get, PyDict.keys.
  induction c as [|[[s|s] v] c IH]; simpl; intros H; [reflexivity| |];
    apply NoDup_cons in H as [Hk Hc].
  - destruct (decide (KInt n = KInt s)) as [[= ->]|Hne].
    + rewrite Z.eqb_refl, sum_statuses_absent by exact Hk. simpl. lia.
    + destruct (Z.eqb_spec s n) as [->|_]; [congruence|]. rewrite (IH Hc). lia.
  - destruct (decide (KInt n = KStr s)); [discriminate | exact (IH Hc)].
Qed.

(** The counter of a run: the statuses, and the error marker. *)
Lemma counter_total_split c :
  NoDup (PyDict.keys c) -> Forall probe_key (PyDict.keys c) ->
  counter_total c = sum_statuses (fun _ => true) c + counter_get (KStr "ERR") c.
Proof.
  unfold counter_total, counter_get, PyDict.keys, PyDict.values.
  induction c as [|[[s|s] v] c IH]; simpl; intros Hnd Hall; [reflexivity| |];
    apply NoDup_cons in Hnd as [Hk Hnd]; inversion Hall as [|? ? Hp Hrest]; subst;
    specialize (IH Hnd Hrest).
  - destruct (decide (KStr "ERR" = KInt s)); [discriminate|]. lia.
  - destruct Hp as [[= ->]|[n [=]]].
    destruct (decide (KStr "ERR" = KStr "ERR")); [|congruence].
    rewrite (dict_get_absent _ _ Hk) in IH. simpl in *. lia.
Qed.

Lemma sum_statuses_partition (a b c d : Z -> bool) (counts : PyDict.t status_key Z) :
  (forall s, a s || b s || c s || d s = true) ->
  (forall s, a s && (b s || c s || d s) = false) ->
  (forall s, b s && (c s || d s) = false) ->
  (forall s, c s && d s = false) ->
  sum_statuses (fun _ => true) counts
  = sum_statuses a counts + sum_statuses b counts + sum_statuses c counts
    + sum_statuses d counts.
Proof.
  intros H1 H2 H3 H4. induction counts as [|[[s|s] v] counts IH]; simpl; [reflexivity| |exact IH].
  specialize (H1 s). specialize (H2 s). specialize (H3 s). specialize (H4 s).
  destruct (a s), (b s), (c s), (d s); simpl in *; try discriminate; lia.
Qed.

(** X6: the figures of the summary window after a run.  Successes (2xx),
    rate-limited answers (429), other failures (the other statuses from 400
    on, and the transport errors) and the answers of no class (below 200,
    and 3xx) add up to [total_sent]; none of them is negative, and the
    transport errors are among the other failures.  So the three figures
    shown never exceed the total. *)
Theorem summary_figures_partition
    (url method : string) (rps duration_s : Z) (timeout_s : float)
    (headers : PyDict.t string string) (body : option (list Byte.byte))
    (log_queue : list log_entry) (stop_flag : bool) (env : run_script) :
  let summary := fst (run_probe url method rps duration_s timeout_s headers body
                                log_queue stop_flag env) in
  let f := summary_figures summary in
  success f + rate_limited f + other_failures f
    + sum_statuses unclassified (status_counts summary) = total_sent summary /\
  0 <= success f /\ 0 <= rate_limited f /\
  0 <= error_count f <= other_failures f /\
  success f + rate_limited f + other_failures f <= total_sent summary.
Proof.
  unfold run_probe. simpl.
  set (st0 := mkProbe 0 [] LatencyStats_new log_queue stop_flag []).
  set (req := mkRequest method url timeout_s headers body).
  set (end_time := PrimFloat.add (start env) (PyFloat.of_int duration_s)).
  destruct (run_waves_agree req rps end_time (waves env) st0) as [Htotal _];
    [split; reflexivity|].
  destruct (run_waves_counter req rps end_time (waves env) st0) as [Hnd Hkeys];
    [split; constructor|].
  pose proof (run_waves_positive req rps end_time (waves env) st0) as Hpos.
  specialize (Hpos ltac:(constructor)).
  set (c := st_counts (run_waves req rps end_time (waves env) st0)) in *.
  rewrite <- Htotal. clear Htotal.
  change (default 0 (PyDict.get (KInt 429) c)) with (counter_get (KInt 429) c).
  change (default 0 (PyDict.get (KStr "ERR") c)) with (counter_get (KStr "ERR") c).
  rewrite (counter_total_split c Hnd Hkeys), (counter_get_sum 429 c Hnd).
  rewrite (sum_statuses_partition
             (fun s => (200 <=? s) && (s <? 300)) (fun s => s =? 429)
             (fun s => (400 <=? s) && negb (s =? 429)) unclassified c).
  - pose proof (sum_statuses_nonneg (fun s => (200 <=? s) && (s <? 300)) c Hpos).
    pose proof (sum_statuses_nonneg (fun s => s =? 429) c Hpos).
    pose proof (sum_statuses_nonneg (fun s => (400 <=? s) && negb (s =? 429)) c Hpos).
    pose proof (sum_statuses_nonneg unclassified c Hpos).
    pose proof (counter_get_nonneg (KStr "ERR") c Hpos).
    lia.
  - intros s. unfold unclassified.
    destruct (Z.leb_spec 200 s), (Z.ltb_spec s 300), (Z.eqb_spec s 429),
      (Z.leb_spec 400 s), (Z.ltb_spec s 200), (Z.leb_spec 300 s), (Z.ltb_spec s 400);
      simpl; try reflexivity; lia.
  - intros s. unfold unclassified.
    destruct (Z.leb_spec 200 s), (Z.ltb_spec s 300), (Z.eqb_spec s 429),
      (Z.leb_spec 400 s), (Z.ltb_spec s 200), (Z.leb_spec 300 s), (Z.ltb_spec s 400);
      simpl; try reflexivity; lia.
  - intros s. unfold unclassified.
    destruct (Z.eqb_spec s 429), (Z.leb_spec 400 s), (Z.ltb_spec s 200),
      (Z.leb_spec 300 s), (Z.ltb_spec s 400); simpl; try reflexivity; lia.
  - intros s. unfold unclassified.
    destruct (Z.eqb_spec s 429), (Z.leb_spec 400 s), (Z.ltb_spec s 200),
      (Z.leb_spec 300 s), (Z.ltb_spec s 400); simpl; try reflexivity; lia.
Qed.

(** ** [LatencyStats]: the order of the samples *)

Section LatencyOrder.
Import FloatOrder.

Lemma SFleb_antisym a b : SFleb a b = true -> SFleb b a = true -> SFeqb a b = true.
Proof. spec_cases. Qed.

Lemma le_antisym a b :
  PyFloat.le a b = true -> PyFloat.le b a = true -> PrimFloat.eqb a b = true.
Proof.
  unfold PyFloat.le. rewrite !FloatAxioms.leb_spec, FloatAxioms.eqb_spec.
  apply SFleb_antisym.
Qed.

Lemma tracks_permutation seen seen' s s' :
  seen ≡ₚ seen' -> tracks seen s -> tracks seen' s' ->
  count s = count s' /\
  same_number (min_ms s) (min_ms s') /\ same_number (max_ms s) (max_ms s').
Proof.
  intros Hp [Hc Hr] [Hc' Hr']. split; [rewrite Hc, Hc', Hp; reflexivity|].
  destruct Hr as [(-> & -> & ->) | (mn & mx & -> & -> & Hmn & Hmx & Hall)].
  - apply Permutation_nil_l in Hp. subst seen'.
    destruct Hr' as [(_ & -> & ->) | (mn' & mx' & _ & _ & Hin & _)]; [split; exact I|].
    apply elem_of_nil in Hin. contradiction.
  - destruct Hr' as [(-> & _) | (mn' & mx' & -> & -> & Hmn' & Hmx' & Hall')].
    + apply Permutation_nil_r in Hp. subst seen. apply elem_of_nil in Hmn. contradiction.
    + rewrite Hp in Hmn, Hmx. rewrite <- Hp in Hmn', Hmx'.
      split; simpl; apply le_antisym;
        solve [apply Hall; assumption | apply Hall'; assumption].
Qed.

(** X8: [count], [min_ms] and [max_ms] do not depend on the order in which
    the samples were added (the completions of a wave are processed in the
    order the event loop reports them): two orders of the same numbers give
    the same count and extremes that are equal as numbers. *)
Theorem latency_extremes_order_free (samples samples' : list float) :
  Forall is_number samples -> samples ≡ₚ samples' ->
  let s := add_all LatencyStats_new samples in
  let s' := add_all LatencyStats_new samples' in
  count s = count s' /\
  same_number (min_ms s) (min_ms s') /\ same_number (max_ms s) (max_ms s').
Proof.
  intros Hnum Hp s s'.
  assert (Hnum' : Forall is_number samples') by (rewrite <- Hp; exact Hnum).
  apply (tracks_permutation samples samples'); [exact Hp| |].
  - apply (tracks_add_all samples [] LatencyStats_new); [constructor | exact Hnum | apply tracks_new].
  - apply (tracks_add_all samples' [] LatencyStats_new); [constructor | exact Hnum' | apply tracks_new].
Qed.
End LatencyOrder.

Lemma latency_extremes_order_free_witness :
  let s := add_all LatencyStats_new [12.5; 3; 40]%float in
  let s' := add_all LatencyStats_new [40; 12.5; 3]%float in
  count s = count s' /\
  same_number (min_ms s) (min_ms s') /\ same_number (max_ms s) (max_ms s').
Proof.
  apply (latency_extremes_order_free [12.5; 3; 40]%float [40; 12.5; 3]%float).
  - repeat constructor.
  - symmetry. apply (Permutation_cons_append [12.5; 3]%float 40%float).
Defined.

(** ** [parse_header_lines]: the mapping it returns *)

Lemma rstrip_last init c :
  PyStr.is_space c = false -> PyStr.rstrip (init +:+ String c "") = init +:+ String c "".
Proof.
  intros Hc. induction init as [|x init IH].
  - simpl. rewrite Hc. reflexivity.
  - change (PyStr.rstrip (String x (init +:+ String c "")) = String x (init +:+ String c "")).
    simpl. rewrite IH. destruct (init +:+ String c "") eqn:E; [|reflexivity].
    destruct init; discriminate.
Qed.

Lemma trimmed_strip s : trimmed s -> PyStr.strip s = s.
Proof.
  intros [-> | [(c & rest & -> & Hc) (init & c' & E & Hc')]]; [reflexivity|].
  unfold PyStr.strip. simpl PyStr.lstrip. rewrite Hc, E. apply rstrip_last, Hc'.
Qed.

Lemma strip_idempotent s : PyStr.strip (PyStr.strip s) = PyStr.strip s.
Proof. destruct (strip_trims s) as (_ & _ & _ & _ & _ & H). apply trimmed_strip, H. Qed.

Lemma line_entry_clean line name value :
  line_entry line name value -> name <> "" -> clean_header name value.
Proof.
  intros (a & b & _ & Ha & -> & ->) Hne. split; [exact Hne|].
  split; [apply strip_idempotent|].
  split; [rewrite (contains_strip colon a colon_not_space); exact Ha | apply strip_idempotent].
Qed.

Lemma parse_header_line_clean h line h' :
  parse_header_line h line = Ok h' ->
  NoDup (PyDict.keys h) /\ (forall n v, (n, v) ∈ h -> clean_header n v) ->
  NoDup (PyDict.keys h') /\ (forall n v, (n, v) ∈ h' -> clean_header n v).
Proof.
  intros H [Hnd Hall].
  destruct (parse_header_line_ok _ _ _ H) as [_ [[-> _] | (n0 & v0 & Hne & -> & He)]];
    [split; assumption|].
  split; [apply dict_set_nodup, Hnd|].
  intros n v Hin. apply dict_set_elem in Hin as [[= -> ->] | Hin]; [|apply Hall, Hin].
  apply (line_entry_clean line); [apply He; split; reflexivity | exact Hne].
Qed.

Lemma parse_header_loop_clean lines : forall h m,
  parse_header_loop h lines = Ok m ->
  NoDup (PyDict.keys h) /\ (forall n v, (n, v) ∈ h -> clean_header n v) ->
  NoDup (PyDict.keys m) /\ (forall n v, (n, v) ∈ m -> clean_header n v).
Proof.
  induction lines as [|line lines IH]; intros h m H Hh; simpl in H.
  - injection H as <-. exact Hh.
  - destruct (parse_header_line h line) as [h'|e] eqn:Hline; simpl in H; [|discriminate].
    apply (IH h' m H). apply (parse_header_line_clean h line h' Hline Hh).
Qed.

(** X9: the headers [parse_header_lines] returns are fit to be sent: the
    names are distinct, none is empty, none contains a colon, and neither a
    name nor a value has white space at either end. *)
Theorem parse_header_lines_clean (raw : string) (m : PyDict.t string string) :
  parse_header_lines raw = Ok m ->
  NoDup (PyDict.keys m) /\
  forall name value, (name, value) ∈ m -> clean_header name value.
Proof.
  intros H. apply (parse_header_loop_clean _ [] m H).
  split; [constructor|]. intros n v Hin. apply elem_of_nil in Hin. contradiction.
Qed.

Lemma parse_header_lines_clean_witness :
  NoDup (PyDict.keys [("Accept", "text/plain"); ("X-Id", "7")]) /\
  forall name value,
    (name, value) ∈ [("Accept", "text/plain"); ("X-Id", "7")] -> clean_header name value.
Proof.
  apply (parse_header_lines_clean
           ("  Accept :  text/plain " +:+ newline +:+ newline +:+ "X-Id:7")).
  reflexivity.
Defined.

(** ** Presets: [to_dict], [from_dict], [apply_config], [save_preset] and
    [load_preset] *)

Section PresetRoundTrip.
Variable py_upper : string -> string.
Variable py_str : json -> string.
Variable py_int : json -> result Z.
Variable py_float : json -> result float.
(** [str], [int] and [float] give back a text, an integer and a float. *)
Hypothesis py_str_text : forall s, py_str (JStr s) = s.
Hypothesis py_int_int : forall n, py_int (JInt n) = Ok n.
Hypothesis py_float_float : forall x, py_float (JFloat x) = Ok x.

Lemma from_dict_to_dict (cfg : RunConfig) :
  from_dict py_upper py_str py_int py_float (RunConfig_to_dict cfg)
  = from_fields (PyStr.strip (url cfg)) (method_or_get py_upper (method cfg))
                (rps cfg) (duration_s cfg) (timeout_s cfg)
                (headers_text cfg) (body_text cfg).
Proof.
  unfold from_dict, RunConfig_to_dict, get_default. simpl.
  rewrite !py_str_text, py_int_int, py_int_int, py_float_float. simpl.
  assert (E : forall s, py_str (or_empty (JStr s)) = s).
  { intros s. unfold or_empty. simpl. unfold PyStr.truthy.
    destruct (bool_decide_reflect (s = "")) as [->|_]; simpl; apply py_str_text. }
  rewrite !E. reflexivity.
Qed.

(** X10: a configuration written by [to_dict] is read back by [from_dict]
    as the same configuration, provided it was built by [from_fields] from
    a trimmed URL and a method in the form [from_dict] gives it (trimmed,
    upper case, not empty). *)
Theorem preset_round_trip (cfg : RunConfig) :
  PyStr.strip (url cfg) = url cfg ->
  method_or_get py_upper (method cfg) = method cfg ->
  from_fields (url cfg) (method cfg) (rps cfg) (duration_s cfg) (timeout_s cfg)
              (headers_text cfg) (body_text cfg) = Ok cfg ->
  from_dict py_upper py_str py_int py_float (RunConfig_to_dict cfg) = Ok cfg.
Proof. intros Hu Hm Hf. rewrite from_dict_to_dict, Hu, Hm. exact Hf. Qed.
End PresetRoundTrip.

Lemma preset_round_trip_witness :
  from_dict ascii_upper str_of_json int_of_json float_of_json
            (RunConfig_to_dict config_example) = Ok config_example.
Proof.
  apply (preset_round_trip ascii_upper str_of_json int_of_json float_of_json);
    reflexivity.
Defined.

Lemma from_fields_fields u m r d t ht bt cfg :
  from_fields u m r d t ht bt = Ok cfg ->
  url cfg = u /\ method cfg = m /\ rps cfg = r /\ duration_s cfg = d /\
  timeout_s cfg = t /\ headers_text cfg = ht /\ body_text cfg = bt.
Proof.
  unfold from_fields. destruct (parse_header_lines ht); simpl; [|discriminate].
  intros [= <-]. repeat split.
Qed.

Lemma collect_config_inv py_upper int_of_str float_of_str f cfg :
  collect_config py_upper int_of_str float_of_str f = Some cfg ->
  exists r d t,
    int_of_str (PyStr.strip (e_rps f)) = Some r /\
    int_of_str (PyStr.strip (e_dur f)) = Some d /\
    float_of_str (PyStr.strip (e_to f)) = Some t /\
    PyStr.strip (e_url f) <> "" /\ 0 < r /\ 0 < d /\ PyFloat.le t 0%float = false /\
    from_fields (PyStr.strip (e_url f)) (method_or_get py_upper (cb_method f)) r d t
                (txt_headers f) (txt_body f) = Ok cfg.
Proof.
  unfold collect_config.
  destruct (int_of_str (PyStr.strip (e_rps f))) as [r|]; [|discriminate].
  destruct (int_of_str (PyStr.strip (e_dur f))) as [d|]; [|discriminate].
  destruct (float_of_str (PyStr.strip (e_to f))) as [t|]; [|discriminate].
  destruct (PyStr.truthy (PyStr.strip (e_url f))) eqn:Hu; [|discriminate].
  destruct (Z.leb_spec r 0); [discriminate|].
  destruct (Z.leb_spec d 0); [discriminate|].
  destruct (PyFloat.le t 0%float) eqn:Ht; [discriminate|]. simpl.
  destruct (from_fields _ _ _ _ _ _ _) as [c|e] eqn:Hf; [|discriminate].
  intros [= <-]. exists r, d, t. repeat split; try assumption; try reflexivity.
  intros E. apply truthy_false in E. congruence.
Qed.

Lemma int_of_str_strip_str_int (n : Z) :
  0 <= n -> (String.length (PyStr.of_int n) <= 4300)%nat ->
  PyText.int_of_str (PyStr.strip (PyStr.of_int n)) = Some n.
Proof.
  intros Hn Hlen. rewrite strip_decimal by (apply str_int_decimal; lia).
  apply int_of_str_str_int; assumption.
Qed.

Section PresetFiles.
Variable py_upper : string -> string.
Variable float_of_str : string -> option float.
Variable float_str : float -> string.
Variable py_str : json -> string.
Variable py_int : json -> result Z.
Variable py_float : json -> result float.
Variable text : Type.
Variable dumps : json -> text.
Variable loads : text -> option json.
Hypothesis py_str_text : forall s, py_str (JStr s) = s.
Hypothesis py_int_int : forall n, py_int (JInt n) = Ok n.
Hypothesis py_float_float : forall x, py_float (JFloat x) = Ok x.
Hypothesis loads_dumps : forall v, json_wf v = true -> loads (dumps v) = Some v.

(** The form filled by [apply_config] is collected as the configuration
    that filled it. *)
Lemma collect_apply_config (cfg : RunConfig) :
  url cfg <> "" -> PyStr.strip (url cfg) = url cfg ->
  method_or_get py_upper (method cfg) = method cfg ->
  0 < rps cfg -> 0 < duration_s cfg ->
  (String.length (PyStr.of_int (rps cfg)) <= 4300)%nat ->
  (String.length (PyStr.of_int (duration_s cfg)) <= 4300)%nat ->
  PyFloat.le (timeout_s cfg) 0%float = false ->
  float_of_str (PyStr.strip (float_str (timeout_s cfg))) = Some (timeout_s cfg) ->
  from_fields (url cfg) (method cfg) (rps cfg) (duration_s cfg) (timeout_s cfg)
              (headers_text cfg) (body_text cfg) = Ok cfg ->
  collect_config py_upper PyText.int_of_str float_of_str (apply_config float_str cfg)
  = Some cfg.
Proof.
  intros Hne Hu Hm Hr Hd Hrl Hdl Ht Hfl Hf. unfold collect_config, apply_config. simpl.
  rewrite !int_of_str_strip_str_int by (assumption || lia). rewrite Hfl, Hu, Hm, Ht, Hf.
  apply truthy_true in Hne. rewrite Hne.
  destruct (Z.leb_spec (rps cfg) 0); [lia|].
  destruct (Z.leb_spec (duration_s cfg) 0); [lia|]. reflexivity.
Qed.

(** X11: a preset saved from the form comes back.  When the form is
    accepted and a path is chosen, [save_preset] followed by [load_preset]
    on that path fills the form with the saved configuration, and the form
    is then collected as that same configuration.  This needs a method that
    is already in the form [from_dict] gives it, a rate and a duration that
    [str] writes with at most 4300 digits, and a timeout whose text reads
    back as the same float. *)
Theorem preset_file_round_trip
    (fs : PyDict.t string text) (f f0 : form) (path : string) (cfg : RunConfig) :
  collect_config py_upper PyText.int_of_str float_of_str f = Some cfg ->
  path <> "" ->
  method_or_get py_upper (method cfg) = method cfg ->
  (String.length (PyStr.of_int (rps cfg)) <= 4300)%nat ->
  (String.length (PyStr.of_int (duration_s cfg)) <= 4300)%nat ->
  float_of_str (PyStr.strip (float_str (timeout_s cfg))) = Some (timeout_s cfg) ->
  let fs' := save_preset py_upper PyText.int_of_str float_of_str text dumps fs f path in
  let f' := load_preset py_upper float_str py_str py_int py_float text loads fs' path f0 in
  f' = apply_config float_str cfg /\
  collect_config py_upper PyText.int_of_str float_of_str f' = Some cfg.
Proof.
  intros Hc Hp Hm Hr Hd Hfl fs' f'.
  destruct (collect_config_inv _ _ _ _ _ Hc) as (r & d & t & _ & _ & _ & Hu & Hr0 & Hd0 & Ht & Hf).
  destruct (from_fields_fields _ _ _ _ _ _ _ _ Hf) as (Eu & Em & Er & Ed & Et & Eh & Eb).
  assert (Hf' : from_fields (url cfg) (method cfg) (rps cfg) (duration_s cfg) (timeout_s cfg)
                            (headers_text cfg) (body_text cfg) = Ok cfg)
    by (rewrite Eu, Em, Er, Ed, Et, Eh, Eb; exact Hf).
  assert (Hstrip : PyStr.strip (url cfg) = url cfg)
    by (rewrite Eu; apply strip_idempotent).
  assert (E : f' = apply_config float_str cfg).
  { unfold f', fs', load_preset, save_preset. rewrite Hc.
    apply truthy_true in Hp. rewrite Hp. simpl negb. cbv iota.
    rewrite (load_after_save text dumps loads loads_dumps) by reflexivity.
    cbn [rbind]. change (preset_fields _) with (Ok (RunConfig_to_dict cfg)). cbn [rbind].
    rewrite (from_dict_to_dict py_upper py_str py_int py_float
               py_str_text py_int_int py_float_float).
    rewrite Hstrip, Hm, Hf'. reflexivity. }
  split; [exact E|]. rewrite E.
  apply collect_apply_config; try assumption.
  - rewrite Eu. exact Hu.
  - rewrite Er. exact Hr0.
  - rewrite Ed. exact Hd0.
  - rewrite Et. exact Ht.
Qed.
End PresetFiles.

Lemma preset_file_round_trip_witness :
  let fs' := save_preset ascii_upper PyText.int_of_str float_example json id
                         [] form_example "preset.json" in
  let f' := load_preset ascii_upper float_str_example str_of_json int_of_json float_of_json
                        json Some fs' "preset.json" form_example in
  f' = apply_config float_str_example
         (mkRunConfig "http://localhost/" "GET" 3 5 2.5 [("Accept", "text/plain")] None
                      "Accept: text/plain" "") /\
  collect_config ascii_upper PyText.int_of_str float_example f'
  = Some (mkRunConfig "http://localhost/" "GET" 3 5 2.5 [("Accept", "text/plain")] None
                      "Accept: text/plain" "").
Proof.
  apply (preset_file_round_trip ascii_upper float_example float_str_example
           str_of_json int_of_json float_of_json json id Some
           (fun _ => eq_refl) (fun _ => eq_refl) (fun _ => eq_refl) (fun v _ => eq_refl)
           [] form_example form_example "preset.json").
  - reflexivity.
  - discriminate.
  - reflexivity.
  - simpl. lia.
  - simpl. lia.
  - reflexivity.
Defined.

(** ** [run_headless]: what is done, and in which order *)

Lemma io_bind_inputs {A B} (m : io A) (k : A -> io B) :
  Forall input_event (fst m) -> (forall x, Forall input_event (fst (k x))) ->
  Forall input_event (fst (io_bind m k)).
Proof.
  intros Hm Hk. destruct m as [tr [x|e]]; simpl; [|exact Hm].
  specialize (Hk x). destruct (k x) as [tr' r]. simpl in *.
  apply Forall_app. split; assumption.
Qed.

Section HeadlessTrace.
Variable py_upper : string -> string.
Variable py_str : json -> string.
Variable py_int : json -> result Z.
Variable py_float : json -> result float.
Variable round3 : float -> float.
Variable read_text : string -> result string.
Variable read_json : string -> result json.
Variable write_text : string -> list log_entry -> result unit.
Variable write_json : string -> PyDict.t string json -> result unit.

Lemma inline_or_file_inputs inline path :
  Forall input_event (fst (inline_or_file read_text inline path)).
Proof.
  unfold inline_or_file. destruct (PyStr.opt_truthy inline); [constructor|].
  destruct (PyStr.opt_truthy path); [|constructor].
  apply io_bind_inputs; [repeat constructor | intros; constructor].
Qed.

Lemma headless_config_inputs a :
  Forall input_event
    (fst (headless_config py_upper py_str py_int py_float read_text read_json a)).
Proof.
  unfold headless_config.
  apply io_bind_inputs; [constructor | intros _].
  apply io_bind_inputs; [apply inline_or_file_inputs | intros headers_txt].
  apply io_bind_inputs; [apply inline_or_file_inputs | intros body_txt].
  apply io_bind_inputs.
  - destruct (PyStr.opt_truthy (arg_preset a)); [|constructor].
    apply io_bind_inputs; [repeat constructor | intros _].
    apply io_bind_inputs; [constructor | intros data].
    apply io_bind_inputs; [repeat constructor | intros _].
    apply io_bind_inputs; [constructor | intros preset; constructor].
  - intros [[[[[[u m] r] d] t] ht] bt].
    destruct (negb (PyStr.truthy u)); [constructor|].
    apply io_bind_inputs; [repeat constructor | intros _; constructor].
Qed.


(** X14: with a preset, the command line wins whenever its value is not
    empty or zero.  As [build_parser] gives [--method], [--rps],
    [--duration] and [--timeout] the defaults GET, 5, 30 and 10.0, the
    method, rate, duration and timeout of a preset are used only when the
    command line passes an empty method or a zero. *)
Theorem headless_command_line_wins (a : args) (tr : list event) (config : RunConfig) :
  PyStr.opt_truthy (arg_preset a) = true ->
  arg_method a <> "" -> arg_rps a <> 0 -> arg_duration a <> 0 ->
  PyFloat.truthy (arg_timeout a) = true ->
  headless_config py_upper py_str py_int py_float read_text read_json a = (tr, Ok config) ->
  method config = method_or_get py_upper (arg_method a) /\
  rps config = arg_rps a /\ duration_s config = arg_duration a /\
  timeout_s config = arg_timeout a.
Proof.
  intros Hp Hm Hr Hd Ht. unfold headless_config. rewrite Hp.
  destruct (io_lift (headless_checks a)) as [tr0 [[]|e0]]; simpl; [|discriminate].
  destruct (inline_or_file read_text (arg_headers a) (arg_headers_path a))
    as [tr1 [headers_txt|e1]]; simpl; [|discriminate].
  destruct (inline_or_file read_text (arg_body a) (arg_body_path a))
    as [tr2 [body_txt|e2]]; simpl; [|discriminate].
  destruct (read_json (default "" (arg_preset a))) as [data|e3]; simpl; [|discriminate].
  destruct (preset_fields data) as [fields|e4]; simpl; [|discriminate].
  destruct (from_dict py_upper py_str py_int py_float fields) as [preset|e5]; simpl;
    [|discriminate].
  apply truthy_true in Hm. rewrite Hm.
  unfold int_or, float_or. rewrite Ht.
  destruct (Z.eqb_spec (arg_rps a) 0); [contradiction|].
  destruct (Z.eqb_spec (arg_duration a) 0); [contradiction|].
  destruct (negb (PyStr.truthy _)); simpl; [discriminate|].
  destruct (from_fields _ _ _ _ _ _ _) as [c|e6] eqn:Hf; simpl; [|discriminate].
  intros [= _ <-]. apply from_fields_fields in Hf as (_ & -> & -> & -> & -> & _).
  repeat split.
Qed.
End HeadlessTrace.

Lemma headless_command_line_wins_witness :
  let config := mkRunConfig "http://localhost/" "GET" 5 30 10 [] None "" "" in
  method config = method_or_get ascii_upper "GET" /\
  rps config = 5 /\ duration_s config = 30 /\ timeout_s config = 10%float.
Proof.
  apply (headless_command_line_wins ascii_upper str_of_json int_of_json float_of_json
           (fun p => Raise (OSError p)) (fun _ => Ok preset_example) args_preset
           [EvLoadJson "preset.json"; EvFromDict; EvFromFields]).
  - reflexivity.
  - discriminate.
  - discriminate.
  - discriminate.
  - reflexivity.
  - reflexivity.
Defined.

(** The defaults of [build_parser] are such values: with [--preset] and
    none of the four options, the run takes GET, 5, 30 and 10.0. *)
Lemma parser_defaults_are_truthy :
  arg_method parser_defaults <> "" /\ arg_rps parser_defaults <> 0 /\
  arg_duration parser_defaults <> 0 /\
  PyFloat.truthy (arg_timeout parser_defaults) = true.
Proof. repeat split; try discriminate; reflexivity. Qed.



(** ** The summary of a run as JSON *)

Lemma json_int_total_counts (c : PyDict.t status_key Z) :
  json_int_total (map (fun kv => (str_key (fst kv), JInt (snd kv))) c) = counter_total c.
Proof.
  unfold counter_total, PyDict.values.
  induction c as [|[k v] c IH]; simpl; [reflexivity | rewrite IH; reflexivity].
Qed.

(** X7: the JSON summary of a run is consistent with itself: the object
    under "status_counts" has one entry per status seen and its numbers add
    up to the number under "total_sent", which is also the "count" of the
    object under "latency". *)
Theorem run_summary_json_adds_up
    (round3 : float -> float)
    (url method : string) (rps duration_s : Z) (timeout_s : float)
    (headers : PyDict.t string string) (body : option (list Byte.byte))
    (log_queue : list log_entry) (stop_flag : bool) (env : run_script) :
  let s := fst (run_probe url method rps duration_s timeout_s headers body
                          log_queue stop_flag env) in
  let d := to_dict round3 s in
  exists counts latency,
    PyDict.get "total_sent" d = Some (JInt (total_sent s)) /\
    PyDict.get "status_counts" d = Some (JObj counts) /\
    PyDict.get "latency" d = Some (JObj latency) /\
    length counts = length (status_counts s) /\
    json_int_total counts = total_sent s /\
    PyDict.get "count" latency = Some (JInt (total_sent s)).
Proof.
  intros s d.
  pose proof (run_probe_key_texts_distinct url method rps duration_s timeout_s headers body
                log_queue stop_flag env) as Hkeys.
  fold s in Hkeys.
  assert (Hagree : counter_total (status_counts s) = total_sent s /\
                   count (latencies s) = total_sent s).
  { unfold s, run_probe. simpl.
    apply (run_waves_agree (mkRequest method url timeout_s headers body) rps
             (PrimFloat.add (start env) (PyFloat.of_int duration_s)) (waves env)
             (mkProbe 0 [] LatencyStats_new log_queue stop_flag [])).
    split; reflexivity. }
  destruct Hagree as [Hc Hl]. clearbody s.
  exists (map (fun kv => (str_key (fst kv), JInt (snd kv))) (status_counts s)),
         (latency_to_dict round3 (latencies s)).
  split; [reflexivity|].
  split; [unfold d, to_dict; simpl; rewrite (status_counts_to_dict_distinct _ Hkeys);
          reflexivity|].
  split; [reflexivity|].
  split; [apply length_map|].
  split; [rewrite json_int_total_counts; exact Hc|].
  destruct (latency_to_dict_cases round3 (latencies s)) as [H0 H1].
  destruct (decide (count (latencies s) = 0)) as [E|E].
  - rewrite (H0 E), <- Hl, E. reflexivity.
  - rewrite (H1 E), Hl. reflexivity.
Qed.

(** ** A summary file read as a preset *)

Section SummaryAsPreset.
Variable py_upper : string -> string.
Variable py_str : json -> string.
Variable py_int : json -> result Z.
Variable py_float : json -> result float.
Variable round3 : float -> float.
Variable text : Type.
Variable dumps : json -> text.
Variable loads : text -> option json.
Hypothesis py_str_text : forall s, py_str (JStr s) = s.
Hypothesis py_int_int : forall n, py_int (JInt n) = Ok n.
Hypothesis py_float_float : forall x, py_float (JFloat x) = Ok x.
Hypothesis loads_dumps : forall v, json_wf v = true -> loads (dumps v) = Some v.

(** X12: the file that [run_headless --summary-json] and the summary
    window write holds the configuration of the run under "config", where
    the preset loader looks first: read as a preset, it gives that
    configuration back (for a configuration built by [from_fields] from a
    trimmed URL and a method in the form [from_dict] gives it). *)
Theorem summary_file_is_a_preset
    (fs : PyDict.t string text) (path : string) (cfg : RunConfig) (summary : RunSummary) :
  PyStr.strip (url cfg) = url cfg ->
  method_or_get py_upper (method cfg) = method cfg ->
  from_fields (url cfg) (method cfg) (rps cfg) (duration_s cfg) (timeout_s cfg)
              (headers_text cfg) (body_text cfg) = Ok cfg ->
  (data <-! load_json text loads
              (save_json text dumps fs path (summary_payload round3 cfg summary)) path ;;
   fields <-! preset_fields data ;;
   from_dict py_upper py_str py_int py_float fields) = Ok cfg.
Proof.
  intros Hu Hm Hf.
  rewrite (load_after_save text dumps loads loads_dumps) by apply summary_payload_wf.
  cbn [rbind]. change (preset_fields _) with (Ok (RunConfig_to_dict cfg)). cbn [rbind].
  rewrite (from_dict_to_dict py_upper py_str py_int py_float
             py_str_text py_int_int py_float_float).
  rewrite Hu, Hm. exact Hf.
Qed.
End SummaryAsPreset.

Lemma summary_file_is_a_preset_witness :
  (data <-! load_json json Some
              (save_json json id [] "summary.json"
                         (summary_payload id config_example summary_stopped))
              "summary.json" ;;
   fields <-! preset_fields data ;;
   from_dict ascii_upper str_of_json int_of_json float_of_json fields) = Ok config_example.
Proof.
  apply (summary_file_is_a_preset ascii_upper str_of_json int_of_json float_of_json id
           json id Some (fun _ => eq_refl) (fun _ => eq_refl) (fun _ => eq_refl)
           (fun v _ => eq_refl) [] "summary.json" config_example summary_stopped);
    reflexivity.
Defined.

(** ** The progress label after a run *)

Lemma drain_messages_app (a b : list string) : forall p,
  fst (drain_messages p (a ++ b)) = fst (drain_messages (fst (drain_messages p a)) b).
Proof.
  induction a as [|msg a IH]; intros p; [reflexivity|].
  simpl. specialize (IH (match drain_progress msg with Some c => Some c | None => p end)).
  destruct (drain_messages _ (a ++ b)) as [f1 s1].
  destruct (drain_messages _ a) as [f2 s2]. exact IH.
Qed.

Section LogPane.
Variable fmt2 : float -> string.
Variable end_text : Z -> float -> string.
(** The closing line starts with a letter. *)
Hypothesis end_text_first : forall n t, starts_with_digit (end_text n t) = false.

Lemma drain_numbered (lines : list log_entry) : forall from stamps p,
  numbered from lines -> Forall timestamp stamps -> length stamps = length lines ->
  0 <= from -> from + Z.of_nat (length lines) <= 1000000 ->
  fst (drain_messages p (zip_with (entry_line fmt2 end_text) stamps lines))
  = match lines with
    | [] => p
    | _ => Some (from + Z.of_nat (length lines) - 1)
    end.
Proof.
  induction lines as [|[seq status l err|n t] lines IH]; intros from stamps p Hn Hts Hlen H0 Hmax.
  - destruct stamps; reflexivity.
  - destruct stamps as [|ts stamps]; [discriminate|].
    destruct Hn as [-> Hn]. inversion Hts as [|? ? Hts1 Hts2]; subst.
    injection Hlen as Hlen. simpl length in Hmax.
    cbn [zip_with drain_messages entry_line].
    rewrite request_line_progress by (try assumption; lia).
    specialize (IH (from + 1) stamps (Some from) Hn Hts2 Hlen ltac:(lia) ltac:(lia)).
    destruct (drain_messages (Some from) _) as [f1 s1]. simpl in IH. simpl fst.
    rewrite IH. destruct lines; [f_equal; simpl; lia | f_equal; simpl length; lia].
  - destruct Hn.
Qed.

(** X18: when a run of fewer than a million requests is over and the log
    pane has drained its lines, the progress label shows [total_sent] (it is
    left as it was when nothing was sent). *)
Theorem drain_shows_total_sent
    (url method : string) (rps duration_s : Z) (timeout_s : float)
    (headers : PyDict.t string string) (body : option (list Byte.byte))
    (stop_flag : bool) (env : run_script) (stamps : list string) (p : option Z) :
  let r := run_probe url method rps duration_s timeout_s headers body [] stop_flag env in
  Forall timestamp stamps -> length stamps = length (st_queue (snd r)) ->
  total_sent (fst r) < 1000000 ->
  fst (drain_messages p (zip_with (entry_line fmt2 end_text) stamps (st_queue (snd r))))
  = if total_sent (fst r) =? 0 then p else Some (total_sent (fst r)).
Proof.
  unfold run_probe. simpl.
  set (st0 := mkProbe 0 [] LatencyStats_new [] stop_flag []).
  destruct (run_waves_logged [] (mkRequest method url timeout_s headers body) rps
              (PrimFloat.add (start env) (PyFloat.of_int duration_s)) (waves env) st0)
    as (lines & Hq & Hn & Hl).
  { exists []. split; [reflexivity|]. split; [exact I | reflexivity]. }
  rewrite Hq. simpl app. intros Hts Hlen Hmax.
  rewrite length_app in Hlen. simpl in Hlen.
  rewrite <- (take_drop (length lines) stamps).
  rewrite zip_with_app by (rewrite length_take; lia).
  rewrite drain_messages_app.
  rewrite (drain_numbered lines 1 (take (length lines) stamps) p Hn);
    [|apply Forall_take, Hts|rewrite length_take; lia|lia|lia].
  destruct (drop (length lines) stamps) as [|ts rest] eqn:Hdrop.
  { apply (f_equal length) in Hdrop. rewrite length_drop in Hdrop. simpl in Hdrop. lia. }
  cbn [zip_with entry_line drain_messages].
  unfold drain_progress at 1. rewrite end_text_first. cbn [andb].
  destruct rest; cbn [zip_with drain_messages fst].
  - rewrite <- Hl. destruct lines; [reflexivity|].
    simpl length. destruct (Z.eqb_spec (Z.of_nat (S (length lines))) 0); [lia|]. f_equal. lia.
  - rewrite <- Hl. destruct lines; [reflexivity|].
    simpl length. destruct (Z.eqb_spec (Z.of_nat (S (length lines))) 0); [lia|]. f_equal. lia.
Qed.
End LogPane.

Lemma drain_shows_total_sent_witness :
  let r := run_probe "http://localhost/" "GET" 2 5 5 [] None [] false run_two_outcomes in
  fst (drain_messages None
         (zip_with (entry_line fmt2_example end_text_example) stamps_example
                   (st_queue (snd r))))
  = if total_sent (fst r) =? 0 then None else Some (total_sent (fst r)).
Proof.
  apply (drain_shows_total_sent fmt2_example end_text_example (fun _ _ => eq_refl)
           "http://localhost/" "GET" 2 5 5 [] None false run_two_outcomes
           stamps_example None).
  - repeat constructor.
  - reflexivity.
  - reflexivity.
Defined.

(** The heading of the log pane is shown as information and leaves the
    progress label alone. *)
Lemma header_line_is_info :
  drain_tag HEADER_LINE = Some TagInfo /\ drain_progress HEADER_LINE = None.
Proof. split; reflexivity. Qed.

(** * [RunSummary.to_dict]: the serialised record *)

(** ** [float] on an [int] *)

(** On the integers of a machine word [float] is the processor's
    conversion. *)
Lemma of_int_uint63 (n : Z) :
  0 <= n < 2 ^ 63 -> PyFloat.of_int n = PrimFloat.of_uint63 (Uint63.of_Z n).
Proof.
  intros Hn. unfold PyFloat.of_int.
  rewrite <- (FloatAxioms.SF2Prim_Prim2SF (PrimFloat.of_uint63 (Uint63.of_Z n))).
  rewrite FloatAxioms.of_uint63_spec, Uint63.of_Z_spec.
  rewrite Z.mod_small by exact Hn. reflexivity.
Qed.

(** ** The figures of the latency object *)

Lemma or_zero_figure (x : option float) : figure_of x (PyFloat.or_zero x).
Proof.
  destruct x as [a|]; simpl; [|reflexivity].
  unfold PyFloat.truthy. destruct (PrimFloat.eqb a 0); reflexivity.
Qed.

Lemma mean_quotient (l : LatencyStats) :
  count l <> 0 ->
  mean l = Some (PrimFloat.div (total_ms l) (PyFloat.of_int (count l))).
Proof. intros H. unfold mean. destruct (decide (count l = 0)); [contradiction | reflexivity]. Qed.

(** ** The text of [isoformat] *)

Lemma read_digits_decimal (a : string) : forall k acc rest,
  every PyText.is_decimal a = true -> String.length a = k ->
  read_digits k acc (a +:+ rest) = (v ← PyText.digits_from acc false a; Some (v, rest)).
Proof.
  induction a as [|c a IH]; intros k acc rest Ha <-; [reflexivity|].
  simpl in Ha. apply andb_true_iff in Ha as [Hc Ha].
  change (String c a +:+ rest) with (String c (a +:+ rest)).
  simpl. rewrite Hc. apply IH; [exact Ha | reflexivity].
Qed.

Lemma pad_zeros_decimal (j : nat) (s : string) :
  every PyText.is_decimal s = true -> every PyText.is_decimal (PyStr.pad_zeros j s) = true.
Proof. intros Hs. induction j as [|j IH]; simpl; [exact Hs | exact IH]. Qed.

Lemma pad_zeros_length (j : nat) (s : string) :
  String.length (PyStr.pad_zeros j s) = (j + String.length s)%nat.
Proof. induction j as [|j IH]; simpl; [reflexivity | rewrite IH; reflexivity]. Qed.

Lemma digits_from_pad_zeros (j : nat) (s : string) :
  PyText.digits_from 0 false (PyStr.pad_zeros j s) = PyText.digits_from 0 false s.
Proof. induction j as [|j IH]; simpl; [reflexivity | exact IH]. Qed.

Lemma digits_from_str_int (n : Z) :
  0 <= n -> PyText.digits_from 0 false (PyStr.of_int n) = Some n.
Proof.
  intros Hn. unfold PyStr.of_int. rewrite (pretty_Z_nonneg n Hn).
  destruct (decide (n = 0)) as [->|Hne]; [reflexivity|].
  rewrite digits_from_pretty. simpl. rewrite Z2N.id by lia. reflexivity.
Qed.

(** A number written with [width] digits is read back. *)
Lemma read_zero_padded (width : nat) (n : Z) (rest : string) :
  (0 < width)%nat -> 0 <= n < 10 ^ Z.of_nat width ->
  read_digits width 0 (PyStr.zero_padded width n +:+ rest) = Some (n, rest).
Proof.
  intros Hw Hn. unfold PyStr.zero_padded.
  pose proof (str_int_length_le width n Hw Hn) as Hlen. unfold PyStr.of_int in Hlen.
  rewrite read_digits_decimal.
  - rewrite digits_from_pad_zeros. fold (PyStr.of_int n).
    rewrite digits_from_str_int by lia. reflexivity.
  - apply pad_zeros_decimal. fold (PyStr.of_int n). apply str_int_decimal. lia.
  - rewrite pad_zeros_length. lia.
Qed.

Lemma read_char_app (c : ascii) (rest : string) :
  read_char c (String c "" +:+ rest) = Some rest.
Proof.
  change (String c "" +:+ rest) with (String c rest). simpl.
  destruct (decide (c = c)); [reflexivity | congruence].
Qed.

(** The text that [to_dict] stores under "started_at" is read as the
    date and time of the summary. *)
Lemma isoformat_read (dt : datetime) :
  valid_datetime dt -> read_iso8601_utc (isoformat dt +:+ "Z") = Some dt.
Proof.
  intros Hv. pose proof Hv as (Hy & Hmo & Hd & Hh & Hmi & Hs & Hus).
  unfold read_iso8601_utc, isoformat. rewrite !app_assoc_str.
  rewrite read_zero_padded by (simpl; lia). cbn [mbind option_bind].
  rewrite read_char_app. cbn [mbind option_bind].
  rewrite read_zero_padded by (simpl; lia). cbn [mbind option_bind].
  rewrite read_char_app. cbn [mbind option_bind].
  rewrite read_zero_padded by (simpl; lia). cbn [mbind option_bind].
  rewrite read_char_app. cbn [mbind option_bind].
  rewrite read_zero_padded by (simpl; lia). cbn [mbind option_bind].
  rewrite read_char_app. cbn [mbind option_bind].
  rewrite read_zero_padded by (simpl; lia). cbn [mbind option_bind].
  rewrite read_char_app. cbn [mbind option_bind].
  rewrite read_zero_padded by (simpl; lia). cbn [mbind option_bind].
  destruct (decide (microsecond dt = 0)) as [E|E].
  - change ("" +:+ "Z") with "Z". cbn [mbind option_bind].
    rewrite decide_True; [destruct dt; simpl in *; subst; reflexivity|].
    split; [|reflexivity]. destruct dt; simpl in *; subst. exact Hv.
  - rewrite app_assoc_str. change ("." +:+ ?x) with (String "." x). cbv beta iota.
    rewrite read_zero_padded by (simpl; lia). cbn [mbind option_bind].
    rewrite decide_True; [destruct dt; reflexivity|].
    split; [|reflexivity]. destruct dt; exact Hv.
Qed.

(** C7: for every summary whose date is a date and whose latency count
    converts to a float, the record [to_dict] builds has the five fields
    [total_sent] (the integer), [elapsed_s] ([round(elapsed_s, 3)]),
    [status_counts] (an object with distinct names, one per text of a
    status key, each entry the count of a key with that text),
    [started_at] (a text that reads as the ISO-8601 timestamp of the
    summary's date and time, closed by the UTC designator "Z") and
    [latency], which is {"count": 0} when the count is zero and otherwise
    holds the count and, each rounded to three decimals, the average (the
    total divided by the count), the minimum and the maximum, with 0.0 for
    a figure that is absent or zero. *)
Theorem to_dict_fields (round3 : float -> float) (s : RunSummary) :
  valid_datetime (started_at s) ->
  PyFloat.fits (count (latencies s)) = true ->
  serialised round3 s (to_dict round3 s).
Proof.
  intros Hdate _.
  destruct (latency_to_dict_cases round3 (latencies s)) as [Hzero Hpos].
  unfold serialised. cbv zeta.
  split; [reflexivity|]. split; [reflexivity|]. split; [reflexivity|].
  split; [|split; [|split]].
  - exists (status_counts_to_dict (status_counts s)). split; [reflexivity|].
    split; [apply (of_items_keys_nodup (K:=string))|]. split.
    + intros name v Hin. unfold status_counts_to_dict in Hin.
      apply of_items_elem, list_elem_of_fmap in Hin as ([k n] & E & Hkn).
      injection E as -> ->. exists k, n. repeat split. exact Hkn.
    + intros k Hk. unfold status_counts_to_dict. apply of_items_keys.
      unfold PyDict.keys in Hk. apply list_elem_of_fmap in Hk as ([k' n] & -> & Hkn).
      rewrite <- list_fmap_compose. apply list_elem_of_fmap. exists (k', n).
      split; [reflexivity | exact Hkn].
  - exists (isoformat (started_at s) +:+ "Z"). split; [reflexivity|].
    apply isoformat_read, Hdate.
  - intros H. unfold to_dict. simpl. rewrite (Hzero H). reflexivity.
  - intros H.
    exists (PyFloat.or_zero (mean (latencies s))),
           (PyFloat.or_zero (min_ms (latencies s))),
           (PyFloat.or_zero (max_ms (latencies s))).
    split; [unfold to_dict; simpl; rewrite (Hpos H); reflexivity|].
    split; [rewrite <- (mean_quotient _ H)|split]; apply or_zero_figure.
Qed.

Lemma to_dict_fields_witness :
  serialised (fun x => x) summary_stopped (to_dict (fun x => x) summary_stopped).
Proof.
  apply (to_dict_fields (fun x => x) summary_stopped).
  - vm_compute. repeat split; discriminate.
  - vm_compute. reflexivity.
Defined.
